(** * Balance-consistency ledger of the Bitcoin Budget storage layer

    A shallow embedding of [BudgetStorageService] (budget-storage.ts) and
    [AccountStorage] (account-storage.ts) over an explicit model of the
    IndexedDB object stores they read and write (indexeddb.ts).

    Modelling conventions.
    - Monetary amounts are JavaScript numbers holding integer sats; they are
      modelled as [Z].  A sum or difference of safe integers whose result is
      a safe integer is exact in the code, and the operations are embedded
      with the [+] and [-] of [Z].  Module [Double] embeds the
      balance-changing operations once more with the rounding of double
      arithmetic written out; the laws that rest on [a + b - b = a] are
      stated over [Double], within the range where the code is exact.
    - An object store with [keyPath: 'id'] is a list of records kept in
      ascending key order, the order in which [getAll] returns them.
      [store.add] rejects a record whose key is already present, [store.put]
      inserts or replaces, [store.delete] removes.
    - [crypto.randomUUID()] is an explicit argument of the operation that
      calls it.
    - [new Date()] and the date fields are left out: no balance rule reads
      them.  Every persistence write is recorded in a write log instead, so
      that "nothing was written" is observable.
    - Account records are kept decrypted: the model assumes the password of
      the [AccountStorage] instance opens every stored account.
    - A thrown [Error] is its message.  An exception keeps the store writes
      made before it was thrown. *)

From Stdlib Require Import ZArith List String Bool Lia OrdersEx RelationClasses
  Permutation Sorted.
Import ListNotations.

Open Scope string_scope.
Open Scope Z_scope.

(** ** Keyed object stores *)

Definition klt (a b : string) : bool :=
  match String_as_OT.compare a b with Lt => true | _ => false end.

Section Store.
Variable V : Type.
Variable key : V -> string.

(** [store.get(id)] *)
Definition get (k : string) (l : list V) : option V :=
  find (fun x => String.eqb (key x) k) l.

(** [store.put(record)]: replace the record with the same key, or insert
    the record at its place in key order. *)
Fixpoint put (v : V) (l : list V) : list V :=
  match l with
  | [] => [v]
  | x :: r =>
      match String_as_OT.compare (key v) (key x) with
      | Eq => v :: r
      | Lt => v :: x :: r
      | Gt => x :: put v r
      end
  end.

(** [store.delete(id)] *)
Definition remove (k : string) (l : list V) : list V :=
  filter (fun x => negb (String.eqb (key x) k)) l.

(** The records of a store are in strictly ascending key order. *)
Fixpoint ordered (l : list V) : bool :=
  match l with
  | [] => true
  | x :: r => forallb (fun y => klt (key x) (key y)) r && ordered r
  end.

Definition replace (v x : V) : V :=
  if String.eqb (key x) (key v) then v else x.

End Store.

Arguments get {V} key k l.
Arguments put {V} key v l.
Arguments remove {V} key k l.
Arguments ordered {V} key l.
Arguments replace {V} key v x.

(** ** Data model (types/budget.ts, types/account.ts) *)

Inductive TransactionType := INCOME | EXPENSE | TRANSFER.

Record BudgetCategory := mkCategory {
  c_id : string;
  c_name : string;
  targetAmount : Z;
  currentAmount : Z;
  isArchived : bool }.

Record Transaction := mkTransaction {
  t_id : string;
  accountId : string;
  categoryId : option string;        (* [string | null] *)
  amount : Z;
  description : string;
  type : TransactionType;
  tags : option (list string) }.     (* [tags?: string[]] *)

Record Transfer := mkTransfer {
  tr_id : string;
  fromCategoryId : string;
  toCategoryId : string;
  tr_amount : Z;
  tr_description : option string }.  (* [description?: string] *)

Record Budget := mkBudget {
  b_id : string;
  b_name : string }.

Record Account := mkAccount {
  a_id : string;
  budgetId : string;
  a_name : string;
  balance : Z;
  isOnBudget : bool;
  isClosed : bool;
  sortOrder : Z }.

(** [CreateTransactionInput = Omit<Transaction, 'id' | 'createdAt' | 'updatedAt'>] *)
Record CreateTransactionInput := mkTxInput {
  i_accountId : string;
  i_categoryId : option string;
  i_amount : Z;
  i_description : string;
  i_type : TransactionType;
  i_tags : option (list string) }.

(** [UpdateTransactionInput = Partial<...>]: [None] is an absent key. *)
Record UpdateTransactionInput := mkTxUpdate {
  u_accountId : option string;
  u_categoryId : option (option string);
  u_amount : option Z;
  u_description : option string;
  u_type : option TransactionType;
  u_tags : option (option (list string)) }.

(** [UpdateBudgetCategoryInput = Partial<Omit<BudgetCategory, 'id' | 'createdAt'>>] *)
Record UpdateBudgetCategoryInput := mkCatUpdate {
  uc_name : option string;
  uc_targetAmount : option Z;
  uc_currentAmount : option Z;
  uc_isArchived : option bool }.

(** [UpdateAccountData] *)
Record UpdateAccountData := mkAccUpdate {
  ua_name : option string;
  ua_isOnBudget : option bool;
  ua_isClosed : option bool;
  ua_balance : option Z;
  ua_sortOrder : option Z }.

(** [CreateTransferInput = Omit<Transfer, 'id' | 'createdAt'>] *)
Record CreateTransferInput := mkTransferInput {
  ti_fromCategoryId : string;
  ti_toCategoryId : string;
  ti_amount : Z;
  ti_description : option string }.

Definition UNASSIGNED_CATEGORY_ID : string := "unassigned".

(** ** The database and the write log *)

Inductive Write :=
| W_add (store key : string)
| W_put (store key : string)
| W_delete (store key : string).

Record Db := mkDb {
  budgets : list Budget;
  accounts : list Account;
  categories : list BudgetCategory;
  transactions : list Transaction;
  transfers : list Transfer;
  writes : list Write }.

(** An object store of the database: its name, its key path and the part of
    the database it occupies. *)
Record Store (V : Type) := mkStore {
  s_name : string;
  s_key : V -> string;
  s_read : Db -> list V;
  s_write : list V -> Db -> Db }.

Arguments s_name {V}.
Arguments s_key {V}.
Arguments s_read {V}.
Arguments s_write {V}.

Definition log (w : Write) (db : Db) : Db :=
  mkDb (budgets db) (accounts db) (categories db) (transactions db)
       (transfers db) (writes db ++ [w]).

Module STORES.
Definition BUDGETS : Store Budget :=
  mkStore _ "budgets" b_id budgets
    (fun l db => mkDb l (accounts db) (categories db) (transactions db) (transfers db) (writes db)).
Definition ACCOUNTS : Store Account :=
  mkStore _ "accounts" a_id accounts
    (fun l db => mkDb (budgets db) l (categories db) (transactions db) (transfers db) (writes db)).
Definition CATEGORIES : Store BudgetCategory :=
  mkStore _ "categories" c_id categories
    (fun l db => mkDb (budgets db) (accounts db) l (transactions db) (transfers db) (writes db)).
Definition TRANSACTIONS : Store Transaction :=
  mkStore _ "transactions" t_id transactions
    (fun l db => mkDb (budgets db) (accounts db) (categories db) l (transfers db) (writes db)).
Definition TRANSFERS : Store Transfer :=
  mkStore _ "transfers" tr_id transfers
    (fun l db => mkDb (budgets db) (accounts db) (categories db) (transactions db) l (writes db)).
End STORES.
Import STORES.

(** Every store of the database is in key order. *)
Definition well_formed (db : Db) : bool :=
  ordered b_id (budgets db) && ordered a_id (accounts db) &&
  ordered c_id (categories db) && ordered t_id (transactions db) &&
  ordered tr_id (transfers db).

(** ** Asynchronous operations: state and exceptions *)

Inductive result (A : Type) :=
| Ok (a : A)
| Throw (message : string).
Arguments Ok {A}.
Arguments Throw {A}.

Definition M (A : Type) : Type := Db -> Db * result A.

Definition ret {A} (a : A) : M A := fun db => (db, Ok a).
Definition throw {A} (message : string) : M A := fun db => (db, Throw message).
Definition bind {A B} (m : M A) (k : A -> M B) : M B :=
  fun db => match m db with
            | (db', Ok a) => k a db'
            | (db', Throw e) => (db', Throw e)
            end.
(** [try { m } catch (error) { h error.message }] *)
Definition try_catch {A} (m : M A) (h : string -> M A) : M A :=
  fun db => match m db with
            | (db', Ok a) => (db', Ok a)
            | (db', Throw e) => h e db'
            end.

Declare Scope monad_scope.
Delimit Scope monad_scope with monad.
Notation "x <- c ;; k" := (bind c (fun x => k))
  (at level 100, c at next level, right associativity) : monad_scope.
Notation "c ;; k" := (bind c (fun _ => k))
  (at level 100, right associativity) : monad_scope.
Open Scope monad_scope.

(** [await Promise.all([m1, m2])]: both promises are started and both run to
    completion; the first rejection, if any, is the one raised.  The two are
    run left to right. *)
Definition promise_all2 {A B} (m1 : M A) (m2 : M B) : M (A * B) :=
  fun db => match m1 db with
            | (db1, r1) =>
                match m2 db1 with
                | (db2, r2) =>
                    match r1, r2 with
                    | Ok a, Ok b => (db2, Ok (a, b))
                    | Throw e, _ => (db2, Throw e)
                    | _, Throw e => (db2, Throw e)
                    end
                end
            end.

(** [for (const x of l) { await f x }] *)
Fixpoint for_of {A} (l : list A) (f : A -> M unit) : M unit :=
  match l with
  | [] => ret tt
  | x :: r => f x ;; for_of r f
  end.

(** ** The persistence primitive (indexeddb.ts) *)

Definition addData {V} (S : Store V) (data : V) : M unit :=
  fun db =>
    match get (s_key S) (s_key S data) (s_read S db) with
    | Some _ =>
        (db, Throw ("Failed to add data to " ++ s_name S ++ ": Key already exists in the object store."))
    | None =>
        (log (W_add (s_name S) (s_key S data))
             (s_write S (put (s_key S) data (s_read S db)) db), Ok tt)
    end.

Definition updateData {V} (S : Store V) (data : V) : M unit :=
  fun db => (log (W_put (s_name S) (s_key S data))
                 (s_write S (put (s_key S) data (s_read S db)) db), Ok tt).

Definition getData {V} (S : Store V) (id : string) : M (option V) :=
  fun db => (db, Ok (get (s_key S) id (s_read S db))).

Definition getAllData {V} (S : Store V) : M (list V) :=
  fun db => (db, Ok (s_read S db)).

Definition deleteData {V} (S : Store V) (id : string) : M unit :=
  fun db => (log (W_delete (s_name S) id)
                 (s_write S (remove (s_key S) id (s_read S db)) db), Ok tt).

(** ** JavaScript idioms *)

(** [tags?.includes(tag)], read as a condition *)
Definition includes (tags : option (list string)) (tag : string) : bool :=
  match tags with
  | None => false
  | Some l => existsb (String.eqb tag) l
  end.

(** truthiness of a [string] and of a [string | null] *)
Definition truthy (s : string) : bool := negb (String.eqb s "").
Definition truthy_opt (s : option string) : bool :=
  match s with None => false | Some s => truthy s end.

(** [a === b] on [string | null] *)
Definition opt_eqb (a b : option string) : bool :=
  match a, b with
  | None, None => true
  | Some x, Some y => String.eqb x y
  | _, _ => false
  end.

(** [l.reduce((sum, t) => sum + f t, 0)] *)
Definition reduce_sum {A} (f : A -> Z) (l : list A) : Z :=
  fold_left (fun sum t => sum + f t) l 0.

Definition or_else {A} (o : option A) (d : A) : A :=
  match o with Some a => a | None => d end.

Definition when (b : bool) (m : M unit) : M unit := if b then m else ret tt.

(** ** AccountStorage (account-storage.ts): reads and balance writes *)

Definition getAccount (accountId : string) : M (option Account) :=
  getData ACCOUNTS accountId.

(** [accounts.sort((a, b) => a.sortOrder - b.sortOrder)], a stable sort *)
Fixpoint insert_by_sortOrder (a : Account) (l : list Account) : list Account :=
  match l with
  | [] => [a]
  | b :: r => if sortOrder a <=? sortOrder b then a :: b :: r
              else b :: insert_by_sortOrder a r
  end.

Definition sort_by_sortOrder (l : list Account) : list Account :=
  fold_right insert_by_sortOrder [] l.

(** the records of the [budgetId] index for one budget, sorted *)
Definition getAccounts (bid : string) : M (list Account) :=
  fun db => (db, Ok (sort_by_sortOrder
                       (filter (fun a => String.eqb (budgetId a) bid) (accounts db)))).

(** [{ ...account, ...updates }] *)
Definition merge_account (account : Account) (updates : UpdateAccountData) : Account :=
  mkAccount (a_id account) (budgetId account)
            (or_else (ua_name updates) (a_name account))
            (or_else (ua_balance updates) (balance account))
            (or_else (ua_isOnBudget updates) (isOnBudget account))
            (or_else (ua_isClosed updates) (isClosed account))
            (or_else (ua_sortOrder updates) (sortOrder account)).

Definition updateAccount (accountId : string) (updates : UpdateAccountData) : M Account :=
  account <- getAccount accountId ;;
  match account with
  | None => throw "Account not found"
  | Some account =>
      let updatedAccount := merge_account account updates in
      updateData ACCOUNTS updatedAccount ;;
      ret updatedAccount
  end.

Definition updateAccountBalance (accountId : string) (newBalance : Z) : M unit :=
  account <- getAccount accountId ;;
  match account with
  | None => throw "Account not found"
  | Some _ =>
      updateAccount accountId (mkAccUpdate None None None (Some newBalance) None) ;;
      ret tt
  end.

(** ** BudgetStorageService (budget-storage.ts) *)

Definition getAllBudgets : M (list Budget) := getAllData BUDGETS.

Definition getCategory (id : string) : M (option BudgetCategory) :=
  getData CATEGORIES id.

Definition getAllCategories : M (list BudgetCategory) := getAllData CATEGORIES.

(** [{ ...existing, ...updates }] *)
Definition merge_category (existing : BudgetCategory)
    (updates : UpdateBudgetCategoryInput) : BudgetCategory :=
  mkCategory (c_id existing)
             (or_else (uc_name updates) (c_name existing))
             (or_else (uc_targetAmount updates) (targetAmount existing))
             (or_else (uc_currentAmount updates) (currentAmount existing))
             (or_else (uc_isArchived updates) (isArchived existing)).

(** the update [{ currentAmount: n }] *)
Definition set_currentAmount (n : Z) : UpdateBudgetCategoryInput :=
  mkCatUpdate None None (Some n) None.

Definition updateCategory (id : string) (updates : UpdateBudgetCategoryInput)
  : M BudgetCategory :=
  existing <- getCategory id ;;
  match existing with
  | None => throw "Category not found"
  | Some existing =>
      let updated := merge_category existing updates in
      updateData CATEGORIES updated ;;
      ret updated
  end.

Definition getTransaction (id : string) : M (option Transaction) :=
  getData TRANSACTIONS id.

Definition getAllTransactions : M (list Transaction) := getAllData TRANSACTIONS.

Definition createTransaction (uuid : string) (input : CreateTransactionInput)
  : M Transaction :=
  let transaction :=
    mkTransaction uuid (i_accountId input) (i_categoryId input) (i_amount input)
                  (i_description input) (i_type input) (i_tags input) in
  (* Update category balance if transaction has a categoryId (and it's not a transfer) *)
  match categoryId transaction with
  | Some cid =>
      when (truthy cid && negb (String.eqb cid UNASSIGNED_CATEGORY_ID)
            && negb (includes (tags transaction) "transfer"))
        (category <- getCategory cid ;;
         match category with
         | Some category =>
             updateCategory cid
               (set_currentAmount (currentAmount category + amount transaction)) ;;
             ret tt
         | None => ret tt
         end)
  | None => ret tt
  end ;;
  (* Update account balance if transaction has an accountId (and it's not a transfer) *)
  when (truthy (accountId transaction)
        && negb (includes (tags transaction) "transfer")
        && negb (includes (tags transaction) "account-transfer"))
    (try_catch
       (account <- getAccount (accountId transaction) ;;
        match account with
        | Some account =>
            updateAccountBalance (accountId transaction)
                                 (balance account + amount transaction)
        | None => ret tt
        end)
       (fun _ => ret tt)) ;;
  addData TRANSACTIONS transaction ;;
  ret transaction.

(** [{ ...existing, ...updates }] *)
Definition merge_transaction (existing : Transaction)
    (updates : UpdateTransactionInput) : Transaction :=
  mkTransaction (t_id existing)
                (or_else (u_accountId updates) (accountId existing))
                (or_else (u_categoryId updates) (categoryId existing))
                (or_else (u_amount updates) (amount existing))
                (or_else (u_description updates) (description existing))
                (or_else (u_type updates) (type existing))
                (or_else (u_tags updates) (tags existing)).

Definition updateTransaction (id : string) (updates : UpdateTransactionInput)
  : M Transaction :=
  existing <- getTransaction id ;;
  match existing with
  | None => throw "Transaction not found"
  | Some existing =>
      let updated := merge_transaction existing updates in
      (* Handle category balance changes *)
      when (negb (opt_eqb (categoryId existing) (categoryId updated))
            || negb (amount existing =? amount updated))
        ((* Reverse old category balance change (if not a transfer) *)
         match categoryId existing with
         | Some cid =>
             when (truthy cid && negb (String.eqb cid UNASSIGNED_CATEGORY_ID)
                   && negb (includes (tags existing) "transfer"))
               (oldCategory <- getCategory cid ;;
                match oldCategory with
                | Some oldCategory =>
                    updateCategory cid
                      (set_currentAmount (currentAmount oldCategory - amount existing)) ;;
                    ret tt
                | None => ret tt
                end)
         | None => ret tt
         end ;;
         (* Apply new category balance change (if not a transfer) *)
         match categoryId updated with
         | Some cid =>
             when (truthy cid && negb (String.eqb cid UNASSIGNED_CATEGORY_ID)
                   && negb (includes (tags updated) "transfer"))
               (newCategory <- getCategory cid ;;
                match newCategory with
                | Some newCategory =>
                    updateCategory cid
                      (set_currentAmount (currentAmount newCategory + amount updated)) ;;
                    ret tt
                | None => ret tt
                end)
         | None => ret tt
         end) ;;
      (* Handle account balance changes *)
      when (negb (String.eqb (accountId existing) (accountId updated))
            || negb (amount existing =? amount updated))
        (try_catch
           (when (truthy (accountId existing)
                  && negb (includes (tags existing) "transfer")
                  && negb (includes (tags existing) "account-transfer"))
              (oldAccount <- getAccount (accountId existing) ;;
               match oldAccount with
               | Some oldAccount =>
                   updateAccountBalance (accountId existing)
                                        (balance oldAccount - amount existing)
               | None => ret tt
               end) ;;
            when (truthy (accountId updated)
                  && negb (includes (tags updated) "transfer")
                  && negb (includes (tags updated) "account-transfer"))
              (newAccount <- getAccount (accountId updated) ;;
               match newAccount with
               | Some newAccount =>
                   updateAccountBalance (accountId updated)
                                        (balance newAccount + amount updated)
               | None => ret tt
               end))
           (fun _ => ret tt)) ;;
      updateData TRANSACTIONS updated ;;
      ret updated
  end.

Definition deleteTransaction (id : string) : M unit :=
  transaction <- getTransaction id ;;
  match transaction with
  | None => throw "Transaction not found"
  | Some transaction =>
      (* Reverse category balance if transaction has a categoryId (and it's not a transfer) *)
      match categoryId transaction with
      | Some cid =>
          when (truthy cid && negb (String.eqb cid UNASSIGNED_CATEGORY_ID)
                && negb (includes (tags transaction) "transfer"))
            (category <- getCategory cid ;;
             match category with
             | Some category =>
                 updateCategory cid
                   (set_currentAmount (currentAmount category - amount transaction)) ;;
                 ret tt
             | None => ret tt
             end)
      | None => ret tt
      end ;;
      (* Reverse account balance for account-transfer transactions OR regular transactions *)
      when (truthy (accountId transaction))
        (if includes (tags transaction) "account-transfer" then
           try_catch
             (account <- getAccount (accountId transaction) ;;
              match account with
              | Some account =>
                  updateAccountBalance (accountId transaction)
                                       (balance account - amount transaction)
              | None => ret tt
              end)
             (fun _ => ret tt)
         else if negb (includes (tags transaction) "transfer") then
           try_catch
             (account <- getAccount (accountId transaction) ;;
              match account with
              | Some account =>
                  updateAccountBalance (accountId transaction)
                                       (balance account - amount transaction)
              | None => ret tt
              end)
             (fun _ => ret tt)
         else ret tt) ;;
      deleteData TRANSACTIONS id
  end.

Definition getTransfer (id : string) : M (option Transfer) := getData TRANSFERS id.

Definition getAllTransfers : M (list Transfer) := getAllData TRANSFERS.

(** [input.description || 'Transfer'] *)
Definition description_or (d : option string) (default : string) : string :=
  match d with
  | Some s => if truthy s then s else default
  | None => default
  end.

(** [uuid] is the id of the transfer record, [txUuid] the id drawn for the
    synthesized transaction when one is created. *)
Definition createTransfer (uuid txUuid : string) (input : CreateTransferInput)
  : M Transfer :=
  let transfer :=
    mkTransfer uuid (ti_fromCategoryId input) (ti_toCategoryId input)
               (ti_amount input) (ti_description input) in
  (if String.eqb (ti_fromCategoryId input) UNASSIGNED_CATEGORY_ID then
     (* Transfer from unassigned to category *)
     toCategory <- getCategory (ti_toCategoryId input) ;;
     match toCategory with
     | None => throw "Destination category not found"
     | Some toCategory =>
         createTransaction txUuid
           (mkTxInput "default-account-id" (Some (ti_fromCategoryId input))
                      (- ti_amount input)
                      (description_or (ti_description input) "Transfer")
                      EXPENSE (Some ["transfer"])) ;;
         updateCategory (ti_toCategoryId input)
           (set_currentAmount (currentAmount toCategory + ti_amount input)) ;;
         ret tt
     end
   else if String.eqb (ti_toCategoryId input) UNASSIGNED_CATEGORY_ID then
     (* Transfer from category to unassigned *)
     fromCategory <- getCategory (ti_fromCategoryId input) ;;
     match fromCategory with
     | None => throw "Source category not found"
     | Some _ =>
         createTransaction txUuid
           (mkTxInput "default-account-id" (Some (ti_toCategoryId input))
                      (ti_amount input)
                      (description_or (ti_description input) "Transfer")
                      INCOME (Some ["transfer"])) ;;
         when (negb (String.eqb (ti_fromCategoryId input) UNASSIGNED_CATEGORY_ID))
           (sourceCategory <- getCategory (ti_fromCategoryId input) ;;
            match sourceCategory with
            | Some sourceCategory =>
                updateCategory (ti_fromCategoryId input)
                  (set_currentAmount (currentAmount sourceCategory - ti_amount input)) ;;
                ret tt
            | None => ret tt
            end)
     end
   else
     (* Regular transfer between categories *)
     both <- promise_all2 (getCategory (ti_fromCategoryId input))
                          (getCategory (ti_toCategoryId input)) ;;
     match both with
     | (None, _) => throw "Source category not found"
     | (Some _, None) => throw "Destination category not found"
     | (Some fromCategory, Some toCategory) =>
         promise_all2
           (updateCategory (ti_fromCategoryId input)
              (set_currentAmount (currentAmount fromCategory - ti_amount input)))
           (updateCategory (ti_toCategoryId input)
              (set_currentAmount (currentAmount toCategory + ti_amount input))) ;;
         ret tt
     end) ;;
  (* Save the transfer record *)
  addData TRANSFERS transfer ;;
  ret transfer.

Definition deleteTransfer (id : string) : M unit :=
  transfer <- getTransfer id ;;
  match transfer with
  | None => throw "Transfer not found"
  | Some transfer =>
      (if String.eqb (fromCategoryId transfer) UNASSIGNED_CATEGORY_ID then
         (* Reverse transfer from unassigned to category *)
         toCategory <- getCategory (toCategoryId transfer) ;;
         match toCategory with
         | None => throw "Destination category not found"
         | Some toCategory =>
             (* Find and delete the negative transaction that was created *)
             transactions <- getAllTransactions ;;
             match find (fun t =>
                           (amount t =? - tr_amount transfer)
                           && String.eqb (description t) ("Transfer to " ++ c_name toCategory)
                           && includes (tags t) "transfer") transactions with
             | Some transferTransaction => deleteTransaction (t_id transferTransaction)
             | None => ret tt
             end ;;
             (* Reverse destination category balance *)
             updateCategory (toCategoryId transfer)
               (set_currentAmount (currentAmount toCategory - tr_amount transfer)) ;;
             ret tt
         end
       else if String.eqb (toCategoryId transfer) UNASSIGNED_CATEGORY_ID then
         (* Reverse transfer from category to unassigned *)
         fromCategory <- getCategory (fromCategoryId transfer) ;;
         match fromCategory with
         | None => throw "Source category not found"
         | Some fromCategory =>
             (* Find and delete the positive transaction that was created *)
             transactions <- getAllTransactions ;;
             match find (fun t =>
                           (amount t =? tr_amount transfer)
                           && String.eqb (description t) ("Transfer from " ++ c_name fromCategory)
                           && includes (tags t) "transfer") transactions with
             | Some transferTransaction => deleteTransaction (t_id transferTransaction)
             | None => ret tt
             end ;;
             (* Reverse source category balance *)
             updateCategory (fromCategoryId transfer)
               (set_currentAmount (currentAmount fromCategory + tr_amount transfer)) ;;
             ret tt
         end
       else
         (* Regular transfer between categories *)
         both <- promise_all2 (getCategory (fromCategoryId transfer))
                              (getCategory (toCategoryId transfer)) ;;
         match both with
         | (None, _) => throw "Source category not found"
         | (Some _, None) => throw "Destination category not found"
         | (Some fromCategory, Some toCategory) =>
             promise_all2
               (updateCategory (fromCategoryId transfer)
                  (set_currentAmount (currentAmount fromCategory + tr_amount transfer)))
               (updateCategory (toCategoryId transfer)
                  (set_currentAmount (currentAmount toCategory - tr_amount transfer))) ;;
             ret tt
         end) ;;
      (* Delete the transfer record *)
      deleteData TRANSFERS id
  end.

(** Unassigned = Account Balance + Unassigned Transactions - Money Allocated to Categories *)
Definition getUnassignedBalance : M Z :=
  both <- promise_all2 getAllTransactions getAllCategories ;;
  let (transactions, categories) := both in
  let unassignedTransactions :=
    filter (fun t => negb (truthy_opt (categoryId t))
                     && negb (includes (tags t) "transfer")
                     && negb (includes (tags t) "account-transfer")) transactions in
  let transactionBalance := reduce_sum amount unassignedTransactions in
  accountBalance <-
    try_catch
      (budgets <- getAllBudgets ;;
       match budgets with                    (* [budgets[0]] *)
       | currentBudget :: _ =>
           accounts <- getAccounts (b_id currentBudget) ;;
           ret (reduce_sum balance
                  (filter (fun account => isOnBudget account && negb (isClosed account))
                          accounts))
       | [] => ret 0
       end)
      (fun _ => ret 0) ;;
  let totalAllocatedToCategories := reduce_sum currentAmount categories in
  ret (accountBalance + transactionBalance - totalAllocatedToCategories).

Definition recalculateCategoryBalances : M unit :=
  categories <- getAllCategories ;;
  transactions <- getAllTransactions ;;
  transfers <- getAllTransfers ;;
  for_of categories (fun category =>
    let balance := 0 in
    (* Add money from transfers TO this category *)
    let transfersTo :=
      filter (fun t => String.eqb (toCategoryId t) (c_id category)) transfers in
    let balance := balance + reduce_sum tr_amount transfersTo in
    (* Subtract money from transfers FROM this category *)
    let transfersFrom :=
      filter (fun t => String.eqb (fromCategoryId t) (c_id category)) transfers in
    let balance := balance - reduce_sum tr_amount transfersFrom in
    (* Add/subtract regular transactions (not transfer-related) *)
    let categoryTransactions :=
      filter (fun t => opt_eqb (categoryId t) (Some (c_id category))
                       && negb (includes (tags t) "transfer")
                       && negb (includes (tags t) "account-transfer")) transactions in
    let balance := balance + reduce_sum amount categoryTransactions in
    (* Update category if balance is different *)
    when (negb (currentAmount category =? balance))
      (updateCategory (c_id category) (set_currentAmount balance) ;; ret tt)).

Definition recalculateAccountBalances : M unit :=
  try_catch
    (budgets <- getAllBudgets ;;
     transactions <- getAllTransactions ;;
     for_of budgets (fun budget =>
       accounts <- getAccounts (b_id budget) ;;
       for_of accounts (fun account =>
         (* Calculate balance from all transactions for this account (including account transfers) *)
         let accountTransactions :=
           filter (fun t => String.eqb (accountId t) (a_id account)
                            && negb (includes (tags t) "transfer")) transactions in
         let calculatedBalance := reduce_sum amount accountTransactions in
         (* Update account if balance is different *)
         when (negb (balance account =? calculatedBalance))
           (updateAccountBalance (a_id account) calculatedBalance))))
    (fun _ => ret tt).

(** ** AccountStorage.transferBetweenAccounts *)

Record AccountTransferData := mkAccountTransfer {
  fromAccountId : string;
  toAccountId : string;
  at_amount : Z;
  at_description : option string }.

(** The two balance writes of an account transfer. *)
Definition applyTransferBalances (data : AccountTransferData)
    (fromAccount toAccount : Account) : M (unit * unit) :=
  promise_all2
    (updateAccountBalance (fromAccountId data)
                          (balance fromAccount - at_amount data))
    (updateAccountBalance (toAccountId data)
                          (balance toAccount + at_amount data)).

(** The body of the [try] block: the two linked transactions.
    [transferId], [fromUuid] and [toUuid] are the three ids drawn: the
    correlation id and the ids of the outgoing and incoming transactions. *)
Definition createTransferTransactions (transferId fromUuid toUuid : string)
    (data : AccountTransferData) (fromAccount toAccount : Account)
  : M (Transaction * Transaction) :=
  let description :=
    description_or (at_description data)
      ("Transfer from " ++ a_name fromAccount ++ " to " ++ a_name toAccount) in
  fromTransaction <-
    createTransaction fromUuid
      (mkTxInput (fromAccountId data) None (- at_amount data)
                 (description ++ " (Outgoing)") EXPENSE
                 (Some ["account-transfer"; "transfer-" ++ transferId])) ;;
  toTransaction <-
    createTransaction toUuid
      (mkTxInput (toAccountId data) None (at_amount data)
                 (description ++ " (Incoming)") INCOME
                 (Some ["account-transfer"; "transfer-" ++ transferId])) ;;
  ret (fromTransaction, toTransaction).

Definition transferBetweenAccounts (transferId fromUuid toUuid : string)
    (data : AccountTransferData) : M (Transaction * Transaction) :=
  both <- promise_all2 (getAccount (fromAccountId data))
                       (getAccount (toAccountId data)) ;;
  match both with
  | (None, _) => throw "Source account not found"
  | (Some _, None) => throw "Destination account not found"
  | (Some fromAccount, Some toAccount) =>
      (* Check if source account has sufficient funds *)
      if balance fromAccount <? at_amount data then
        throw "Insufficient funds in source account"
      else
        (* Update account balances *)
        applyTransferBalances data fromAccount toAccount ;;
        (* Create linked transactions for the transfer *)
        try_catch
          (createTransferTransactions transferId fromUuid toUuid data
                                      fromAccount toAccount)
          (fun message =>
             (* If transaction creation fails, reverse the account balance changes *)
             promise_all2
               (updateAccountBalance (fromAccountId data) (balance fromAccount))
               (updateAccountBalance (toAccountId data) (balance toAccount)) ;;
             throw ("Failed to create transfer transactions: " ++ message))
  end.

(** ** Further operations of BudgetStorageService *)

(** [CreateBudgetCategoryInput]: a category without id, dates and
    [currentAmount] *)
Record CreateBudgetCategoryInput := mkCategoryInput {
  ci_name : string;
  ci_targetAmount : Z;
  ci_isArchived : bool }.

Definition createCategory (uuid : string) (input : CreateBudgetCategoryInput)
  : M BudgetCategory :=
  let category :=
    mkCategory uuid (ci_name input) (ci_targetAmount input) 0 (ci_isArchived input) in
  addData CATEGORIES category ;;
  ret category.


Record BudgetSummary := mkSummary {
  totalIncome : Z;
  totalExpenses : Z;
  totalAllocated : Z;
  totalAvailable : Z;
  categoryCount : nat;
  transactionCount : nat }.


(** ** Further operations of AccountStorage *)

(** [CreateAccountData] *)
Record CreateAccountData := mkAccountData {
  cd_name : string;
  cd_isOnBudget : bool;
  cd_initialBalance : option Z }.

(** [Math.max(...xs)] for a non-empty [x :: xs] *)
Definition math_max (x : Z) (xs : list Z) : Z := fold_left Z.max xs x.

Definition getNextSortOrder (bid : string) : M Z :=
  accounts <- getAccounts bid ;;
  match map sortOrder accounts with
  | [] => ret 0
  | x :: xs => ret (math_max x xs + 1)
  end.

(** [n || 0] on an optional number *)
Definition number_or_zero (n : option Z) : Z :=
  match n with Some v => v | None => 0 end.

Definition createAccount (uuid bid : string) (data : CreateAccountData) : M Account :=
  next <- getNextSortOrder bid ;;
  let account :=
    mkAccount uuid bid (cd_name data) (number_or_zero (cd_initialBalance data))
              (cd_isOnBudget data) false next in
  try_catch (addData ACCOUNTS account) (fun _ => throw "Failed to create account") ;;
  ret account.

(** ** bitcoin-utils.ts: [truncateAddress]

    Strings are taken over one-byte characters, which is what an address
    is made of; [chars] is a natural number. *)

(** [s.slice(0, n)] *)
Definition slice_to (n : nat) (s : string) : string := String.substring 0 n s.

(** [s.slice(-n)]: the last [n] characters, and the whole string for
    [n = 0] since [-0] is [0] *)
Definition slice_last (n : nat) (s : string) : string :=
  match n with
  | O => s
  | _ => String.substring (String.length s - n) n s
  end.

Definition truncateAddress (address : string) (chars : nat) : string :=
  if Nat.leb (String.length address) (chars * 2) then address
  else slice_to chars address ++ "..." ++ slice_last chars address.

(** ** JavaScript number arithmetic

    An amount is a JavaScript [number], an IEEE-754 double.  On integers,
    [a + b] and [a - b] are the exact result rounded to the nearest double,
    ties to the even significand.  Every integer of magnitude below [2 ^ 53]
    is a double; above, a double keeps the 53 leading bits.  (From
    [2 ^ 1024] on the code holds [Infinity]; [round_to_double] is meant
    below that magnitude.) *)

Definition round_to_double (z : Z) : Z :=
  let a := Z.abs z in
  if a <? 2 ^ 53 then z
  else
    let ulp := 2 ^ (Z.log2 a - 52) in
    let q := a / ulp in
    let r := a mod ulp in
    let q' := match 2 * r ?= ulp with
              | Lt => q
              | Gt => q + 1
              | Eq => if Z.even q then q else q + 1
              end in
    Z.sgn z * (q' * ulp).

Definition number_add (a b : Z) : Z := round_to_double (a + b).
Definition number_sub (a b : Z) : Z := round_to_double (a - b).

(** [Number.MAX_SAFE_INTEGER] and [Number.isSafeInteger], on integers *)
Definition MAX_SAFE_INTEGER : Z := 2 ^ 53 - 1.

Definition isSafeInteger (z : Z) : bool :=
  (- MAX_SAFE_INTEGER <=? z) && (z <=? MAX_SAFE_INTEGER).

(** ** The balance-changing operations over number arithmetic

    The operations of [BudgetStorageService] that add to or subtract from a
    stored balance, embedded once more with the sums and differences of the
    code computed as doubles.  Nothing in these operations bounds an
    amount.  They read and write through the same [getCategory],
    [updateCategory], [getAccount] and [updateAccountBalance]. *)

Module Double.

Local Infix "+." := number_add (at level 50, left associativity).
Local Infix "-." := number_sub (at level 50, left associativity).

(** [l.reduce((sum, t) => sum + f t, 0)] *)
Definition reduce_sum {A} (f : A -> Z) (l : list A) : Z :=
  fold_left (fun sum t => sum +. f t) l 0.

Definition createTransaction (uuid : string) (input : CreateTransactionInput)
  : M Transaction :=
  let transaction :=
    mkTransaction uuid (i_accountId input) (i_categoryId input) (i_amount input)
                  (i_description input) (i_type input) (i_tags input) in
  (* Update category balance if transaction has a categoryId (and it's not a transfer) *)
  match categoryId transaction with
  | Some cid =>
      when (truthy cid && negb (String.eqb cid UNASSIGNED_CATEGORY_ID)
            && negb (includes (tags transaction) "transfer"))
        (category <- getCategory cid ;;
         match category with
         | Some category =>
             updateCategory cid
               (set_currentAmount (currentAmount category +. amount transaction)) ;;
             ret tt
         | None => ret tt
         end)
  | None => ret tt
  end ;;
  (* Update account balance if transaction has an accountId (and it's not a transfer) *)
  when (truthy (accountId transaction)
        && negb (includes (tags transaction) "transfer")
        && negb (includes (tags transaction) "account-transfer"))
    (try_catch
       (account <- getAccount (accountId transaction) ;;
        match account with
        | Some account =>
            updateAccountBalance (accountId transaction)
                                 (balance account +. amount transaction)
        | None => ret tt
        end)
       (fun _ => ret tt)) ;;
  addData TRANSACTIONS transaction ;;
  ret transaction.


Definition updateTransaction (id : string) (updates : UpdateTransactionInput)
  : M Transaction :=
  existing <- getTransaction id ;;
  match existing with
  | None => throw "Transaction not found"
  | Some existing =>
      let updated := merge_transaction existing updates in
      (* Handle category balance changes *)
      when (negb (opt_eqb (categoryId existing) (categoryId updated))
            || negb (amount existing =? amount updated))
        ((* Reverse old category balance change (if not a transfer) *)
         match categoryId existing with
         | Some cid =>
             when (truthy cid && negb (String.eqb cid UNASSIGNED_CATEGORY_ID)
                   && negb (includes (tags existing) "transfer"))
               (oldCategory <- getCategory cid ;;
                match oldCategory with
                | Some oldCategory =>
                    updateCategory cid
                      (set_currentAmount (currentAmount oldCategory -. amount existing)) ;;
                    ret tt
                | None => ret tt
                end)
         | None => ret tt
         end ;;
         (* Apply new category balance change (if not a transfer) *)
         match categoryId updated with
         | Some cid =>
             when (truthy cid && negb (String.eqb cid UNASSIGNED_CATEGORY_ID)
                   && negb (includes (tags updated) "transfer"))
               (newCategory <- getCategory cid ;;
                match newCategory with
                | Some newCategory =>
                    updateCategory cid
                      (set_currentAmount (currentAmount newCategory +. amount updated)) ;;
                    ret tt
                | None => ret tt
                end)
         | None => ret tt
         end) ;;
      (* Handle account balance changes *)
      when (negb (String.eqb (accountId existing) (accountId updated))
            || negb (amount existing =? amount updated))
        (try_catch
           (when (truthy (accountId existing)
                  && negb (includes (tags existing) "transfer")
                  && negb (includes (tags existing) "account-transfer"))
              (oldAccount <- getAccount (accountId existing) ;;
               match oldAccount with
               | Some oldAccount =>
                   updateAccountBalance (accountId existing)
                                        (balance oldAccount -. amount existing)
               | None => ret tt
               end) ;;
            when (truthy (accountId updated)
                  && negb (includes (tags updated) "transfer")
                  && negb (includes (tags updated) "account-transfer"))
              (newAccount <- getAccount (accountId updated) ;;
               match newAccount with
               | Some newAccount =>
                   updateAccountBalance (accountId updated)
                                        (balance newAccount +. amount updated)
               | None => ret tt
               end))
           (fun _ => ret tt)) ;;
      updateData TRANSACTIONS updated ;;
      ret updated
  end.

Definition deleteTransaction (id : string) : M unit :=
  transaction <- getTransaction id ;;
  match transaction with
  | None => throw "Transaction not found"
  | Some transaction =>
      (* Reverse category balance if transaction has a categoryId (and it's not a transfer) *)
      match categoryId transaction with
      | Some cid =>
          when (truthy cid && negb (String.eqb cid UNASSIGNED_CATEGORY_ID)
                && negb (includes (tags transaction) "transfer"))
            (category <- getCategory cid ;;
             match category with
             | Some category =>
                 updateCategory cid
                   (set_currentAmount (currentAmount category -. amount transaction)) ;;
                 ret tt
             | None => ret tt
             end)
      | None => ret tt
      end ;;
      (* Reverse account balance for account-transfer transactions OR regular transactions *)
      when (truthy (accountId transaction))
        (if includes (tags transaction) "account-transfer" then
           try_catch
             (account <- getAccount (accountId transaction) ;;
              match account with
              | Some account =>
                  updateAccountBalance (accountId transaction)
                                       (balance account -. amount transaction)
              | None => ret tt
              end)
             (fun _ => ret tt)
         else if negb (includes (tags transaction) "transfer") then
           try_catch
             (account <- getAccount (accountId transaction) ;;
              match account with
              | Some account =>
                  updateAccountBalance (accountId transaction)
                                       (balance account -. amount transaction)
              | None => ret tt
              end)
             (fun _ => ret tt)
         else ret tt) ;;
      deleteData TRANSACTIONS id
  end.

(** [uuid] is the id of the transfer record, [txUuid] the id drawn for the
    synthesized transaction when one is created. *)
Definition createTransfer (uuid txUuid : string) (input : CreateTransferInput)
  : M Transfer :=
  let transfer :=
    mkTransfer uuid (ti_fromCategoryId input) (ti_toCategoryId input)
               (ti_amount input) (ti_description input) in
  (if String.eqb (ti_fromCategoryId input) UNASSIGNED_CATEGORY_ID then
     (* Transfer from unassigned to category *)
     toCategory <- getCategory (ti_toCategoryId input) ;;
     match toCategory with
     | None => throw "Destination category not found"
     | Some toCategory =>
         createTransaction txUuid
           (mkTxInput "default-account-id" (Some (ti_fromCategoryId input))
                      (- ti_amount input)
                      (description_or (ti_description input) "Transfer")
                      EXPENSE (Some ["transfer"])) ;;
         updateCategory (ti_toCategoryId input)
           (set_currentAmount (currentAmount toCategory +. ti_amount input)) ;;
         ret tt
     end
   else if String.eqb (ti_toCategoryId input) UNASSIGNED_CATEGORY_ID then
     (* Transfer from category to unassigned *)
     fromCategory <- getCategory (ti_fromCategoryId input) ;;
     match fromCategory with
     | None => throw "Source category not found"
     | Some _ =>
         createTransaction txUuid
           (mkTxInput "default-account-id" (Some (ti_toCategoryId input))
                      (ti_amount input)
                      (description_or (ti_description input) "Transfer")
                      INCOME (Some ["transfer"])) ;;
         when (negb (String.eqb (ti_fromCategoryId input) UNASSIGNED_CATEGORY_ID))
           (sourceCategory <- getCategory (ti_fromCategoryId input) ;;
            match sourceCategory with
            | Some sourceCategory =>
                updateCategory (ti_fromCategoryId input)
                  (set_currentAmount (currentAmount sourceCategory -. ti_amount input)) ;;
                ret tt
            | None => ret tt
            end)
     end
   else
     (* Regular transfer between categories *)
     both <- promise_all2 (getCategory (ti_fromCategoryId input))
                          (getCategory (ti_toCategoryId input)) ;;
     match both with
     | (None, _) => throw "Source category not found"
     | (Some _, None) => throw "Destination category not found"
     | (Some fromCategory, Some toCategory) =>
         promise_all2
           (updateCategory (ti_fromCategoryId input)
              (set_currentAmount (currentAmount fromCategory -. ti_amount input)))
           (updateCategory (ti_toCategoryId input)
              (set_currentAmount (currentAmount toCategory +. ti_amount input))) ;;
         ret tt
     end) ;;
  (* Save the transfer record *)
  addData TRANSFERS transfer ;;
  ret transfer.

Definition deleteTransfer (id : string) : M unit :=
  transfer <- getTransfer id ;;
  match transfer with
  | None => throw "Transfer not found"
  | Some transfer =>
      (if String.eqb (fromCategoryId transfer) UNASSIGNED_CATEGORY_ID then
         (* Reverse transfer from unassigned to category *)
         toCategory <- getCategory (toCategoryId transfer) ;;
         match toCategory with
         | None => throw "Destination category not found"
         | Some toCategory =>
             (* Find and delete the negative transaction that was created *)
             transactions <- getAllTransactions ;;
             match find (fun t =>
                           (amount t =? - tr_amount transfer)
                           && String.eqb (description t) ("Transfer to " ++ c_name toCategory)
                           && includes (tags t) "transfer") transactions with
             | Some transferTransaction => deleteTransaction (t_id transferTransaction)
             | None => ret tt
             end ;;
             (* Reverse destination category balance *)
             updateCategory (toCategoryId transfer)
               (set_currentAmount (currentAmount toCategory -. tr_amount transfer)) ;;
             ret tt
         end
       else if String.eqb (toCategoryId transfer) UNASSIGNED_CATEGORY_ID then
         (* Reverse transfer from category to unassigned *)
         fromCategory <- getCategory (fromCategoryId transfer) ;;
         match fromCategory with
         | None => throw "Source category not found"
         | Some fromCategory =>
             (* Find and delete the positive transaction that was created *)
             transactions <- getAllTransactions ;;
             match find (fun t =>
                           (amount t =? tr_amount transfer)
                           && String.eqb (description t) ("Transfer from " ++ c_name fromCategory)
                           && includes (tags t) "transfer") transactions with
             | Some transferTransaction => deleteTransaction (t_id transferTransaction)
             | None => ret tt
             end ;;
             (* Reverse source category balance *)
             updateCategory (fromCategoryId transfer)
               (set_currentAmount (currentAmount fromCategory +. tr_amount transfer)) ;;
             ret tt
         end
       else
         (* Regular transfer between categories *)
         both <- promise_all2 (getCategory (fromCategoryId transfer))
                              (getCategory (toCategoryId transfer)) ;;
         match both with
         | (None, _) => throw "Source category not found"
         | (Some _, None) => throw "Destination category not found"
         | (Some fromCategory, Some toCategory) =>
             promise_all2
               (updateCategory (fromCategoryId transfer)
                  (set_currentAmount (currentAmount fromCategory +. tr_amount transfer)))
               (updateCategory (toCategoryId transfer)
                  (set_currentAmount (currentAmount toCategory -. tr_amount transfer))) ;;
             ret tt
         end) ;;
      (* Delete the transfer record *)
      deleteData TRANSFERS id
  end.

(** Unassigned = Account Balance + Unassigned Transactions - Money Allocated to Categories *)
Definition getUnassignedBalance : M Z :=
  both <- promise_all2 getAllTransactions getAllCategories ;;
  let (transactions, categories) := both in
  let unassignedTransactions :=
    filter (fun t => negb (truthy_opt (categoryId t))
                     && negb (includes (tags t) "transfer")
                     && negb (includes (tags t) "account-transfer")) transactions in
  let transactionBalance := reduce_sum amount unassignedTransactions in
  accountBalance <-
    try_catch
      (budgets <- getAllBudgets ;;
       match budgets with                    (* [budgets[0]] *)
       | currentBudget :: _ =>
           accounts <- getAccounts (b_id currentBudget) ;;
           ret (reduce_sum balance
                  (filter (fun account => isOnBudget account && negb (isClosed account))
                          accounts))
       | [] => ret 0
       end)
      (fun _ => ret 0) ;;
  let totalAllocatedToCategories := reduce_sum currentAmount categories in
  ret (accountBalance +. transactionBalance -. totalAllocatedToCategories).

End Double.

(** ** The ledger formulas of the specification

    Written from the specification's wording (section 4.4), independently
    of the [reduce] calls of the code. *)

Definition sum_of {A} (f : A -> Z) (l : list A) : Z :=
  fold_right (fun x acc => f x + acc) 0 l.

(** (transfers into the category) - (transfers out of it)
    + (its transactions tagged neither "transfer" nor "account-transfer") *)
Definition category_ledger_balance (db : Db) (cid : string) : Z :=
  sum_of tr_amount (filter (fun t => String.eqb (toCategoryId t) cid) (transfers db))
  - sum_of tr_amount (filter (fun t => String.eqb (fromCategoryId t) cid) (transfers db))
  + sum_of amount
      (filter (fun t => opt_eqb (categoryId t) (Some cid)
                        && negb (includes (tags t) "transfer" || includes (tags t) "account-transfer"))
              (transactions db)).

(** the transactions of the account that do not carry the tag "transfer" *)
Definition account_ledger_balance (db : Db) (aid : string) : Z :=
  sum_of amount
    (filter (fun t => String.eqb (accountId t) aid && negb (includes (tags t) "transfer"))
            (transactions db)).

(** the stored [currentAmount] of a category and [balance] of an account *)
Definition stored_currentAmount (db : Db) (cid : string) : option Z :=
  option_map currentAmount (get c_id cid (categories db)).

Definition stored_balance (db : Db) (aid : string) : option Z :=
  option_map balance (get a_id aid (accounts db)).

(** a budget with this id is stored *)
Definition budget_exists (db : Db) (bid : string) : bool :=
  existsb (fun b => String.eqb (b_id b) bid) (budgets db).

(** ** Balance effects of a transaction, as state transformers

    These summarise what the balance blocks of [createTransaction],
    [updateTransaction] and [deleteTransaction] do to the database; the
    lemmas [*_run] below prove that the code computes exactly them. *)

(** the category a transaction's amount is applied to, if any *)
Definition category_of (t : Transaction) : option string :=
  match categoryId t with
  | Some cid =>
      if truthy cid && negb (String.eqb cid UNASSIGNED_CATEGORY_ID)
         && negb (includes (tags t) "transfer")
      then Some cid else None
  | None => None
  end.

(** store [f currentAmount] in category [cid] when it exists *)
Definition map_category_amount (cid : string) (f : Z -> Z) (db : Db) : Db :=
  match get c_id cid (categories db) with
  | Some c =>
      log (W_put "categories" (c_id c))
          (s_write CATEGORIES
             (put c_id (merge_category c (set_currentAmount (f (currentAmount c))))
                  (categories db)) db)
  | None => db
  end.

(** store [f balance] in account [aid] when it exists *)
Definition map_account_balance (aid : string) (f : Z -> Z) (db : Db) : Db :=
  match get a_id aid (accounts db) with
  | Some a =>
      log (W_put "accounts" (a_id a))
          (s_write ACCOUNTS
             (put a_id (merge_account a (mkAccUpdate None None None (Some (f (balance a))) None))
                  (accounts db)) db)
  | None => db
  end.

Definition category_step (t : Transaction) (f : Z -> Z) (db : Db) : Db :=
  match category_of t with
  | Some cid => map_category_amount cid f db
  | None => db
  end.

(** the account rule of create and update *)
Definition account_applies (t : Transaction) : bool :=
  truthy (accountId t) && negb (includes (tags t) "transfer")
  && negb (includes (tags t) "account-transfer").

(** the account rule of delete *)
Definition account_reverses (t : Transaction) : bool :=
  truthy (accountId t)
  && (includes (tags t) "account-transfer" || negb (includes (tags t) "transfer")).

Definition transaction_of (uuid : string) (input : CreateTransactionInput) : Transaction :=
  mkTransaction uuid (i_accountId input) (i_categoryId input) (i_amount input)
                (i_description input) (i_type input) (i_tags input).

(** the database once the two balance blocks of [createTransaction] have
    run, before the transaction is added *)
Definition balances_after_create (t : Transaction) (db : Db) : Db :=
  let db1 := category_step t (fun cur => cur + amount t) db in
  if account_applies t
  then map_account_balance (accountId t) (fun bal => bal + amount t) db1
  else db1.

Definition after_create (t : Transaction) (db : Db) : Db :=
  let db1 := category_step t (fun cur => cur + amount t) db in
  let db2 := if account_applies t
             then map_account_balance (accountId t) (fun bal => bal + amount t) db1
             else db1 in
  log (W_add "transactions" (t_id t))
      (s_write TRANSACTIONS (put t_id t (transactions db2)) db2).

Definition after_delete (t : Transaction) (db : Db) : Db :=
  let db1 := category_step t (fun cur => cur - amount t) db in
  let db2 := if account_reverses t
             then map_account_balance (accountId t) (fun bal => bal - amount t) db1
             else db1 in
  log (W_delete "transactions" (t_id t))
      (s_write TRANSACTIONS (remove t_id (t_id t) (transactions db2)) db2).

Definition after_update (existing updated : Transaction) (db : Db) : Db :=
  let db1 :=
    if negb (opt_eqb (categoryId existing) (categoryId updated))
       || negb (amount existing =? amount updated)
    then category_step updated (fun cur => cur + amount updated)
           (category_step existing (fun cur => cur - amount existing) db)
    else db in
  let db2 :=
    if negb (String.eqb (accountId existing) (accountId updated))
       || negb (amount existing =? amount updated)
    then
      let db1' := if account_applies existing
                  then map_account_balance (accountId existing)
                         (fun bal => bal - amount existing) db1
                  else db1 in
      if account_applies updated
      then map_account_balance (accountId updated) (fun bal => bal + amount updated) db1'
      else db1'
    else db1 in
  log (W_put "transactions" (t_id updated))
      (s_write TRANSACTIONS (put t_id updated (transactions db2)) db2).

(** ** Sample data for the worked instances *)

Definition sample_db : Db :=
  mkDb [mkBudget "b1" "Household"]
       [mkAccount "a1" "b1" "Checking" 100000 true false 0;
        mkAccount "a2" "b1" "Savings" 0 true false 1]
       [mkCategory "c1" "Food" 500000 0 false]
       [] [] [].

(** [sample_db] holding one transaction on account a1 that carries the
    category-transfer tag *)
Definition sample_db_transfer_leg : Db :=
  mkDb (budgets sample_db) (accounts sample_db) (categories sample_db)
       [mkTransaction "t1" "a1" (Some "unassigned") 10 "Transfer" INCOME (Some ["transfer"])]
       [] [].

(** an account-transfer leg, a transaction on a category that is not stored,
    and an ordinary untagged expense *)
Definition sample_account_transfer_leg : CreateTransactionInput :=
  mkTxInput "a1" None 10 "Incoming" INCOME (Some ["account-transfer"; "transfer-x"]).

Definition sample_orphan_input : CreateTransactionInput :=
  mkTxInput "a1" (Some "ghost") (-500) "Groceries" EXPENSE None.

Definition sample_expense : CreateTransactionInput :=
  mkTxInput "a1" (Some "c1") (-25000) "Groceries" EXPENSE None.

(** account a1 paying 40000 to a2 *)
Definition sample_account_transfer : AccountTransferData :=
  mkAccountTransfer "a1" "a2" 40000 None.

(** [sample_db] in which the id that will be drawn for the incoming
    transaction is already taken *)
Definition sample_db_taken_id : Db :=
  mkDb (budgets sample_db) (accounts sample_db) (categories sample_db)
       [mkTransaction "t2" "a1" None 1 "Earlier" INCOME None]
       [] [].

(** ** Effects of a category transfer that involves the unassigned pool *)

(** the transaction [createTransfer] synthesizes *)
Definition synthesized_transaction (txUuid : string) (amt : Z)
    (d : option string) (ty : TransactionType) : Transaction :=
  mkTransaction txUuid "default-account-id" (Some UNASSIGNED_CATEGORY_ID) amt
                (description_or d "Transfer") ty (Some ["transfer"]).

Definition transfer_of (uuid : string) (input : CreateTransferInput) : Transfer :=
  mkTransfer uuid (ti_fromCategoryId input) (ti_toCategoryId input)
             (ti_amount input) (ti_description input).

Definition persist_transaction (t : Transaction) (db : Db) : Db :=
  log (W_add "transactions" (t_id t))
      (s_write TRANSACTIONS (put t_id t (transactions db)) db).

Definition put_category (c : BudgetCategory) (db : Db) : Db :=
  log (W_put "categories" (c_id c))
      (s_write CATEGORIES (put c_id c (categories db)) db).

Definition persist_transfer (tr : Transfer) (db : Db) : Db :=
  log (W_add "transfers" (tr_id tr))
      (s_write TRANSFERS (put tr_id tr (transfers db)) db).

(** unassigned -> C, amount [a]: the synthesized expense, C credited, the
    transfer record *)
Definition after_transfer_in (uuid txUuid : string) (input : CreateTransferInput)
    (C : BudgetCategory) (db : Db) : Db :=
  persist_transfer (transfer_of uuid input)
    (put_category
       (merge_category C (set_currentAmount (currentAmount C + ti_amount input)))
       (persist_transaction
          (synthesized_transaction txUuid (- ti_amount input)
                                   (ti_description input) EXPENSE) db)).

(** C -> unassigned, amount [a]: the synthesized income, C debited, the
    transfer record *)
Definition after_transfer_out (uuid txUuid : string) (input : CreateTransferInput)
    (C : BudgetCategory) (db : Db) : Db :=
  persist_transfer (transfer_of uuid input)
    (put_category
       (merge_category C (set_currentAmount (currentAmount C - ti_amount input)))
       (persist_transaction
          (synthesized_transaction txUuid (ti_amount input)
                                   (ti_description input) INCOME) db)).

(** a transfer into Food with the default description *)
Definition sample_transfer_in : CreateTransferInput :=
  mkTransferInput "unassigned" "c1" 7000 None.

(** the content match by which [deleteTransfer] looks for the transaction
    synthesized for a transfer out of the unassigned pool *)
Definition matches_transfer_in (tr : Transfer) (C : BudgetCategory) (t : Transaction) : bool :=
  (amount t =? - tr_amount tr)
  && String.eqb (description t) ("Transfer to " ++ c_name C)
  && includes (tags t) "transfer".

Definition remove_transfer (id : string) (db : Db) : Db :=
  log (W_delete "transfers" id)
      (s_write TRANSFERS (remove tr_id id (transfers db)) db).

Definition after_delete_transfer_in (id : string) (tr : Transfer)
    (C : BudgetCategory) (db : Db) : Db :=
  remove_transfer id
    (put_category
       (merge_category C (set_currentAmount (currentAmount C - tr_amount tr)))
       (match find (matches_transfer_in tr C) (transactions db) with
        | Some t => after_delete t db
        | None => db
        end)).

(** the transactions [getUnassignedBalance] counts *)
Definition counts_as_unassigned (t : Transaction) : bool :=
  negb (truthy_opt (categoryId t))
  && negb (includes (tags t) "transfer")
  && negb (includes (tags t) "account-transfer").

(** ** Conditional overwrites, the loop body of both reconciliations *)

(** overwrite the record [x] of store [S] by [f x] when [differs x] *)
Definition overwrite_if {V} (S : Store V) (f : V -> V) (differs : V -> bool)
    (x : V) (db : Db) : Db :=
  if differs x
  then log (W_put (s_name S) (s_key S x))
           (s_write S (put (s_key S) (f x) (s_read S db)) db)
  else db.

Definition overwrite_all {V} (S : Store V) (f : V -> V) (differs : V -> bool)
    (l : list V) (db : Db) : Db :=
  fold_left (fun d x => overwrite_if S f differs x d) l db.

(** [f] on the records whose key is among those of [l] *)
Definition on_keys {V} (key : V -> string) (f : V -> V) (l : list V) (y : V) : V :=
  if existsb (String.eqb (key y)) (map key l) then f y else y.

(** a ledger whose stored balances have drifted: Food holds 0 although a
    transfer of 7000 went in and 2500 were spent; Rent is right at 0 *)
Definition sample_db_drift : Db :=
  mkDb [mkBudget "b1" "Household"]
       [mkAccount "a1" "b1" "Checking" 100000 true false 0;
        mkAccount "a2" "b1" "Savings" 0 true false 1]
       [mkCategory "c1" "Food" 500000 0 false;
        mkCategory "c2" "Rent" 900000 0 false]
       [mkTransaction "t1" "default-account-id" (Some "unassigned") (-7000)
                      "Transfer" EXPENSE (Some ["transfer"]);
        mkTransaction "t2" "a1" (Some "c1") (-2500) "Groceries" EXPENSE None]
       [mkTransfer "f1" "unassigned" "c1" 7000 None]
       [].

(** what [getAccounts bid] returns *)
Definition accounts_of_budget (bid : string) (db : Db) : list Account :=
  sort_by_sortOrder (filter (fun a => String.eqb (budgetId a) bid) (accounts db)).

(** the update [{ balance: n }] *)
Definition set_balance (n : Z) : UpdateAccountData :=
  mkAccUpdate None None None (Some n) None.

(** one budget after the other, the accounts of each overwritten where
    [differs] *)
Definition overwrite_budgets (f : Account -> Account) (differs : Account -> bool)
    (lb : list Budget) (db : Db) : Db :=
  fold_left (fun d b =>
               overwrite_all ACCOUNTS f differs (accounts_of_budget (b_id b) d) d)
            lb db.

(** an account whose budget is not stored, holding 5 sats with no
    transaction to its name *)
Definition sample_db_orphan_account : Db :=
  mkDb [] [mkAccount "a1" "b0" "Cold storage" 5 false false 0] [] [] [] [].

(** account a1 of [sample_db] at a wrong balance, given its two transactions:
    an ordinary income of 300 and an incoming account-transfer leg of 50 *)
Definition sample_db_account_drift : Db :=
  mkDb [mkBudget "b1" "Household"]
       [mkAccount "a1" "b1" "Checking" 0 true false 0;
        mkAccount "a2" "b1" "Savings" 0 true false 1]
       [mkCategory "c1" "Food" 500000 0 false]
       [mkTransaction "t1" "a1" None 300 "Salary" INCOME None;
        mkTransaction "t2" "a1" None 50 "From savings (Incoming)" INCOME
                      (Some ["account-transfer"; "transfer-x"]);
        mkTransaction "t3" "a1" (Some "unassigned") 9 "Transfer" INCOME (Some ["transfer"])]
       [] [].

(** the update that changes the amount only, and the one that changes the
    category only *)
Definition amount_only (a : Z) : UpdateTransactionInput :=
  mkTxUpdate None None (Some a) None None None.

Definition category_only (cid : option string) : UpdateTransactionInput :=
  mkTxUpdate None (Some cid) None None None None.

(** [sample_db] with a second category and one ordinary expense of 25000 on
    Food, already applied to Food and to account a1 *)
Definition sample_db_spent : Db :=
  mkDb [mkBudget "b1" "Household"]
       [mkAccount "a1" "b1" "Checking" 75000 true false 0;
        mkAccount "a2" "b1" "Savings" 0 true false 1]
       [mkCategory "c1" "Food" 500000 (-25000) false;
        mkCategory "c2" "Rent" 900000 0 false]
       [mkTransaction "t1" "a1" (Some "c1") (-25000) "Groceries" EXPENSE None]
       [] [].

(** the two legs [transferBetweenAccounts] creates *)
Definition transfer_description (data : AccountTransferData)
    (fromAccount toAccount : Account) : string :=
  description_or (at_description data)
    ("Transfer from " ++ a_name fromAccount ++ " to " ++ a_name toAccount).

Definition outgoing_leg (transferId fromUuid : string) (data : AccountTransferData)
    (fromAccount toAccount : Account) : Transaction :=
  mkTransaction fromUuid (fromAccountId data) None (- at_amount data)
                (transfer_description data fromAccount toAccount ++ " (Outgoing)")
                EXPENSE (Some ["account-transfer"; "transfer-" ++ transferId]).

Definition incoming_leg (transferId toUuid : string) (data : AccountTransferData)
    (fromAccount toAccount : Account) : Transaction :=
  mkTransaction toUuid (toAccountId data) None (at_amount data)
                (transfer_description data fromAccount toAccount ++ " (Incoming)")
                INCOME (Some ["account-transfer"; "transfer-" ++ transferId]).

(** a stored balance agrees with the ledger *)
Definition account_reconciled (db : Db) (aid : string) : Prop :=
  stored_balance db aid = Some (account_ledger_balance db aid).

Definition category_reconciled (db : Db) (cid : string) : Prop :=
  stored_currentAmount db cid = Some (category_ledger_balance db cid).

(** carrying neither "transfer" nor "account-transfer" *)
Definition ordinary (tags : option (list string)) : bool :=
  negb (includes tags "transfer") && negb (includes tags "account-transfer").

Definition after_account_transfer (transferId fromUuid toUuid : string)
    (data : AccountTransferData) (fromAccount toAccount : Account) (db : Db) : Db :=
  persist_transaction (incoming_leg transferId toUuid data fromAccount toAccount)
    (persist_transaction (outgoing_leg transferId fromUuid data fromAccount toAccount)
       (map_account_balance (toAccountId data)
          (fun _ => balance toAccount + at_amount data)
          (map_account_balance (fromAccountId data)
             (fun _ => balance fromAccount - at_amount data) db))).

(** [sample_db_account_drift] once reconciled: a1 holds 300 + 50 *)
Definition sample_db_account_reconciled : Db :=
  mkDb (budgets sample_db_account_drift)
       [mkAccount "a1" "b1" "Checking" 350 true false 0;
        mkAccount "a2" "b1" "Savings" 0 true false 1]
       (categories sample_db_account_drift)
       (transactions sample_db_account_drift) [] [].

(** ** Effects of a transfer between two stored categories *)

Definition after_transfer_between (uuid : string) (input : CreateTransferInput)
    (Cfrom Cto : BudgetCategory) (db : Db) : Db :=
  persist_transfer (transfer_of uuid input)
    (put_category
       (merge_category Cto (set_currentAmount (currentAmount Cto + ti_amount input)))
       (put_category
          (merge_category Cfrom (set_currentAmount (currentAmount Cfrom - ti_amount input)))
          db)).

Definition after_delete_transfer_between (id : string) (tr : Transfer)
    (Cfrom Cto : BudgetCategory) (db : Db) : Db :=
  remove_transfer id
    (put_category
       (merge_category Cto (set_currentAmount (currentAmount Cto - tr_amount tr)))
       (put_category
          (merge_category Cfrom (set_currentAmount (currentAmount Cfrom + tr_amount tr)))
          db)).

(** ** The value [getUnassignedBalance] computes *)

Definition on_budget_funds (db : Db) : Z :=
  match budgets db with
  | currentBudget :: _ =>
      reduce_sum balance
        (filter (fun account => isOnBudget account && negb (isClosed account))
                (accounts_of_budget (b_id currentBudget) db))
  | [] => 0
  end.

Definition unassigned_value (db : Db) : Z :=
  on_budget_funds db
  + reduce_sum amount (filter counts_as_unassigned (transactions db))
  - reduce_sum currentAmount (categories db).

(** a transfer of 7000 from Food to Rent *)
Definition sample_transfer_between : CreateTransferInput :=
  mkTransferInput "c1" "c2" 7000 (Some "Rent is due").

(** in non-decreasing [sortOrder] *)
Definition by_sortOrder (a b : Account) : Prop := sortOrder a <= sortOrder b.

(** an account counts as spendable funds *)
Definition spendable (a : Account) : bool := isOnBudget a && negb (isClosed a).

(** the account is one whose balance [getUnassignedBalance] adds up: stored,
    of the first budget, on budget and open *)
Definition funds_account (db : Db) (aid : string) : bool :=
  match budgets db, get a_id aid (accounts db) with
  | b :: _, Some A => String.eqb (budgetId A) (b_id b) && spendable A
  | _, _ => false
  end.

(** the on-budget funds [getBudgetSummary] adds to the income are the ones
    [getUnassignedBalance] uses; the summary as a function of the database *)
Definition counts_as_income (t : Transaction) : bool :=
  (0 <? amount t) && negb (includes (tags t) "transfer")
  && negb (includes (tags t) "account-transfer").

Definition counts_as_expense (t : Transaction) : bool :=
  (amount t <? 0) && negb (includes (tags t) "transfer")
  && negb (includes (tags t) "account-transfer").

Definition summary_value (db : Db) : BudgetSummary :=
  mkSummary
    (reduce_sum amount (filter counts_as_income (transactions db)) + on_budget_funds db)
    (reduce_sum (fun t => Z.abs (amount t)) (filter counts_as_expense (transactions db)))
    (reduce_sum targetAmount (categories db))
    (reduce_sum currentAmount (categories db))
    (List.length (categories db))
    (List.length (transactions db)).

(** ** Sample data at the edge of the safe integers *)

(** [sample_db] with Food holding [2 ^ 53] sats, and an untagged income of
    one sat on Food *)
Definition sample_db_at_2_53 : Db :=
  mkDb (budgets sample_db) (accounts sample_db)
       [mkCategory "c1" "Food" 500000 9007199254740992 false]
       [] [] [].

Definition sample_income_of_one : CreateTransactionInput :=
  mkTxInput "a1" (Some "c1") 1 "Refund" INCOME None.

(** Food at 1 sat with an untagged expense of [2 ^ 53] sats on it *)
Definition sample_db_large_expense : Db :=
  mkDb (budgets sample_db) (accounts sample_db)
       [mkCategory "c1" "Food" 500000 1 false]
       [mkTransaction "t1" "a1" (Some "c1") (-9007199254740992) "Mistyped" EXPENSE None]
       [] [].

(** [sample_db] with Food holding one sat *)
Definition sample_db_food_at_one : Db :=
  mkDb (budgets sample_db) (accounts sample_db)
       [mkCategory "c1" "Food" 500000 1 false]
       [] [] [].

(** ** Facts about keyed object stores *)

Section StoreFacts.
Variable V : Type.
Variable key : V -> string.
Local Abbreviation get := (@get V key).
Local Abbreviation put := (@put V key).
Local Abbreviation remove := (@remove V key).
Local Abbreviation ordered := (@ordered V key).
Local Abbreviation replace := (@replace V key).

Lemma klt_irrefl a : klt a a = false.
Proof.
  unfold klt. destruct (String_as_OT.compare a a) eqn:E; auto.
  exfalso. exact (StrictOrder_Irreflexive (R := String_as_OT.lt) a E).
Qed.

Lemma klt_trans a b c : klt a b = true -> klt b c = true -> klt a c = true.
Proof.
  unfold klt.
  destruct (String_as_OT.compare a b) eqn:E1; try discriminate.
  destruct (String_as_OT.compare b c) eqn:E2; try discriminate.
  intros _ _.
  assert (H : String_as_OT.lt a c)
    by exact (StrictOrder_Transitive (R := String_as_OT.lt) a b c E1 E2).
  unfold String_as_OT.lt in H. now rewrite H.
Qed.

Lemma klt_neq a b : klt a b = true -> a <> b.
Proof. intros H ->. rewrite klt_irrefl in H. discriminate. Qed.

Lemma compare_Eq a b : String_as_OT.compare a b = Eq -> a = b.
Proof. destruct (String_as_OT.compare_spec a b); congruence. Qed.

Lemma compare_Gt a b : String_as_OT.compare a b = Gt -> klt b a = true.
Proof.
  unfold klt. destruct (String_as_OT.compare_spec a b) as [|?|H]; try discriminate.
  intros _. unfold String_as_OT.lt in H. now rewrite H.
Qed.

Lemma compare_Lt a b : String_as_OT.compare a b = Lt -> klt a b = true.
Proof. unfold klt. now intros ->. Qed.

Lemma get_put_same v l : get (key v) (put v l) = Some v.
Proof.
  unfold get. induction l as [|x r IH]; simpl.
  - now rewrite String.eqb_refl.
  - destruct (String_as_OT.compare (key v) (key x)) eqn:E; simpl.
    + now rewrite String.eqb_refl.
    + now rewrite String.eqb_refl.
    + apply compare_Gt, klt_neq in E.
      destruct (String.eqb_spec (key x) (key v)); [congruence | exact IH].
Qed.

Lemma get_put_other k v l : k <> key v -> get k (put v l) = get k l.
Proof.
  intros Hk. unfold get. induction l as [|x r IH]; simpl.
  - destruct (String.eqb_spec (key v) k); congruence.
  - destruct (String_as_OT.compare (key v) (key x)) eqn:E; simpl.
    + apply compare_Eq in E. rewrite <- E.
      destruct (String.eqb_spec (key v) k); congruence.
    + destruct (String.eqb_spec (key v) k); congruence.
    + now rewrite IH.
Qed.

Lemma get_Some_key k l x : get k l = Some x -> key x = k.
Proof.
  unfold get. intros H. apply find_some in H. now apply String.eqb_eq.
Qed.

Lemma get_Some_In k l x : get k l = Some x -> In x l.
Proof. unfold get. intros H. now apply find_some in H. Qed.


Lemma ordered_get_In l x : ordered l = true -> In x l -> get (key x) l = Some x.
Proof.
  unfold get. induction l as [|y r IH]; simpl; [tauto|].
  intros Ho [->|Hx].
  - now rewrite String.eqb_refl.
  - apply andb_prop in Ho. destruct Ho as [Hall Ho].
    rewrite forallb_forall in Hall. specialize (Hall _ Hx).
    apply klt_neq in Hall.
    destruct (String.eqb_spec (key y) (key x)); [congruence | now apply IH].
Qed.

Lemma put_replace v l :
  ordered l = true -> get (key v) l <> None -> put v l = map (replace v) l.
Proof.
  induction l as [|x r IH]; simpl; intros Ho Hg.
  - unfold get in Hg. simpl in Hg. congruence.
  - apply andb_prop in Ho. destruct Ho as [Hall Ho].
    rewrite forallb_forall in Hall.
    assert (Hid : forall k, (forall y, In y r -> key y <> k) ->
                            map (fun y => if String.eqb (key y) k then v else y) r = r).
    { intros k Hn. rewrite <- (map_id r) at 2. apply map_ext_in.
      intros y Hy. destruct (String.eqb_spec (key y) k); [exfalso; eapply Hn; eauto | auto]. }
    unfold replace at 1. unfold get in Hg. simpl in Hg.
    destruct (String_as_OT.compare (key v) (key x)) eqn:E.
    + apply compare_Eq in E. rewrite E, String.eqb_refl. f_equal.
      unfold replace. rewrite E. symmetry. apply Hid.
      intros y Hy. apply Hall, klt_neq in Hy. congruence.
    + exfalso. apply compare_Lt in E.
      destruct (String.eqb_spec (key x) (key v)) as [e|_].
      * rewrite e, klt_irrefl in E. discriminate.
      * destruct (find (fun x0 => String.eqb (key x0) (key v)) r) eqn:F; [|congruence].
        apply find_some in F. destruct F as [Fin Fk].
        apply String.eqb_eq in Fk. apply Hall in Fin.
        rewrite Fk in Fin. pose proof (klt_trans _ _ _ E Fin) as T.
        rewrite klt_irrefl in T. discriminate.
    + pose proof E as E'. apply compare_Gt, klt_neq in E'.
      destruct (String.eqb_spec (key x) (key v)); [congruence|].
      f_equal. apply IH; assumption.
Qed.

Lemma ordered_map (f : V -> V) l :
  (forall x, key (f x) = key x) -> ordered l = true -> ordered (map f l) = true.
Proof.
  intros Hf. induction l as [|x r IH]; simpl; auto.
  intros Ho. apply andb_prop in Ho. destruct Ho as [Hall Ho].
  rewrite IH by assumption. rewrite andb_true_r.
  rewrite forallb_forall in *. intros y Hy.
  apply in_map_iff in Hy. destruct Hy as [z [<- Hz]].
  rewrite !Hf. now apply Hall.
Qed.

Lemma ordered_put v l : ordered l = true -> ordered (put v l) = true.
Proof.
  induction l as [|x r IH]; simpl; auto.
  intros Ho. pose proof Ho as Ho'. apply andb_prop in Ho. destruct Ho as [Hall Ho].
  rewrite forallb_forall in Hall.
  destruct (String_as_OT.compare (key v) (key x)) eqn:E; simpl.
  - apply compare_Eq in E. rewrite Ho, andb_true_r.
    rewrite forallb_forall. intros y Hy. rewrite E. now apply Hall.
  - apply compare_Lt in E. rewrite E. simpl. rewrite Ho'. rewrite andb_true_r.
    rewrite forallb_forall. intros y Hy. eapply klt_trans; eauto.
  - apply compare_Gt in E. rewrite IH by assumption. rewrite andb_true_r.
    rewrite forallb_forall. intros y Hy.
    assert (Hin : forall w, In w (put v r) -> w = v \/ In w r).
    { clear. induction r as [|a r IHr]; simpl.
      - intros w [<-|[]]; auto.
      - intros w. destruct (String_as_OT.compare (key v) (key a)); simpl.
        + intros [<-|H]; auto.
        + intros [<-|[<-|H]]; auto.
        + intros [<-|H]; auto. destruct (IHr _ H); auto. }
    destruct (Hin _ Hy) as [->|Hy']; auto.
Qed.

Lemma ordered_remove k l : ordered l = true -> ordered (remove k l) = true.
Proof.
  unfold remove. induction l as [|x r IH]; simpl; auto.
  intros Ho. apply andb_prop in Ho. destruct Ho as [Hall Ho].
  destruct (negb (String.eqb (key x) k)); simpl; auto.
  rewrite IH by assumption. rewrite andb_true_r.
  rewrite forallb_forall in *. intros y Hy.
  apply filter_In in Hy. now apply Hall.
Qed.



Lemma compare_refl a : String_as_OT.compare a a = Eq.
Proof.
  destruct (String_as_OT.compare a a) eqn:E; auto.
  - apply compare_Lt in E. rewrite klt_irrefl in E. discriminate.
  - apply compare_Gt in E. rewrite klt_irrefl in E. discriminate.
Qed.

Lemma put_put v w l : key v = key w -> put w (put v l) = put w l.
Proof.
  intros Hk. induction l as [|x r IH]; simpl.
  - now rewrite <- Hk, compare_refl.
  - destruct (String_as_OT.compare (key v) (key x)) eqn:E; simpl;
      rewrite <- Hk, ?E, ?compare_refl; auto.
    now rewrite IH.
Qed.

Lemma put_same v l : ordered l = true -> get (key v) l = Some v -> put v l = l.
Proof.
  intros Ho Hg. rewrite put_replace by (assumption || congruence).
  rewrite <- (map_id l) at 2. apply map_ext_in.
  intros x Hx. unfold replace.
  destruct (String.eqb_spec (key x) (key v)) as [e|]; auto.
  apply (ordered_get_In _ _ Ho) in Hx. rewrite e in Hx. congruence.
Qed.

Lemma filter_put_fresh (p : V -> bool) v l :
  p v = false -> get (key v) l = None -> filter p (put v l) = filter p l.
Proof.
  intros Hp. unfold get. induction l as [|a r IH]; simpl.
  - now rewrite Hp.
  - destruct (String.eqb_spec (key a) (key v)) as [e|ne]; [discriminate|].
    intros Hg. destruct (String_as_OT.compare (key v) (key a)) eqn:E; simpl.
    + apply compare_Eq in E. congruence.
    + now rewrite Hp.
    + now rewrite IH.
Qed.

End StoreFacts.

(** ** Running the primitive operations *)

Lemma updateCategory_run db cid c u :
  get c_id cid (categories db) = Some c ->
  updateCategory cid u db =
    (log (W_put "categories" (c_id c))
         (s_write CATEGORIES (put c_id (merge_category c u) (categories db)) db),
     Ok (merge_category c u)).
Proof.
  intros H. unfold updateCategory, getCategory, getData, bind. simpl.
  rewrite H. reflexivity.
Qed.

Lemma updateCategory_absent db cid u :
  get c_id cid (categories db) = None ->
  updateCategory cid u db = (db, Throw "Category not found").
Proof.
  intros H. unfold updateCategory, getCategory, getData, bind. simpl.
  rewrite H. reflexivity.
Qed.

Lemma updateAccountBalance_run db aid a n :
  get a_id aid (accounts db) = Some a ->
  updateAccountBalance aid n db =
    (log (W_put "accounts" (a_id a))
         (s_write ACCOUNTS
            (put a_id (merge_account a (mkAccUpdate None None None (Some n) None))
                 (accounts db)) db),
     Ok tt).
Proof.
  intros H. unfold updateAccountBalance, updateAccount, getAccount, getData, bind.
  simpl. rewrite H. simpl. rewrite H. reflexivity.
Qed.

Lemma updateAccountBalance_absent db aid n :
  get a_id aid (accounts db) = None ->
  updateAccountBalance aid n db = (db, Throw "Account not found").
Proof.
  intros H. unfold updateAccountBalance, getAccount, getData, bind. simpl.
  rewrite H. reflexivity.
Qed.

Lemma merge_category_id c u : c_id (merge_category c u) = c_id c.
Proof. reflexivity. Qed.

Lemma merge_account_id a u : a_id (merge_account a u) = a_id a.
Proof. reflexivity. Qed.

Lemma merge_category_same c :
  merge_category c (set_currentAmount (currentAmount c)) = c.
Proof. now destruct c. Qed.

Lemma merge_account_same a :
  merge_account a (mkAccUpdate None None None (Some (balance a)) None) = a.
Proof. now destruct a. Qed.

(** ** C3: an account transfer beyond the source balance *)

(** C3. For existing accounts [from] and [to], [transferBetweenAccounts]
    with an amount strictly greater than the source balance throws the
    insufficient-funds error and returns the database as it was: no balance,
    no transaction and no entry of the write log has changed. *)
Theorem C3_insufficient_funds_rejected :
  forall db transferId fromUuid toUuid data fromAccount toAccount,
    get a_id (fromAccountId data) (accounts db) = Some fromAccount ->
    get a_id (toAccountId data) (accounts db) = Some toAccount ->
    balance fromAccount < at_amount data ->
    transferBetweenAccounts transferId fromUuid toUuid data db =
      (db, Throw "Insufficient funds in source account").
Proof.
  intros db transferId fromUuid toUuid data fa ta Hf Ht Hlt.
  unfold transferBetweenAccounts, bind, promise_all2, getAccount, getData.
  simpl. rewrite Hf, Ht.
  apply Z.ltb_lt in Hlt. rewrite Hlt. reflexivity.
Qed.

(** ** Running the transaction operations *)

Lemma category_block_run (t : Transaction) (g : BudgetCategory -> Z) (f : Z -> Z) db :
  (forall c, g c = f (currentAmount c)) ->
  match categoryId t with
  | Some cid =>
      when (truthy cid && negb (String.eqb cid UNASSIGNED_CATEGORY_ID)
            && negb (includes (tags t) "transfer"))
        (category <- getCategory cid ;;
         match category with
         | Some category =>
             updateCategory cid (set_currentAmount (g category)) ;; ret tt
         | None => ret tt
         end)
  | None => ret tt
  end db = (category_step t f db, Ok tt).
Proof.
  intros Hg. unfold category_step, category_of.
  destruct (categoryId t) as [cid|]; [|reflexivity].
  destruct (truthy cid && negb (String.eqb cid UNASSIGNED_CATEGORY_ID)
            && negb (includes (tags t) "transfer")); [|reflexivity].
  unfold when, bind, getCategory, getData, map_category_amount. simpl.
  destruct (get c_id cid (categories db)) as [c|] eqn:E; [|reflexivity].
  rewrite (updateCategory_run _ _ _ _ E), Hg. reflexivity.
Qed.

Lemma account_block_run (aid : string) (g : Account -> Z) (f : Z -> Z) db :
  (forall a, g a = f (balance a)) ->
  try_catch
    (account <- getAccount aid ;;
     match account with
     | Some account => updateAccountBalance aid (g account)
     | None => ret tt
     end)
    (fun _ => ret tt) db = (map_account_balance aid f db, Ok tt).
Proof.
  intros Hg. unfold try_catch, bind, getAccount, getData, map_account_balance. simpl.
  destruct (get a_id aid (accounts db)) as [a|] eqn:E; [|reflexivity].
  rewrite (updateAccountBalance_run _ _ _ _ E), Hg. reflexivity.
Qed.

Lemma account_block_run_plain (aid : string) (g : Account -> Z) (f : Z -> Z) db :
  (forall a, g a = f (balance a)) ->
  (account <- getAccount aid ;;
   match account with
   | Some account => updateAccountBalance aid (g account)
   | None => ret tt
   end) db = (map_account_balance aid f db, Ok tt).
Proof.
  intros Hg. unfold bind, getAccount, getData, map_account_balance. simpl.
  destruct (get a_id aid (accounts db)) as [a|] eqn:E; [|reflexivity].
  rewrite (updateAccountBalance_run _ _ _ _ E), Hg. reflexivity.
Qed.

Lemma transactions_category_step t f db :
  transactions (category_step t f db) = transactions db.
Proof.
  unfold category_step, map_category_amount.
  destruct (category_of t); auto.
  destruct (get c_id s (categories db)); auto.
Qed.

Lemma transactions_map_account_balance aid f db :
  transactions (map_account_balance aid f db) = transactions db.
Proof.
  unfold map_account_balance. destruct (get a_id aid (accounts db)); auto.
Qed.

Lemma createTransaction_run db uuid input :
  get t_id uuid (transactions db) = None ->
  createTransaction uuid input db =
    (after_create (transaction_of uuid input) db, Ok (transaction_of uuid input)).
Proof.
  intros Hfresh. unfold createTransaction.
  fold (transaction_of uuid input). set (t := transaction_of uuid input).
  unfold bind at 1.
  rewrite (category_block_run t _ (fun cur => cur + amount t)) by reflexivity.
  unfold bind at 1. unfold after_create.
  fold (account_applies t).
  assert (Ht : forall d, transactions d = transactions db ->
            (addData TRANSACTIONS t ;; ret t) d =
            (log (W_add "transactions" (t_id t))
                 (s_write TRANSACTIONS (put t_id t (transactions d)) d), Ok t)).
  { intros d Hd. unfold bind, addData. simpl. rewrite Hd.
    subst t. simpl. now rewrite Hfresh. }
  destruct (account_applies t); simpl.
  - rewrite (account_block_run _ _ (fun bal => bal + amount t)) by reflexivity.
    apply Ht. now rewrite transactions_map_account_balance, transactions_category_step.
  - apply Ht. now rewrite transactions_category_step.
Qed.

Lemma createTransaction_duplicate db uuid input x :
  get t_id uuid (transactions db) = Some x ->
  exists message,
    createTransaction uuid input db =
      (balances_after_create (transaction_of uuid input) db, Throw message).
Proof.
  intros Hdup. unfold createTransaction, balances_after_create.
  fold (transaction_of uuid input). set (t := transaction_of uuid input).
  unfold bind at 1.
  rewrite (category_block_run t _ (fun cur => cur + amount t)) by reflexivity.
  unfold bind at 1. fold (account_applies t). cbv zeta.
  assert (Ht : forall d, transactions d = transactions db ->
            exists message, (addData TRANSACTIONS t ;; ret t) d = (d, Throw message)).
  { intros d Hd. unfold bind, addData. simpl. rewrite Hd.
    subst t. simpl. rewrite Hdup. eauto. }
  destruct (account_applies t); simpl.
  - rewrite (account_block_run _ _ (fun bal => bal + amount t)) by reflexivity.
    apply Ht. now rewrite transactions_map_account_balance, transactions_category_step.
  - apply Ht. now rewrite transactions_category_step.
Qed.

Lemma deleteTransaction_run db id t :
  get t_id id (transactions db) = Some t ->
  deleteTransaction id db = (after_delete t db, Ok tt).
Proof.
  intros Hget. pose proof (get_Some_key _ _ _ _ _ Hget) as Hid.
  unfold deleteTransaction. unfold bind at 1. unfold getTransaction, getData.
  simpl. rewrite Hget. unfold bind at 1.
  rewrite (category_block_run t _ (fun cur => cur - amount t)) by reflexivity.
  unfold bind at 1. unfold after_delete, account_reverses, when, deleteData.
  rewrite Hid.
  destruct (truthy (accountId t)); simpl; [|reflexivity].
  destruct (includes (tags t) "account-transfer"); simpl.
  - rewrite (account_block_run _ _ (fun bal => bal - amount t)) by reflexivity.
    reflexivity.
  - destruct (includes (tags t) "transfer"); simpl; [reflexivity|].
    rewrite (account_block_run _ _ (fun bal => bal - amount t)) by reflexivity.
    reflexivity.
Qed.

Lemma deleteTransaction_absent db id :
  get t_id id (transactions db) = None ->
  deleteTransaction id db = (db, Throw "Transaction not found").
Proof.
  intros H. unfold deleteTransaction, bind, getTransaction, getData. simpl.
  now rewrite H.
Qed.

Lemma updateTransaction_run db id existing updates :
  get t_id id (transactions db) = Some existing ->
  updateTransaction id updates db =
    (after_update existing (merge_transaction existing updates) db,
     Ok (merge_transaction existing updates)).
Proof.
  intros Hget. unfold updateTransaction. unfold bind at 1.
  unfold getTransaction, getData.
  cbn [s_read s_key TRANSACTIONS]. cbv beta iota. rewrite Hget. cbv beta iota zeta.
  set (updated := merge_transaction existing updates).
  unfold after_update. cbv zeta.
  unfold bind at 1.
  assert (Hcat :
    forall d,
      (match categoryId existing with
       | Some cid =>
           when (truthy cid && negb (String.eqb cid UNASSIGNED_CATEGORY_ID)
                 && negb (includes (tags existing) "transfer"))
             (oldCategory <- getCategory cid ;;
              match oldCategory with
              | Some oldCategory =>
                  updateCategory cid
                    (set_currentAmount (currentAmount oldCategory - amount existing)) ;;
                  ret tt
              | None => ret tt
              end)
       | None => ret tt
       end ;;
       match categoryId updated with
       | Some cid =>
           when (truthy cid && negb (String.eqb cid UNASSIGNED_CATEGORY_ID)
                 && negb (includes (tags updated) "transfer"))
             (newCategory <- getCategory cid ;;
              match newCategory with
              | Some newCategory =>
                  updateCategory cid
                    (set_currentAmount (currentAmount newCategory + amount updated)) ;;
                  ret tt
              | None => ret tt
              end)
       | None => ret tt
       end) d =
      (category_step updated (fun cur => cur + amount updated)
         (category_step existing (fun cur => cur - amount existing) d), Ok tt)).
  { intros d. unfold bind at 1.
    rewrite (category_block_run existing _ (fun cur => cur - amount existing)) by reflexivity.
    apply (category_block_run updated _ (fun cur => cur + amount updated)). reflexivity. }
  assert (Hacc :
    forall d,
      try_catch
        (when (truthy (accountId existing)
               && negb (includes (tags existing) "transfer")
               && negb (includes (tags existing) "account-transfer"))
           (oldAccount <- getAccount (accountId existing) ;;
            match oldAccount with
            | Some oldAccount =>
                updateAccountBalance (accountId existing)
                                     (balance oldAccount - amount existing)
            | None => ret tt
            end) ;;
         when (truthy (accountId updated)
               && negb (includes (tags updated) "transfer")
               && negb (includes (tags updated) "account-transfer"))
           (newAccount <- getAccount (accountId updated) ;;
            match newAccount with
            | Some newAccount =>
                updateAccountBalance (accountId updated)
                                     (balance newAccount + amount updated)
            | None => ret tt
            end))
        (fun _ => ret tt) d =
      ((let d' := if account_applies existing
                  then map_account_balance (accountId existing)
                         (fun bal => bal - amount existing) d
                  else d in
        if account_applies updated
        then map_account_balance (accountId updated) (fun bal => bal + amount updated) d'
        else d'), Ok tt)).
  { intros d. unfold try_catch, bind at 1.
    fold (account_applies existing). fold (account_applies updated).
    unfold when.
    destruct (account_applies existing).
    - rewrite (account_block_run_plain _ _ (fun bal => bal - amount existing)) by reflexivity.
      destruct (account_applies updated).
      + rewrite (account_block_run_plain _ _ (fun bal => bal + amount updated)) by reflexivity.
        reflexivity.
      + reflexivity.
    - unfold ret at 1.
      destruct (account_applies updated).
      + rewrite (account_block_run_plain _ _ (fun bal => bal + amount updated)) by reflexivity.
        reflexivity.
      + reflexivity. }
  unfold when at 1.
  destruct (negb (opt_eqb (categoryId existing) (categoryId updated))
            || negb (amount existing =? amount updated)).
  - rewrite Hcat. unfold bind at 1. unfold when at 1.
    destruct (negb (String.eqb (accountId existing) (accountId updated))
              || negb (amount existing =? amount updated)).
    + rewrite Hacc. reflexivity.
    + reflexivity.
  - unfold ret at 1. unfold bind at 1. unfold when at 1.
    destruct (negb (String.eqb (accountId existing) (accountId updated))
              || negb (amount existing =? amount updated)).
    + rewrite Hacc. reflexivity.
    + reflexivity.
Qed.

(** ** Stored balances after an effect *)

Lemma sc_map_category cid f db k :
  stored_currentAmount (map_category_amount cid f db) k =
    if String.eqb k cid then option_map f (stored_currentAmount db k)
    else stored_currentAmount db k.
Proof.
  unfold stored_currentAmount, map_category_amount.
  destruct (get c_id cid (categories db)) as [c|] eqn:E.
  - pose proof (get_Some_key _ _ _ _ _ E) as Hk. simpl.
    destruct (String.eqb_spec k cid) as [->|Hne].
    + rewrite <- Hk at 1. rewrite <- (merge_category_id c (set_currentAmount (f (currentAmount c)))).
      rewrite get_put_same. rewrite E. reflexivity.
    + rewrite get_put_other; [reflexivity|]. simpl. congruence.
  - destruct (String.eqb_spec k cid) as [->|Hne]; [|reflexivity].
    now rewrite E.
Qed.

Lemma sb_map_account aid f db k :
  stored_balance (map_account_balance aid f db) k =
    if String.eqb k aid then option_map f (stored_balance db k)
    else stored_balance db k.
Proof.
  unfold stored_balance, map_account_balance.
  destruct (get a_id aid (accounts db)) as [a|] eqn:E.
  - pose proof (get_Some_key _ _ _ _ _ E) as Hk. simpl.
    destruct (String.eqb_spec k aid) as [->|Hne].
    + rewrite <- Hk at 1.
      rewrite <- (merge_account_id a (mkAccUpdate None None None (Some (f (balance a))) None)).
      rewrite get_put_same. rewrite E. reflexivity.
    + rewrite get_put_other; [reflexivity|]. simpl. congruence.
  - destruct (String.eqb_spec k aid) as [->|Hne]; [|reflexivity].
    now rewrite E.
Qed.

Lemma sc_map_account aid f db k :
  stored_currentAmount (map_account_balance aid f db) k = stored_currentAmount db k.
Proof.
  unfold stored_currentAmount, map_account_balance.
  destruct (get a_id aid (accounts db)); reflexivity.
Qed.

Lemma sb_map_category cid f db k :
  stored_balance (map_category_amount cid f db) k = stored_balance db k.
Proof.
  unfold stored_balance, map_category_amount.
  destruct (get c_id cid (categories db)); reflexivity.
Qed.

Lemma sc_category_step t f db k :
  stored_currentAmount (category_step t f db) k =
    match category_of t with
    | Some cid => if String.eqb k cid then option_map f (stored_currentAmount db k)
                  else stored_currentAmount db k
    | None => stored_currentAmount db k
    end.
Proof.
  unfold category_step. destruct (category_of t); [apply sc_map_category | reflexivity].
Qed.

Lemma sb_category_step t f db k :
  stored_balance (category_step t f db) k = stored_balance db k.
Proof.
  unfold category_step. destruct (category_of t); [apply sb_map_category | reflexivity].
Qed.

Lemma sc_transactions_write w l db k :
  stored_currentAmount (log w (s_write TRANSACTIONS l db)) k = stored_currentAmount db k.
Proof. reflexivity. Qed.

Lemma sb_transactions_write w l db k :
  stored_balance (log w (s_write TRANSACTIONS l db)) k = stored_balance db k.
Proof. reflexivity. Qed.

Lemma option_map_inverse (f g : Z -> Z) (o : option Z) :
  (forall z, f (g z) = z) -> option_map f (option_map g o) = o.
Proof. intros H. destruct o; simpl; [now rewrite H | reflexivity]. Qed.

Lemma sc_after_create t db k :
  stored_currentAmount (after_create t db) k =
    stored_currentAmount (category_step t (fun cur => cur + amount t) db) k.
Proof.
  unfold after_create. cbv zeta. rewrite sc_transactions_write.
  destruct (account_applies t); [apply sc_map_account | reflexivity].
Qed.

Lemma sc_after_delete t db k :
  stored_currentAmount (after_delete t db) k =
    stored_currentAmount (category_step t (fun cur => cur - amount t) db) k.
Proof.
  unfold after_delete. cbv zeta. rewrite sc_transactions_write.
  destruct (account_reverses t); [apply sc_map_account | reflexivity].
Qed.

Lemma sb_after_create t db k :
  stored_balance (after_create t db) k =
    if account_applies t && String.eqb k (accountId t)
    then option_map (fun bal => bal + amount t) (stored_balance db k)
    else stored_balance db k.
Proof.
  unfold after_create. cbv zeta. rewrite sb_transactions_write.
  destruct (account_applies t); simpl.
  - rewrite sb_map_account, !sb_category_step. reflexivity.
  - apply sb_category_step.
Qed.

Lemma sb_after_delete t db k :
  stored_balance (after_delete t db) k =
    if account_reverses t && String.eqb k (accountId t)
    then option_map (fun bal => bal - amount t) (stored_balance db k)
    else stored_balance db k.
Proof.
  unfold after_delete. cbv zeta. rewrite sb_transactions_write.
  destruct (account_reverses t); simpl.
  - rewrite sb_map_account, !sb_category_step. reflexivity.
  - apply sb_category_step.
Qed.

Lemma transactions_after_create t db :
  transactions (after_create t db) = put t_id t (transactions db).
Proof.
  unfold after_create. cbv zeta. simpl.
  destruct (account_applies t);
    now rewrite ?transactions_map_account_balance, transactions_category_step.
Qed.


(** ** Number arithmetic on safe integers *)

Lemma round_to_double_safe z : isSafeInteger z = true -> round_to_double z = z.
Proof.
  unfold isSafeInteger, MAX_SAFE_INTEGER, round_to_double. intros H.
  apply andb_prop in H. destruct H as [H1 H2].
  apply Z.leb_le in H1. apply Z.leb_le in H2.
  change (2 ^ 53) with 9007199254740992 in *.
  destruct (Z.ltb_spec (Z.abs z) 9007199254740992); [reflexivity | lia].
Qed.

Lemma number_add_safe a b : isSafeInteger (a + b) = true -> number_add a b = a + b.
Proof. apply round_to_double_safe. Qed.

Lemma number_sub_safe a b : isSafeInteger (a - b) = true -> number_sub a b = a - b.
Proof. apply round_to_double_safe. Qed.

(** ** Running the operations over number arithmetic

    Where the sums the code forms are safe integers, the operations of
    [Double] have the effect of the exact ones. *)

Lemma category_block_run_at (t : Transaction) (g : BudgetCategory -> Z) (f : Z -> Z) db :
  (forall cid c, category_of t = Some cid -> get c_id cid (categories db) = Some c ->
                 g c = f (currentAmount c)) ->
  match categoryId t with
  | Some cid =>
      when (truthy cid && negb (String.eqb cid UNASSIGNED_CATEGORY_ID)
            && negb (includes (tags t) "transfer"))
        (category <- getCategory cid ;;
         match category with
         | Some category =>
             updateCategory cid (set_currentAmount (g category)) ;; ret tt
         | None => ret tt
         end)
  | None => ret tt
  end db = (category_step t f db, Ok tt).
Proof.
  intros Hg. unfold category_step. unfold category_of in *.
  destruct (categoryId t) as [cid|]; [|reflexivity].
  destruct (truthy cid && negb (String.eqb cid UNASSIGNED_CATEGORY_ID)
            && negb (includes (tags t) "transfer")); [|reflexivity].
  unfold when, bind, getCategory, getData, map_category_amount. simpl.
  destruct (get c_id cid (categories db)) as [c|] eqn:E; [|reflexivity].
  rewrite (updateCategory_run _ _ _ _ E), (Hg cid c eq_refl E). reflexivity.
Qed.

Lemma account_block_run_plain_at (aid : string) (g : Account -> Z) (f : Z -> Z) db :
  (forall a, get a_id aid (accounts db) = Some a -> g a = f (balance a)) ->
  (account <- getAccount aid ;;
   match account with
   | Some account => updateAccountBalance aid (g account)
   | None => ret tt
   end) db = (map_account_balance aid f db, Ok tt).
Proof.
  intros Hg. unfold bind, getAccount, getData, map_account_balance. simpl.
  destruct (get a_id aid (accounts db)) as [a|] eqn:E; [|reflexivity].
  rewrite (updateAccountBalance_run _ _ _ _ E), (Hg a eq_refl). reflexivity.
Qed.

Lemma account_block_run_at (aid : string) (g : Account -> Z) (f : Z -> Z) db :
  (forall a, get a_id aid (accounts db) = Some a -> g a = f (balance a)) ->
  try_catch
    (account <- getAccount aid ;;
     match account with
     | Some account => updateAccountBalance aid (g account)
     | None => ret tt
     end)
    (fun _ => ret tt) db = (map_account_balance aid f db, Ok tt).
Proof.
  intros Hg. unfold try_catch.
  now rewrite (account_block_run_plain_at aid g f db Hg).
Qed.

Lemma accounts_category_step t f db :
  accounts (category_step t f db) = accounts db.
Proof.
  unfold category_step, map_category_amount.
  destruct (category_of t); auto.
  destruct (get c_id s (categories db)); auto.
Qed.

Lemma double_createTransaction_run db uuid input :
  let t := transaction_of uuid input in
  get t_id uuid (transactions db) = None ->
  (forall cid c, category_of t = Some cid -> get c_id cid (categories db) = Some c ->
                 isSafeInteger (currentAmount c + amount t) = true) ->
  (forall a, account_applies t = true -> get a_id (accountId t) (accounts db) = Some a ->
             isSafeInteger (balance a + amount t) = true) ->
  Double.createTransaction uuid input db = (after_create t db, Ok t).
Proof.
  intros t Hfresh Hc Ha. unfold Double.createTransaction.
  fold (transaction_of uuid input). fold t.
  unfold bind at 1.
  rewrite (category_block_run_at t _ (fun cur => cur + amount t))
    by (intros cid c H1 H2; apply number_add_safe; eauto).
  unfold bind at 1. unfold after_create.
  fold (account_applies t).
  assert (Ht : forall d, transactions d = transactions db ->
            (addData TRANSACTIONS t ;; ret t) d =
            (log (W_add "transactions" (t_id t))
                 (s_write TRANSACTIONS (put t_id t (transactions d)) d), Ok t)).
  { intros d Hd. unfold bind, addData. simpl. rewrite Hd.
    subst t. simpl. now rewrite Hfresh. }
  destruct (account_applies t) eqn:Happ; simpl.
  - rewrite (account_block_run_at _ _ (fun bal => bal + amount t)).
    + apply Ht. now rewrite transactions_map_account_balance, transactions_category_step.
    + intros a H. apply number_add_safe. apply Ha; [reflexivity|].
      now rewrite accounts_category_step in H.
  - apply Ht. now rewrite transactions_category_step.
Qed.

Lemma double_deleteTransaction_run db id t :
  get t_id id (transactions db) = Some t ->
  (forall cid c, category_of t = Some cid -> get c_id cid (categories db) = Some c ->
                 isSafeInteger (currentAmount c - amount t) = true) ->
  (forall a, account_reverses t = true -> get a_id (accountId t) (accounts db) = Some a ->
             isSafeInteger (balance a - amount t) = true) ->
  Double.deleteTransaction id db = (after_delete t db, Ok tt).
Proof.
  intros Hget Hc Ha. pose proof (get_Some_key _ _ _ _ _ Hget) as Hid.
  unfold Double.deleteTransaction. unfold bind at 1. unfold getTransaction, getData.
  simpl. rewrite Hget. unfold bind at 1.
  rewrite (category_block_run_at t _ (fun cur => cur - amount t))
    by (intros cid c H1 H2; apply number_sub_safe; eauto).
  unfold bind at 1. unfold after_delete, when, deleteData.
  rewrite Hid.
  assert (Hacc : account_reverses t = true ->
            forall a, get a_id (accountId t)
                        (accounts (category_step t (fun cur => cur - amount t) db)) = Some a ->
                      number_sub (balance a) (amount t) = balance a - amount t).
  { intros Hr a H. apply number_sub_safe. apply Ha; [assumption|].
    now rewrite accounts_category_step in H. }
  unfold account_reverses in *.
  destruct (truthy (accountId t)); simpl; [|reflexivity].
  destruct (includes (tags t) "account-transfer"); simpl.
  - rewrite (account_block_run_at _ _ (fun bal => bal - amount t)) by (apply Hacc; reflexivity).
    reflexivity.
  - destruct (includes (tags t) "transfer"); simpl; [reflexivity|].
    rewrite (account_block_run_at _ _ (fun bal => bal - amount t)) by (apply Hacc; reflexivity).
    reflexivity.
Qed.

Lemma accounts_map_account_balance_congr aid f d db :
  accounts d = accounts db ->
  accounts (map_account_balance aid f d) = accounts (map_account_balance aid f db).
Proof.
  intros H. unfold map_account_balance. rewrite H.
  destruct (get a_id aid (accounts db)); simpl; now rewrite ?H.
Qed.

Lemma double_updateTransaction_run db id existing updates :
  let updated := merge_transaction existing updates in
  get t_id id (transactions db) = Some existing ->
  (forall cid c,
     category_of existing = Some cid -> get c_id cid (categories db) = Some c ->
     isSafeInteger (currentAmount c - amount existing) = true) ->
  (forall cid c,
     category_of updated = Some cid ->
     get c_id cid
       (categories (category_step existing (fun cur => cur - amount existing) db)) = Some c ->
     isSafeInteger (currentAmount c + amount updated) = true) ->
  (forall a,
     account_applies existing = true ->
     get a_id (accountId existing) (accounts db) = Some a ->
     isSafeInteger (balance a - amount existing) = true) ->
  (forall a,
     account_applies updated = true ->
     get a_id (accountId updated)
       (accounts (if account_applies existing
                  then map_account_balance (accountId existing)
                         (fun bal => bal - amount existing) db
                  else db)) = Some a ->
     isSafeInteger (balance a + amount updated) = true) ->
  Double.updateTransaction id updates db = (after_update existing updated db, Ok updated).
Proof.
  intros updated Hget Hc1 Hc2 Ha1 Ha2. unfold Double.updateTransaction. unfold bind at 1.
  unfold getTransaction, getData.
  cbn [s_read s_key TRANSACTIONS]. cbv beta iota. rewrite Hget. cbv beta iota zeta.
  fold updated.
  unfold after_update. cbv zeta.
  unfold bind at 1.
  assert (Hcat :
      (match categoryId existing with
       | Some cid =>
           when (truthy cid && negb (String.eqb cid UNASSIGNED_CATEGORY_ID)
                 && negb (includes (tags existing) "transfer"))
             (oldCategory <- getCategory cid ;;
              match oldCategory with
              | Some oldCategory =>
                  updateCategory cid
                    (set_currentAmount
                       (number_sub (currentAmount oldCategory) (amount existing))) ;;
                  ret tt
              | None => ret tt
              end)
       | None => ret tt
       end ;;
       match categoryId updated with
       | Some cid =>
           when (truthy cid && negb (String.eqb cid UNASSIGNED_CATEGORY_ID)
                 && negb (includes (tags updated) "transfer"))
             (newCategory <- getCategory cid ;;
              match newCategory with
              | Some newCategory =>
                  updateCategory cid
                    (set_currentAmount
                       (number_add (currentAmount newCategory) (amount updated))) ;;
                  ret tt
              | None => ret tt
              end)
       | None => ret tt
       end) db =
      (category_step updated (fun cur => cur + amount updated)
         (category_step existing (fun cur => cur - amount existing) db), Ok tt)).
  { unfold bind at 1.
    rewrite (category_block_run_at existing _ (fun cur => cur - amount existing))
      by (intros cid c H1 H2; apply number_sub_safe; eauto).
    apply (category_block_run_at updated _ (fun cur => cur + amount updated)).
    intros cid c H1 H2. apply number_add_safe; eauto. }
  assert (Hacc :
    forall d, accounts d = accounts db ->
      try_catch
        (when (truthy (accountId existing)
               && negb (includes (tags existing) "transfer")
               && negb (includes (tags existing) "account-transfer"))
           (oldAccount <- getAccount (accountId existing) ;;
            match oldAccount with
            | Some oldAccount =>
                updateAccountBalance (accountId existing)
                  (number_sub (balance oldAccount) (amount existing))
            | None => ret tt
            end) ;;
         when (truthy (accountId updated)
               && negb (includes (tags updated) "transfer")
               && negb (includes (tags updated) "account-transfer"))
           (newAccount <- getAccount (accountId updated) ;;
            match newAccount with
            | Some newAccount =>
                updateAccountBalance (accountId updated)
                  (number_add (balance newAccount) (amount updated))
            | None => ret tt
            end))
        (fun _ => ret tt) d =
      ((let d' := if account_applies existing
                  then map_account_balance (accountId existing)
                         (fun bal => bal - amount existing) d
                  else d in
        if account_applies updated
        then map_account_balance (accountId updated) (fun bal => bal + amount updated) d'
        else d'), Ok tt)).
  { intros d Hd. unfold try_catch, bind at 1.
    fold (account_applies existing). fold (account_applies updated).
    unfold when.
    destruct (account_applies existing) eqn:E1.
    - rewrite (account_block_run_plain_at _ _ (fun bal => bal - amount existing))
        by (intros a H; apply number_sub_safe; apply Ha1; [reflexivity | now rewrite <- Hd]).
      destruct (account_applies updated) eqn:E2.
      + rewrite (account_block_run_plain_at _ _ (fun bal => bal + amount updated)).
        * reflexivity.
        * intros a H. apply number_add_safe. apply Ha2; [reflexivity|].
          now rewrite <- (accounts_map_account_balance_congr _ _ d db Hd).
      + reflexivity.
    - unfold ret at 1.
      destruct (account_applies updated) eqn:E2.
      + rewrite (account_block_run_plain_at _ _ (fun bal => bal + amount updated)).
        * reflexivity.
        * intros a H. apply number_add_safe. apply Ha2; [reflexivity | now rewrite <- Hd].
      + reflexivity. }
  unfold when at 1.
  destruct (negb (opt_eqb (categoryId existing) (categoryId updated))
            || negb (amount existing =? amount updated)).
  - rewrite Hcat. unfold bind at 1. unfold when at 1.
    destruct (negb (String.eqb (accountId existing) (accountId updated))
              || negb (amount existing =? amount updated)).
    + rewrite Hacc by now rewrite !accounts_category_step. reflexivity.
    + reflexivity.
  - unfold ret at 1. unfold bind at 1. unfold when at 1.
    destruct (negb (String.eqb (accountId existing) (accountId updated))
              || negb (amount existing =? amount updated)).
    + rewrite Hacc by reflexivity. reflexivity.
    + reflexivity.
Qed.

Lemma category_of_tagged t :
  includes (tags t) "transfer" = true -> category_of t = None.
Proof.
  intros H. unfold category_of. rewrite H.
  destruct (categoryId t); [|reflexivity].
  now rewrite andb_false_r.
Qed.

Lemma sc_after_update existing updated db k :
  stored_currentAmount (after_update existing updated db) k =
    if negb (opt_eqb (categoryId existing) (categoryId updated))
       || negb (amount existing =? amount updated)
    then stored_currentAmount
           (category_step updated (fun cur => cur + amount updated)
              (category_step existing (fun cur => cur - amount existing) db)) k
    else stored_currentAmount db k.
Proof.
  unfold after_update. cbv zeta. rewrite sc_transactions_write.
  destruct (negb (opt_eqb (categoryId existing) (categoryId updated))
            || negb (amount existing =? amount updated));
    destruct (negb (String.eqb (accountId existing) (accountId updated))
              || negb (amount existing =? amount updated));
    destruct (account_applies updated); destruct (account_applies existing);
    rewrite ?sc_map_account; reflexivity.
Qed.

Lemma transactions_after_update existing updated db :
  transactions (after_update existing updated db) = put t_id updated (transactions db).
Proof.
  unfold after_update. cbv zeta. simpl.
  destruct (negb (opt_eqb (categoryId existing) (categoryId updated))
            || negb (amount existing =? amount updated));
    destruct (negb (String.eqb (accountId existing) (accountId updated))
              || negb (amount existing =? amount updated));
    destruct (account_applies updated); destruct (account_applies existing);
    now rewrite ?transactions_map_account_balance, ?transactions_category_step.
Qed.

(** ** C2: create followed by delete *)

(** Whatever the tags, create followed by delete puts every category back. *)
Lemma create_delete_restores_categories db t k :
  stored_currentAmount (after_delete t (after_create t db)) k = stored_currentAmount db k.
Proof.
  rewrite sc_after_delete, sc_category_step, sc_after_create, sc_category_step.
  destruct (category_of t) as [cid|]; [|reflexivity].
  destruct (String.eqb k cid); [|reflexivity].
  apply option_map_inverse. intros z. lia.
Qed.

Lemma category_of_categoryId t cid : category_of t = Some cid -> categoryId t = Some cid.
Proof.
  unfold category_of. destruct (categoryId t) as [c|]; [|discriminate].
  destruct (truthy c && negb (String.eqb c UNASSIGNED_CATEGORY_ID)
            && negb (includes (tags t) "transfer")); [congruence | discriminate].
Qed.

(** C2 (amended). For a transaction whose tag set does not contain
    "account-transfer" and whose id is new, and with the [currentAmount] of
    the category it names and the [balance] of the account it names safe
    integers both before and after the amount is added, [createTransaction]
    followed by [deleteTransaction] both succeed and leave the
    [currentAmount] of every category and the [balance] of every account at
    its value before the create. *)
Theorem C2_create_then_delete_restores :
  forall db uuid input,
    get t_id uuid (transactions db) = None ->
    includes (i_tags input) "account-transfer" = false ->
    (forall cid c,
       i_categoryId input = Some cid -> get c_id cid (categories db) = Some c ->
       isSafeInteger (currentAmount c) = true /\
       isSafeInteger (currentAmount c + i_amount input) = true) ->
    (forall a,
       get a_id (i_accountId input) (accounts db) = Some a ->
       isSafeInteger (balance a) = true /\
       isSafeInteger (balance a + i_amount input) = true) ->
    exists db1 db2,
      Double.createTransaction uuid input db = (db1, Ok (transaction_of uuid input)) /\
      Double.deleteTransaction uuid db1 = (db2, Ok tt) /\
      (forall cid, stored_currentAmount db2 cid = stored_currentAmount db cid) /\
      (forall aid, stored_balance db2 aid = stored_balance db aid).
Proof.
  intros db uuid input Hfresh Htag Hsc Hsa.
  set (t := transaction_of uuid input).
  assert (Hsame : account_reverses t = account_applies t).
  { unfold account_reverses, account_applies. subst t. simpl. rewrite Htag. simpl.
    now rewrite andb_true_r. }
  exists (after_create t db), (after_delete t (after_create t db)).
  split.
  { apply double_createTransaction_run; [assumption | |].
    - intros cid c H1 H2. apply (Hsc cid c); [|assumption].
      exact (category_of_categoryId t cid H1).
    - intros a _ H. now apply (Hsa a). }
  split.
  { apply double_deleteTransaction_run.
    - rewrite transactions_after_create. change uuid with (t_id t). apply get_put_same.
    - intros cid c H1 H2.
      assert (S : stored_currentAmount (after_create t db) cid = Some (currentAmount c))
        by (unfold stored_currentAmount; now rewrite H2).
      rewrite sc_after_create, sc_category_step, H1, String.eqb_refl in S.
      unfold stored_currentAmount in S.
      destruct (get c_id cid (categories db)) as [c0|] eqn:E; [|discriminate].
      simpl in S. injection S as S. rewrite <- S.
      change (amount t) with (i_amount input).
      replace (currentAmount c0 + i_amount input - i_amount input)
        with (currentAmount c0) by lia.
      apply (Hsc cid c0); [|assumption].
      exact (category_of_categoryId t cid H1).
    - intros a Hr H2. rewrite Hsame in Hr.
      assert (S : stored_balance (after_create t db) (accountId t) = Some (balance a))
        by (unfold stored_balance; now rewrite H2).
      rewrite sb_after_create, Hr, String.eqb_refl in S. cbn [andb] in S.
      unfold stored_balance in S.
      destruct (get a_id (accountId t) (accounts db)) as [a0|] eqn:E; [|discriminate].
      simpl in S. injection S as S. rewrite <- S.
      change (amount t) with (i_amount input).
      replace (balance a0 + i_amount input - i_amount input) with (balance a0) by lia.
      now apply (Hsa a0). }
  split; [intros cid; apply create_delete_restores_categories|].
  intros aid. rewrite sb_after_delete, sb_after_create.
  rewrite Hsame.
  destruct (account_applies t && String.eqb aid (accountId t)); [|reflexivity].
  apply option_map_inverse. intros z. lia.
Qed.

Lemma C2_create_then_delete_restores_witness :
  exists db1 db2,
    Double.createTransaction "t1" sample_expense sample_db
      = (db1, Ok (transaction_of "t1" sample_expense)) /\
    Double.deleteTransaction "t1" db1 = (db2, Ok tt) /\
    (forall cid, stored_currentAmount db2 cid = stored_currentAmount sample_db cid) /\
    (forall aid, stored_balance db2 aid = stored_balance sample_db aid).
Proof.
  apply (C2_create_then_delete_restores sample_db "t1" sample_expense);
    try reflexivity.
  - intros cid c Hcid Hc. injection Hcid as <-. injection Hc as <-.
    split; reflexivity.
  - intros a Ha. injection Ha as <-. split; reflexivity.
Defined.

(** C2 as stated fails for an account-transfer leg: create leaves account a1
    at 100000, delete then takes the amount off. *)
Lemma C2_counterexample :
  let db1 := fst (Double.createTransaction "t1" sample_account_transfer_leg sample_db) in
  let db2 := fst (Double.deleteTransaction "t1" db1) in
  snd (Double.createTransaction "t1" sample_account_transfer_leg sample_db)
    = Ok (transaction_of "t1" sample_account_transfer_leg) /\
  snd (Double.deleteTransaction "t1" db1) = Ok tt /\
  stored_balance sample_db "a1" = Some 100000 /\
  stored_balance db1 "a1" = Some 100000 /\
  stored_balance db2 "a1" = Some 99990 /\
  stored_balance db2 "a1" <> stored_balance sample_db "a1".
Proof. vm_compute. repeat split; try reflexivity. discriminate. Qed.

(** The range matters: with Food at [2 ^ 53] an income of 1 is lost in the
    addition of the create, and the delete leaves Food at [2 ^ 53 - 1]. *)
Example create_then_delete_rounds :
  let db := sample_db_at_2_53 in
  let db1 := fst (Double.createTransaction "t1" sample_income_of_one db) in
  let db2 := fst (Double.deleteTransaction "t1" db1) in
  stored_currentAmount db "c1" = Some 9007199254740992 /\
  stored_currentAmount db1 "c1" = Some 9007199254740992 /\
  stored_currentAmount db2 "c1" = Some 9007199254740991.
Proof. vm_compute. repeat split. Qed.

(** ** C4: what delete does to the account *)




(** ** C7: the create / update / delete scenario *)

(** C7. A category C holds [currentAmount = 0]. Creating an untagged
    transaction of amount -25000 on C leaves C at -25000; updating its amount
    to -10000 leaves C at -10000; deleting it leaves C at 0. Each of the
    three calls succeeds. *)
Theorem C7_scenario :
  forall db uuid input C,
    get t_id uuid (transactions db) = None ->
    get c_id (c_id C) (categories db) = Some C ->
    currentAmount C = 0 ->
    truthy (c_id C) = true ->
    c_id C <> UNASSIGNED_CATEGORY_ID ->
    i_categoryId input = Some (c_id C) ->
    i_amount input = -25000 ->
    (i_tags input = None \/ i_tags input = Some []) ->
    exists db1 db2 db3 t1 t2,
      createTransaction uuid input db = (db1, Ok t1) /\
      stored_currentAmount db1 (c_id C) = Some (-25000) /\
      updateTransaction uuid (mkTxUpdate None None (Some (-10000)) None None None) db1
        = (db2, Ok t2) /\
      stored_currentAmount db2 (c_id C) = Some (-10000) /\
      deleteTransaction uuid db2 = (db3, Ok tt) /\
      stored_currentAmount db3 (c_id C) = Some 0.
Proof.
  intros db uuid input C Hfresh HC Hzero Htruthy Hne Hcat Hamt Htags.
  set (t1 := transaction_of uuid input).
  set (t2 := merge_transaction t1 (mkTxUpdate None None (Some (-10000)) None None None)).
  assert (Hnot : includes (i_tags input) "transfer" = false)
    by (destruct Htags as [-> | ->]; reflexivity).
  assert (Hc1 : category_of t1 = Some (c_id C)).
  { unfold category_of. subst t1. simpl. rewrite Hcat, Htruthy, Hnot.
    destruct (String.eqb_spec (c_id C) UNASSIGNED_CATEGORY_ID); [contradiction|reflexivity]. }
  assert (Hc2 : category_of t2 = Some (c_id C)) by exact Hc1.
  assert (Ha1 : amount t1 = -25000) by exact Hamt.
  assert (Ha2 : amount t2 = -10000) by reflexivity.
  assert (Hstart : stored_currentAmount db (c_id C) = Some 0).
  { unfold stored_currentAmount. rewrite HC. simpl. now rewrite Hzero. }
  exists (after_create t1 db), (after_update t1 t2 (after_create t1 db)),
         (after_delete t2 (after_update t1 t2 (after_create t1 db))), t1, t2.
  assert (S1 : stored_currentAmount (after_create t1 db) (c_id C) = Some (-25000)).
  { rewrite sc_after_create, sc_category_step, Hc1, String.eqb_refl, Hstart, Ha1.
    reflexivity. }
  assert (S2 : stored_currentAmount (after_update t1 t2 (after_create t1 db)) (c_id C)
               = Some (-10000)).
  { rewrite sc_after_update, Ha1, Ha2. simpl (-25000 =? -10000).
    rewrite orb_true_r.
    rewrite !sc_category_step, Hc1, Hc2, String.eqb_refl, S1. reflexivity. }
  split; [now apply createTransaction_run|].
  split; [exact S1|].
  split.
  { apply updateTransaction_run. rewrite transactions_after_create.
    change uuid with (t_id t1). apply get_put_same. }
  split; [exact S2|].
  split.
  { apply deleteTransaction_run. rewrite transactions_after_update.
    change uuid with (t_id t2). apply get_put_same. }
  rewrite sc_after_delete, sc_category_step, Hc2, String.eqb_refl, S2, Ha2. reflexivity.
Qed.

Lemma C7_scenario_witness :
  exists db1 db2 db3 t1 t2,
    createTransaction "t1" sample_expense sample_db = (db1, Ok t1) /\
    stored_currentAmount db1 "c1" = Some (-25000) /\
    updateTransaction "t1" (mkTxUpdate None None (Some (-10000)) None None None) db1
      = (db2, Ok t2) /\
    stored_currentAmount db2 "c1" = Some (-10000) /\
    deleteTransaction "t1" db2 = (db3, Ok tt) /\
    stored_currentAmount db3 "c1" = Some 0.
Proof.
  apply (C7_scenario sample_db "t1" sample_expense (mkCategory "c1" "Food" 500000 0 false));
    try reflexivity.
  - discriminate.
  - now left.
Defined.

(** ** C5: references to absent entities *)

Lemma transferBetweenAccounts_absent db transferId fromUuid toUuid data :
  get a_id (fromAccountId data) (accounts db) = None \/
  get a_id (toAccountId data) (accounts db) = None ->
  exists message,
    transferBetweenAccounts transferId fromUuid toUuid data db = (db, Throw message) /\
    (message = "Source account not found" \/ message = "Destination account not found").
Proof.
  intros H. unfold transferBetweenAccounts, bind, promise_all2, getAccount, getData.
  simpl.
  destruct (get a_id (fromAccountId data) (accounts db)) as [fa|].
  - destruct (get a_id (toAccountId data) (accounts db)) as [ta|].
    + destruct H; discriminate.
    + eexists. split; [reflexivity | now right].
  - destruct (get a_id (toAccountId data) (accounts db));
      (eexists; split; [reflexivity | now left]).
Qed.

Lemma createTransfer_absent db uuid txUuid input :
  (ti_fromCategoryId input <> UNASSIGNED_CATEGORY_ID /\
   get c_id (ti_fromCategoryId input) (categories db) = None) \/
  (ti_toCategoryId input <> UNASSIGNED_CATEGORY_ID /\
   get c_id (ti_toCategoryId input) (categories db) = None) ->
  exists message,
    createTransfer uuid txUuid input db = (db, Throw message) /\
    (message = "Source category not found" \/ message = "Destination category not found").
Proof.
  intros H. unfold createTransfer. unfold bind at 1.
  destruct (String.eqb_spec (ti_fromCategoryId input) UNASSIGNED_CATEGORY_ID) as [Hf|Hf].
  - destruct H as [[H _]|[_ H]]; [contradiction|].
    unfold bind at 1. unfold getCategory, getData. simpl. rewrite H.
    eexists. split; [reflexivity | now right].
  - destruct (String.eqb_spec (ti_toCategoryId input) UNASSIGNED_CATEGORY_ID) as [Ht|Ht].
    + destruct H as [[_ H]|[H _]]; [|contradiction].
      unfold bind at 1. unfold getCategory, getData. simpl. rewrite H.
      eexists. split; [reflexivity | now left].
    + unfold bind at 1. unfold promise_all2, getCategory, getData. simpl.
      destruct (get c_id (ti_fromCategoryId input) (categories db)) as [fc|].
      * destruct (get c_id (ti_toCategoryId input) (categories db)) as [tc|].
        -- destruct H as [[_ H]|[_ H]]; discriminate.
        -- eexists. split; [reflexivity | now right].
      * destruct (get c_id (ti_toCategoryId input) (categories db));
          (eexists; split; [reflexivity | now left]).
Qed.

Lemma createTransaction_absent_category db uuid input cid :
  i_categoryId input = Some cid ->
  get c_id cid (categories db) = None ->
  get t_id uuid (transactions db) = None ->
  exists db',
    createTransaction uuid input db = (db', Ok (transaction_of uuid input)) /\
    categories db' = categories db /\
    get t_id uuid (transactions db') = Some (transaction_of uuid input).
Proof.
  intros Hcat Habs Hfresh. set (t := transaction_of uuid input).
  exists (after_create t db). split; [now apply createTransaction_run|].
  split.
  - assert (Hstep : category_step t (fun cur => cur + amount t) db = db).
    { unfold category_step, category_of, map_category_amount. subst t. simpl.
      rewrite Hcat.
      destruct (truthy cid && negb (String.eqb cid UNASSIGNED_CATEGORY_ID)
                && negb (includes (i_tags input) "transfer")); [|reflexivity].
      now rewrite Habs. }
    unfold after_create. cbv zeta. rewrite Hstep.
    destruct (account_applies t); [|reflexivity].
    unfold map_account_balance. destruct (get a_id (accountId t) (accounts db)); reflexivity.
  - rewrite transactions_after_create. change uuid with (t_id t). apply get_put_same.
Qed.

(** C5 (amended). [transferBetweenAccounts] naming an absent source or
    destination account, and [createTransfer] naming an absent real category,
    throw a not-found error and return the database as it was, write log
    included. [createTransaction] naming an absent category does not throw:
    it leaves the categories as they are and still stores the transaction. *)
Theorem C5_absent_references :
  forall db transferId fromUuid toUuid data uuid txUuid transfer input cid,
    (get a_id (fromAccountId data) (accounts db) = None \/
     get a_id (toAccountId data) (accounts db) = None ->
     exists message,
       transferBetweenAccounts transferId fromUuid toUuid data db = (db, Throw message) /\
       (message = "Source account not found" \/
        message = "Destination account not found")) /\
    ((ti_fromCategoryId transfer <> UNASSIGNED_CATEGORY_ID /\
      get c_id (ti_fromCategoryId transfer) (categories db) = None) \/
     (ti_toCategoryId transfer <> UNASSIGNED_CATEGORY_ID /\
      get c_id (ti_toCategoryId transfer) (categories db) = None) ->
     exists message,
       createTransfer uuid txUuid transfer db = (db, Throw message) /\
       (message = "Source category not found" \/
        message = "Destination category not found")) /\
    (i_categoryId input = Some cid ->
     get c_id cid (categories db) = None ->
     get t_id uuid (transactions db) = None ->
     exists db',
       createTransaction uuid input db = (db', Ok (transaction_of uuid input)) /\
       categories db' = categories db /\
       get t_id uuid (transactions db') = Some (transaction_of uuid input)).
Proof.
  intros. split; [apply transferBetweenAccounts_absent|].
  split; [apply createTransfer_absent | apply createTransaction_absent_category].
Qed.

Lemma C5_absent_references_witness :
  (exists message,
     transferBetweenAccounts "x" "t1" "t2" (mkAccountTransfer "a1" "a9" 5 None) sample_db
       = (sample_db, Throw message) /\
     (message = "Source account not found" \/
      message = "Destination account not found")) /\
  (exists message,
     createTransfer "f1" "t1" (mkTransferInput "unassigned" "ghost" 5 None) sample_db
       = (sample_db, Throw message) /\
     (message = "Source category not found" \/
      message = "Destination category not found")) /\
  (exists db',
     createTransaction "f1" sample_orphan_input sample_db
       = (db', Ok (transaction_of "f1" sample_orphan_input)) /\
     categories db' = categories sample_db /\
     get t_id "f1" (transactions db') = Some (transaction_of "f1" sample_orphan_input)).
Proof.
  destruct (C5_absent_references sample_db "x" "t1" "t2"
              (mkAccountTransfer "a1" "a9" 5 None) "f1" "t1"
              (mkTransferInput "unassigned" "ghost" 5 None)
              sample_orphan_input "ghost") as [H1 [H2 H3]].
  split; [apply H1; right; reflexivity|].
  split; [apply H2; right; split; [discriminate | reflexivity]|].
  apply H3; reflexivity.
Defined.

(** C5 as stated fails for [createTransaction]: with a category id that is
    not stored the call succeeds and writes to the account and transaction
    stores. *)
Lemma C5_counterexample :
  i_categoryId sample_orphan_input = Some "ghost" /\
  get c_id "ghost" (categories sample_db) = None /\
  snd (createTransaction "t1" sample_orphan_input sample_db)
    = Ok (transaction_of "t1" sample_orphan_input) /\
  writes sample_db = [] /\
  writes (fst (createTransaction "t1" sample_orphan_input sample_db))
    = [W_put "accounts" "a1"; W_add "transactions" "t1"].
Proof. vm_compute. repeat split; reflexivity. Qed.

Lemma C3_insufficient_funds_rejected_witness :
  transferBetweenAccounts "x" "t1" "t2" (mkAccountTransfer "a2" "a1" 1 None) sample_db
    = (sample_db, Throw "Insufficient funds in source account").
Proof.
  apply (C3_insufficient_funds_rejected sample_db "x" "t1" "t2"
           (mkAccountTransfer "a2" "a1" 1 None)
           (mkAccount "a2" "b1" "Savings" 0 true false 1)
           (mkAccount "a1" "b1" "Checking" 100000 true false 0));
    [reflexivity | reflexivity | simpl; lia].
Defined.

(** ** C6: rollback of an account transfer *)

Lemma updateAccountBalance_map db aid n :
  stored_balance db aid <> None ->
  updateAccountBalance aid n db = (map_account_balance aid (fun _ => n) db, Ok tt).
Proof.
  unfold stored_balance, map_account_balance. intros H.
  destruct (get a_id aid (accounts db)) as [a|] eqn:E; [|now elim H].
  now rewrite (updateAccountBalance_run _ _ _ _ E).
Qed.

Lemma stored_balance_map_exists aid f db k :
  stored_balance db k <> None ->
  stored_balance (map_account_balance aid f db) k <> None.
Proof.
  intros H. rewrite sb_map_account.
  destruct (String.eqb k aid); [|assumption].
  destruct (stored_balance db k); [discriminate | assumption].
Qed.

Lemma applyTransferBalances_run db data fromAccount toAccount :
  get a_id (fromAccountId data) (accounts db) = Some fromAccount ->
  get a_id (toAccountId data) (accounts db) = Some toAccount ->
  applyTransferBalances data fromAccount toAccount db =
    (map_account_balance (toAccountId data) (fun _ => balance toAccount + at_amount data)
       (map_account_balance (fromAccountId data)
          (fun _ => balance fromAccount - at_amount data) db),
     Ok (tt, tt)).
Proof.
  intros Hf Ht. unfold applyTransferBalances, promise_all2.
  rewrite updateAccountBalance_map
    by (unfold stored_balance; rewrite Hf; discriminate).
  rewrite updateAccountBalance_map; [reflexivity|].
  apply stored_balance_map_exists. unfold stored_balance. rewrite Ht. discriminate.
Qed.

(** A leg of an account transfer never touches the account store, whether
    adding it succeeds or not. *)
Lemma createTransaction_leg_accounts db uuid input :
  i_categoryId input = None ->
  includes (i_tags input) "account-transfer" = true ->
  accounts (fst (createTransaction uuid input db)) = accounts db.
Proof.
  intros Hcat Htag. set (t := transaction_of uuid input).
  assert (Hb : balances_after_create t db = db).
  { unfold balances_after_create, category_step, category_of, account_applies.
    subst t. simpl. rewrite Hcat, Htag. simpl. now rewrite andb_false_r. }
  destruct (get t_id uuid (transactions db)) as [x|] eqn:E.
  - destruct (createTransaction_duplicate db uuid input x E) as [m Hm].
    rewrite Hm. cbn [fst]. fold t. now rewrite Hb.
  - rewrite (createTransaction_run db uuid input E). cbn [fst]. fold t.
    unfold after_create. cbv zeta. fold (balances_after_create t db). now rewrite Hb.
Qed.

Lemma createTransferTransactions_accounts db transferId fromUuid toUuid data fa ta :
  accounts (fst (createTransferTransactions transferId fromUuid toUuid data fa ta db))
    = accounts db.
Proof.
  unfold createTransferTransactions. cbv zeta.
  set (d := description_or _ _).
  set (i1 := mkTxInput (fromAccountId data) None (- at_amount data) _ EXPENSE _).
  set (i2 := mkTxInput (toAccountId data) None (at_amount data) _ INCOME _).
  pose proof (createTransaction_leg_accounts db fromUuid i1 eq_refl eq_refl) as H1.
  unfold bind at 1.
  destruct (createTransaction fromUuid i1 db) as [db1 [t1|e1]]; simpl in H1;
    [|exact H1].
  pose proof (createTransaction_leg_accounts db1 toUuid i2 eq_refl eq_refl) as H2.
  unfold bind at 1.
  destruct (createTransaction toUuid i2 db1) as [db2 [t2|e2]]; simpl in H2;
    simpl; congruence.
Qed.

(** C6. Both accounts exist and the source covers the amount, so the two
    balances are written. If creating the pair of linked transactions then
    throws, [transferBetweenAccounts] throws in turn (its message wraps the
    original one) and both accounts hold their pre-transfer balances again. *)
Theorem C6_rollback_on_failed_creation :
  forall db transferId fromUuid toUuid data fromAccount toAccount db2 message,
    get a_id (fromAccountId data) (accounts db) = Some fromAccount ->
    get a_id (toAccountId data) (accounts db) = Some toAccount ->
    at_amount data <= balance fromAccount ->
    createTransferTransactions transferId fromUuid toUuid data fromAccount toAccount
      (fst (applyTransferBalances data fromAccount toAccount db))
      = (db2, Throw message) ->
    exists db',
      transferBetweenAccounts transferId fromUuid toUuid data db
        = (db', Throw ("Failed to create transfer transactions: " ++ message)) /\
      stored_balance db' (fromAccountId data) = Some (balance fromAccount) /\
      stored_balance db' (toAccountId data) = Some (balance toAccount).
Proof.
  intros db transferId fromUuid toUuid data fa ta db2 message Hf Ht Hle Hfail.
  rewrite (applyTransferBalances_run db data fa ta Hf Ht) in Hfail. simpl fst in Hfail.
  set (db1 := map_account_balance (toAccountId data) _ _) in Hfail.
  pose proof (createTransferTransactions_accounts db1 transferId fromUuid toUuid data fa ta)
    as Hacc.
  rewrite Hfail in Hacc. simpl in Hacc.
  assert (Hsb : forall k, stored_balance db2 k = stored_balance db1 k)
    by (intros k; unfold stored_balance; now rewrite Hacc).
  assert (Hef : stored_balance db1 (fromAccountId data) <> None).
  { subst db1. do 2 apply stored_balance_map_exists.
    unfold stored_balance. rewrite Hf. discriminate. }
  assert (Het : stored_balance db1 (toAccountId data) <> None).
  { subst db1. do 2 apply stored_balance_map_exists.
    unfold stored_balance. rewrite Ht. discriminate. }
  rewrite <- Hsb in Hef, Het.
  exists (map_account_balance (toAccountId data) (fun _ => balance ta)
            (map_account_balance (fromAccountId data) (fun _ => balance fa) db2)).
  split.
  - unfold transferBetweenAccounts. unfold bind at 1.
    unfold promise_all2 at 1. unfold getAccount, getData. simpl.
    rewrite Hf, Ht.
    destruct (Z.ltb_spec (balance fa) (at_amount data)) as [Hlt|_]; [lia|].
    unfold bind at 1.
    rewrite (applyTransferBalances_run db data fa ta Hf Ht).
    fold db1. unfold try_catch. rewrite Hfail.
    unfold bind at 1. unfold promise_all2.
    rewrite (updateAccountBalance_map db2 _ _ Hef).
    rewrite updateAccountBalance_map by now apply stored_balance_map_exists.
    reflexivity.
  - assert (Hto : stored_balance
                    (map_account_balance (toAccountId data) (fun _ => balance ta)
                       (map_account_balance (fromAccountId data) (fun _ => balance fa) db2))
                    (toAccountId data) = Some (balance ta)).
    { rewrite sb_map_account, String.eqb_refl.
      destruct (stored_balance (map_account_balance (fromAccountId data)
                                  (fun _ => balance fa) db2) (toAccountId data)) eqn:E.
      - reflexivity.
      - exfalso. revert E. now apply stored_balance_map_exists. }
    split; [|exact Hto].
    destruct (String.eqb_spec (fromAccountId data) (toAccountId data)) as [e|ne].
    + rewrite e in *. rewrite Hto. congruence.
    + rewrite sb_map_account.
      destruct (String.eqb_spec (fromAccountId data) (toAccountId data)); [contradiction|].
      rewrite sb_map_account, String.eqb_refl.
      destruct (stored_balance db2 (fromAccountId data)); [reflexivity | now elim Hef].
Qed.

Lemma C6_rollback_on_failed_creation_witness :
  exists db',
    transferBetweenAccounts "x" "t1" "t2" sample_account_transfer sample_db_taken_id
      = (db', Throw ("Failed to create transfer transactions: "
                     ++ "Failed to add data to transactions: Key already exists in the object store.")) /\
    stored_balance db' "a1" = Some 100000 /\
    stored_balance db' "a2" = Some 0.
Proof.
  eapply (C6_rollback_on_failed_creation sample_db_taken_id "x" "t1" "t2"
            sample_account_transfer
            (mkAccount "a1" "b1" "Checking" 100000 true false 0)
            (mkAccount "a2" "b1" "Savings" 0 true false 1)).
  - reflexivity.
  - reflexivity.
  - simpl. lia.
  - vm_compute. reflexivity.
Defined.

(** ** Running a category transfer through the unassigned pool *)




(** ** The same over number arithmetic *)

(** A transaction tagged "transfer" changes no balance when it is created:
    no sum is formed. *)
Lemma double_createTransaction_tagged db uuid input :
  get t_id uuid (transactions db) = None ->
  includes (i_tags input) "transfer" = true ->
  Double.createTransaction uuid input db =
    (persist_transaction (transaction_of uuid input) db, Ok (transaction_of uuid input)).
Proof.
  intros Hfresh Htag.
  assert (Hc : category_of (transaction_of uuid input) = None)
    by now apply category_of_tagged.
  assert (Ha : account_applies (transaction_of uuid input) = false).
  { unfold account_applies. cbn [tags transaction_of]. rewrite Htag.
    now rewrite andb_false_r. }
  pose proof (double_createTransaction_run db uuid input) as R. cbv zeta in R.
  rewrite R; [| assumption | |].
  - unfold after_create, category_step. now rewrite Hc, Ha.
  - intros cid c H. rewrite Hc in H. discriminate.
  - intros a H. rewrite Ha in H. discriminate.
Qed.

Lemma double_createTransfer_in_run db uuid txUuid input C :
  ti_fromCategoryId input = UNASSIGNED_CATEGORY_ID ->
  get c_id (ti_toCategoryId input) (categories db) = Some C ->
  get t_id txUuid (transactions db) = None ->
  get tr_id uuid (transfers db) = None ->
  isSafeInteger (currentAmount C + ti_amount input) = true ->
  Double.createTransfer uuid txUuid input db =
    (after_transfer_in uuid txUuid input C db, Ok (transfer_of uuid input)).
Proof.
  intros Hfrom HC Htx Htr Hsafe.
  pose proof (get_Some_key _ _ _ _ _ HC) as Hkey.
  unfold Double.createTransfer. fold (transfer_of uuid input).
  unfold bind at 1. rewrite Hfrom. rewrite String.eqb_refl.
  unfold bind at 1. unfold getCategory at 1, getData.
  cbn [s_read s_key CATEGORIES]. cbv beta iota. rewrite HC. cbv beta iota.
  unfold bind at 1.
  rewrite double_createTransaction_tagged by (assumption || reflexivity).
  change (transaction_of txUuid _)
    with (synthesized_transaction txUuid (- ti_amount input) (ti_description input) EXPENSE).
  unfold bind at 1.
  rewrite (updateCategory_run _ _ C) by exact HC.
  rewrite (number_add_safe _ _ Hsafe).
  cbv beta iota. unfold ret at 1.
  unfold bind at 1. unfold addData. cbn [s_read s_key TRANSFERS].
  cbn [transfers log s_write persist_transaction TRANSACTIONS CATEGORIES].
  cbn [tr_id transfer_of]. rewrite Htr.
  reflexivity.
Qed.

Lemma double_createTransfer_out_run db uuid txUuid input C :
  ti_fromCategoryId input <> UNASSIGNED_CATEGORY_ID ->
  ti_toCategoryId input = UNASSIGNED_CATEGORY_ID ->
  get c_id (ti_fromCategoryId input) (categories db) = Some C ->
  get t_id txUuid (transactions db) = None ->
  get tr_id uuid (transfers db) = None ->
  isSafeInteger (currentAmount C - ti_amount input) = true ->
  Double.createTransfer uuid txUuid input db =
    (after_transfer_out uuid txUuid input C db, Ok (transfer_of uuid input)).
Proof.
  intros Hfrom Hto HC Htx Htr Hsafe.
  pose proof (get_Some_key _ _ _ _ _ HC) as Hkey.
  unfold Double.createTransfer. fold (transfer_of uuid input).
  unfold bind at 1.
  destruct (String.eqb_spec (ti_fromCategoryId input) UNASSIGNED_CATEGORY_ID) as [e|_];
    [contradiction|].
  rewrite Hto. rewrite String.eqb_refl.
  unfold bind at 1. unfold getCategory at 1, getData.
  cbn [s_read s_key CATEGORIES]. cbv beta iota. rewrite HC. cbv beta iota.
  unfold bind at 1.
  rewrite double_createTransaction_tagged by (assumption || reflexivity).
  change (transaction_of txUuid _)
    with (synthesized_transaction txUuid (ti_amount input) (ti_description input) INCOME).
  unfold when, negb. unfold bind at 1. unfold getCategory at 1, getData.
  cbn [s_read s_key CATEGORIES categories persist_transaction log s_write TRANSACTIONS].
  cbv beta iota. rewrite HC. cbv beta iota.
  unfold bind at 1.
  rewrite (updateCategory_run _ _ C) by exact HC.
  rewrite (number_sub_safe _ _ Hsafe).
  cbv beta iota. unfold ret at 1.
  unfold bind at 1. unfold addData. cbn [s_read s_key TRANSFERS].
  cbn [transfers log s_write persist_transaction TRANSACTIONS CATEGORIES].
  cbn [tr_id transfer_of]. rewrite Htr.
  reflexivity.
Qed.

(** ** C10: deleting a transfer out of the unassigned pool *)

Lemma category_of_tagged_transfer t :
  includes (tags t) "transfer" = true -> category_of t = None.
Proof.
  intros H. unfold category_of. rewrite H.
  destruct (categoryId t); [|reflexivity].
  now rewrite andb_false_r.
Qed.

Lemma categories_map_account_balance aid f db :
  categories (map_account_balance aid f db) = categories db.
Proof.
  unfold map_account_balance. destruct (get a_id aid (accounts db)); reflexivity.
Qed.

Lemma categories_after_delete_tagged t db :
  includes (tags t) "transfer" = true ->
  categories (after_delete t db) = categories db.
Proof.
  intros H. unfold after_delete, category_step. cbv zeta.
  rewrite (category_of_tagged_transfer t H).
  cbn [categories log s_write TRANSACTIONS].
  destruct (account_reverses t); [apply categories_map_account_balance | reflexivity].
Qed.





(** ** C9: a transfer into a category and back *)

Lemma merge_category_back C a :
  merge_category
    (merge_category C (set_currentAmount (currentAmount C + a)))
    (set_currentAmount
       (currentAmount (merge_category C (set_currentAmount (currentAmount C + a))) - a))
  = C.
Proof. destruct C. unfold merge_category. simpl. f_equal. lia. Qed.

Lemma double_getUnassignedBalance_returns db :
  exists v, Double.getUnassignedBalance db = (db, Ok v).
Proof.
  unfold Double.getUnassignedBalance, bind, promise_all2, try_catch, getAllTransactions,
    getAllCategories, getAllBudgets, getAllData, getAccounts, ret.
  cbn [s_read TRANSACTIONS CATEGORIES BUDGETS].
  destruct (budgets db); eexists; reflexivity.
Qed.

(** The result of [getUnassignedBalance] is a function of the budgets, the
    accounts, the categories and the transactions it counts, in the order
    the stores hold them. *)
Lemma double_getUnassignedBalance_congr db db' :
  budgets db' = budgets db ->
  accounts db' = accounts db ->
  categories db' = categories db ->
  filter counts_as_unassigned (transactions db')
    = filter counts_as_unassigned (transactions db) ->
  snd (Double.getUnassignedBalance db') = snd (Double.getUnassignedBalance db).
Proof.
  intros Hb Ha Hc Ht.
  unfold Double.getUnassignedBalance, bind, promise_all2, try_catch, getAllTransactions,
    getAllCategories, getAllBudgets, getAllData, getAccounts, ret.
  cbn [s_read TRANSACTIONS CATEGORIES BUDGETS].
  fold counts_as_unassigned.
  change (fun t : Transaction =>
            negb (truthy_opt (categoryId t))
            && negb (includes (tags t) "transfer")
            && negb (includes (tags t) "account-transfer"))
    with counts_as_unassigned.
  rewrite Hb, Hc, Ht.
  destruct (budgets db); cbn [snd]; rewrite ?Ha; reflexivity.
Qed.

(** C9 (amended). C is a stored category (its id is not the unassigned
    sentinel), the ids drawn are new, and C's [currentAmount] is a safe
    integer both before and with the amount [a] added. A transfer of [a]
    from the unassigned pool to C followed by a transfer of [a] from C to
    the pool both succeed, and afterwards [getUnassignedBalance] returns
    what it returned before and C is stored with the [currentAmount] it had
    before. *)
Theorem C9_transfer_in_and_back :
  forall db uuid1 tx1 uuid2 tx2 cid a d1 d2 C,
    well_formed db = true ->
    get c_id cid (categories db) = Some C ->
    cid <> UNASSIGNED_CATEGORY_ID ->
    get t_id tx1 (transactions db) = None ->
    get t_id tx2 (transactions db) = None ->
    tx1 <> tx2 ->
    get tr_id uuid1 (transfers db) = None ->
    get tr_id uuid2 (transfers db) = None ->
    uuid1 <> uuid2 ->
    isSafeInteger (currentAmount C) = true ->
    isSafeInteger (currentAmount C + a) = true ->
    exists db1 db2 tr1 tr2 unassigned,
      Double.createTransfer uuid1 tx1 (mkTransferInput UNASSIGNED_CATEGORY_ID cid a d1) db
        = (db1, Ok tr1) /\
      Double.createTransfer uuid2 tx2 (mkTransferInput cid UNASSIGNED_CATEGORY_ID a d2) db1
        = (db2, Ok tr2) /\
      Double.getUnassignedBalance db = (db, Ok unassigned) /\
      Double.getUnassignedBalance db2 = (db2, Ok unassigned) /\
      stored_currentAmount db2 cid = stored_currentAmount db cid.
Proof.
  intros db uuid1 tx1 uuid2 tx2 cid a d1 d2 C Hwf HC Hne Ht1 Ht2 Htx Hu1 Hu2 Huu
         Hsafe Hsafe'.
  pose proof (get_Some_key _ _ _ _ _ HC) as Hkey.
  assert (Hordc : ordered c_id (categories db) = true).
  { unfold well_formed in Hwf. repeat (apply andb_prop in Hwf; destruct Hwf as [Hwf ?]).
    assumption. }
  set (i1 := mkTransferInput UNASSIGNED_CATEGORY_ID cid a d1).
  set (i2 := mkTransferInput cid UNASSIGNED_CATEGORY_ID a d2).
  set (C1 := merge_category C (set_currentAmount (currentAmount C + a))).
  set (t1 := synthesized_transaction tx1 (- a) d1 EXPENSE).
  set (t2 := synthesized_transaction tx2 a d2 INCOME).
  set (db1 := after_transfer_in uuid1 tx1 i1 C db).
  set (db2 := after_transfer_out uuid2 tx2 i2 C1 db1).
  assert (Hcats1 : categories db1 = put c_id C1 (categories db)) by reflexivity.
  assert (Hcats2 : categories db2 = categories db).
  { change (categories db2)
      with (put c_id (merge_category C1 (set_currentAmount (currentAmount C1 - a)))
                (put c_id C1 (categories db))).
    unfold C1. rewrite merge_category_back.
    rewrite put_put by reflexivity.
    apply put_same; [assumption | now rewrite Hkey]. }
  assert (Htxs2 : transactions db2 = put t_id t2 (put t_id t1 (transactions db)))
    by reflexivity.
  assert (Ht2' : get t_id tx2 (put t_id t1 (transactions db)) = None).
  { rewrite get_put_other; [assumption|]. simpl. congruence. }
  exists db1, db2, (transfer_of uuid1 i1), (transfer_of uuid2 i2).
  destruct (double_getUnassignedBalance_returns db) as [v Hv].
  destruct (double_getUnassignedBalance_returns db2) as [v2 Hv2].
  exists v.
  split; [now apply double_createTransfer_in_run|].
  split.
  { apply double_createTransfer_out_run; try assumption; try reflexivity.
    - change (ti_fromCategoryId i2) with cid.
      rewrite Hcats1. rewrite <- Hkey. change (c_id C) with (c_id C1).
      apply get_put_same.
    - change (transfers db1) with (put tr_id (transfer_of uuid1 i1) (transfers db)).
      rewrite get_put_other; [assumption|]. simpl. congruence.
    - change (currentAmount C1 - ti_amount i2) with (currentAmount C + a - a).
      replace (currentAmount C + a - a) with (currentAmount C) by lia.
      exact Hsafe. }
  split; [exact Hv|].
  split.
  { assert (E : snd (Double.getUnassignedBalance db2) = snd (Double.getUnassignedBalance db)).
    { apply double_getUnassignedBalance_congr; try reflexivity; try assumption.
      rewrite Htxs2.
      rewrite filter_put_fresh; [|reflexivity|exact Ht2'].
      apply filter_put_fresh; [reflexivity | exact Ht1]. }
    rewrite Hv, Hv2 in E. simpl in E. now rewrite Hv2, E. }
  unfold stored_currentAmount. now rewrite Hcats2.
Qed.

Lemma C9_transfer_in_and_back_witness :
  exists db1 db2 tr1 tr2 unassigned,
    Double.createTransfer "f1" "t1" (mkTransferInput UNASSIGNED_CATEGORY_ID "c1" 7000 None)
      sample_db = (db1, Ok tr1) /\
    Double.createTransfer "f2" "t2"
      (mkTransferInput "c1" UNASSIGNED_CATEGORY_ID 7000 (Some "Back to the pool")) db1
      = (db2, Ok tr2) /\
    Double.getUnassignedBalance sample_db = (sample_db, Ok unassigned) /\
    Double.getUnassignedBalance db2 = (db2, Ok unassigned) /\
    stored_currentAmount db2 "c1" = stored_currentAmount sample_db "c1".
Proof.
  apply (C9_transfer_in_and_back sample_db "f1" "t1" "f2" "t2" "c1" 7000 None
           (Some "Back to the pool") (mkCategory "c1" "Food" 500000 0 false));
    try reflexivity; discriminate.
Defined.

(** C9 as stated fails for an amount beyond the safe integers: with Food at
    1, a transfer of [2 ^ 53] into Food stores [2 ^ 53] (the sum
    [2 ^ 53 + 1] is not a double), the transfer back stores 0, and the
    result of [getUnassignedBalance] has gone from 99999 to 100000. *)
Lemma C9_counterexample :
  let a := 9007199254740992 in
  let i1 := mkTransferInput UNASSIGNED_CATEGORY_ID "c1" a None in
  let i2 := mkTransferInput "c1" UNASSIGNED_CATEGORY_ID a None in
  let db := sample_db_food_at_one in
  let db1 := fst (Double.createTransfer "f1" "t1" i1 db) in
  let db2 := fst (Double.createTransfer "f2" "t2" i2 db1) in
  snd (Double.createTransfer "f1" "t1" i1 db) = Ok (transfer_of "f1" i1) /\
  snd (Double.createTransfer "f2" "t2" i2 db1) = Ok (transfer_of "f2" i2) /\
  stored_currentAmount db "c1" = Some 1 /\
  stored_currentAmount db1 "c1" = Some 9007199254740992 /\
  stored_currentAmount db2 "c1" = Some 0 /\
  snd (Double.getUnassignedBalance db) = Ok 99999 /\
  snd (Double.getUnassignedBalance db2) = Ok 100000 /\
  stored_currentAmount db2 "c1" <> stored_currentAmount db "c1".
Proof. vm_compute. repeat split; try reflexivity. discriminate. Qed.

(** ** A loop of conditional overwrites over records of a store *)

Section StoreOrder.
Variable V : Type.
Variable key : V -> string.

Lemma key_replace v y : key (replace key v y) = key y.
Proof.
  unfold replace. destruct (String.eqb_spec (key y) (key v)); congruence.
Qed.

Lemma ordered_NoDup l : ordered key l = true -> NoDup (map key l).
Proof.
  induction l as [|x r IH]; simpl; intros Ho; [constructor|].
  apply andb_prop in Ho. destruct Ho as [Hall Ho].
  constructor; [|now apply IH].
  intros Hin. apply in_map_iff in Hin. destruct Hin as [y [Hk Hy]].
  rewrite forallb_forall in Hall. apply Hall in Hy.
  apply klt_neq in Hy. congruence.
Qed.

Lemma ordered_unique l x y :
  ordered key l = true -> In x l -> In y l -> key x = key y -> x = y.
Proof.
  intros Ho Hx Hy Hk.
  pose proof (ordered_get_In V key l x Ho Hx) as E1.
  pose proof (ordered_get_In V key l y Ho Hy) as E2.
  rewrite Hk in E1. congruence.
Qed.

Lemma map_replace_same l x :
  ordered key l = true -> In x l -> map (replace key x) l = l.
Proof.
  intros Ho Hx. rewrite <- put_replace.
  - apply put_same; [assumption | now apply ordered_get_In].
  - assumption.
  - rewrite (ordered_get_In V key l x Ho Hx). discriminate.
Qed.

Lemma existsb_key_false k l :
  ~ In k (map key l) -> existsb (String.eqb k) (map key l) = false.
Proof.
  intros H. destruct (existsb (String.eqb k) (map key l)) eqn:E; [|reflexivity].
  apply existsb_exists in E. destruct E as [k' [Hin Hk]].
  apply String.eqb_eq in Hk. subst. contradiction.
Qed.

Lemma existsb_key_true x l :
  In x l -> existsb (String.eqb (key x)) (map key l) = true.
Proof.
  intros H. apply existsb_exists. exists (key x).
  split; [now apply in_map | apply String.eqb_refl].
Qed.
End StoreOrder.

Section Overwrite.
Variable V : Type.
Variable S : Store V.
Variable f : V -> V.
Variable differs : V -> bool.
Variable step : V -> M unit.

Hypothesis read_write : forall l db, s_read S (s_write S l db) = l.
Hypothesis read_log : forall w db, s_read S (log w db) = s_read S db.
Hypothesis writes_write : forall l db, writes (s_write S l db) = writes db.
Hypothesis key_f : forall x, s_key S (f x) = s_key S x.
Hypothesis same_f : forall x, differs x = false -> f x = x.
Hypothesis step_run :
  forall x db,
    get (s_key S) (s_key S x) (s_read S db) = Some x ->
    step x db = (overwrite_if S f differs x db, Ok tt).

Lemma read_overwrite_if x db :
  ordered (s_key S) (s_read S db) = true ->
  In x (s_read S db) ->
  s_read S (overwrite_if S f differs x db)
    = map (replace (s_key S) (f x)) (s_read S db).
Proof.
  intros Ho Hx. unfold overwrite_if.
  destruct (differs x) eqn:D.
  - rewrite read_log, read_write. apply put_replace; [assumption|].
    rewrite key_f, (ordered_get_In V (s_key S) _ x Ho Hx). discriminate.
  - rewrite (same_f x D). symmetry. now apply map_replace_same.
Qed.

Lemma writes_overwrite_all l db :
  writes (overwrite_all S f differs l db)
    = (writes db ++ map (fun x => W_put (s_name S) (s_key S x)) (filter differs l))%list.
Proof.
  unfold overwrite_all. revert db.
  induction l as [|x r IH]; intros db; simpl.
  - now rewrite app_nil_r.
  - rewrite IH. unfold overwrite_if.
    destruct (differs x); simpl; [|reflexivity].
    rewrite writes_write, <- app_assoc. reflexivity.
Qed.

Lemma for_of_overwrite l :
  forall db,
    ordered (s_key S) (s_read S db) = true ->
    NoDup (map (s_key S) l) ->
    (forall x, In x l -> In x (s_read S db)) ->
    for_of l step db = (overwrite_all S f differs l db, Ok tt) /\
    s_read S (overwrite_all S f differs l db)
      = map (on_keys (s_key S) f l) (s_read S db).
Proof.
  induction l as [|x r IH]; intros db Ho Hnd Hin.
  - split; [reflexivity|]. simpl. symmetry. rewrite <- (map_id (s_read S db)) at 2.
    apply map_ext. intros y. reflexivity.
  - assert (Hx : In x (s_read S db)) by (apply Hin; now left).
    inversion Hnd as [|? ? Hnotin Hnd']; subst.
    pose proof (read_overwrite_if x db Ho Hx) as Hread.
    assert (Ho1 : ordered (s_key S) (s_read S (overwrite_if S f differs x db)) = true).
    { rewrite Hread. apply ordered_map; [apply key_replace | assumption]. }
    assert (Hin1 : forall y, In y r -> In y (s_read S (overwrite_if S f differs x db))).
    { intros y Hy. rewrite Hread. apply in_map_iff. exists y.
      split; [|apply Hin; now right].
      unfold replace. rewrite key_f.
      destruct (String.eqb_spec (s_key S y) (s_key S x)) as [e|]; [|reflexivity].
      exfalso. apply Hnotin. rewrite <- e. now apply in_map. }
    destruct (IH (overwrite_if S f differs x db) Ho1 Hnd' Hin1) as [Hrun Hmap].
    split.
    + simpl. unfold bind.
      rewrite (step_run x db) by now apply ordered_get_In.
      exact Hrun.
    + change (overwrite_all S f differs (x :: r) db)
        with (overwrite_all S f differs r (overwrite_if S f differs x db)).
      rewrite Hmap, Hread, map_map. apply map_ext_in.
      intros y Hy. unfold on_keys, replace. rewrite key_f. simpl.
      destruct (String.eqb_spec (s_key S y) (s_key S x)) as [e|ne].
      * assert (y = x) by exact (ordered_unique V (s_key S) _ y x Ho Hy Hx e). subst y.
        rewrite key_f, (existsb_key_false V (s_key S) _ r Hnotin). reflexivity.
      * reflexivity.
Qed.
End Overwrite.

(** ** C1: reconciliation of the category balances *)

Lemma fold_left_sum {A} (f : A -> Z) (l : list A) (a : Z) :
  fold_left (fun sum t => sum + f t) l a = a + sum_of f l.
Proof.
  revert a. induction l as [|x r IH]; intros a; simpl; [lia|].
  rewrite IH. lia.
Qed.

Lemma reduce_sum_sum_of {A} (f : A -> Z) (l : list A) : reduce_sum f l = sum_of f l.
Proof. unfold reduce_sum. now rewrite fold_left_sum. Qed.

Lemma computed_category_balance db cid :
  0 + reduce_sum tr_amount
        (filter (fun t => String.eqb (toCategoryId t) cid) (transfers db))
    - reduce_sum tr_amount
        (filter (fun t => String.eqb (fromCategoryId t) cid) (transfers db))
    + reduce_sum amount
        (filter (fun t => opt_eqb (categoryId t) (Some cid)
                          && negb (includes (tags t) "transfer")
                          && negb (includes (tags t) "account-transfer"))
                (transactions db))
  = category_ledger_balance db cid.
Proof.
  unfold category_ledger_balance. rewrite !reduce_sum_sum_of.
  rewrite (filter_ext
             (fun t => opt_eqb (categoryId t) (Some cid)
                       && negb (includes (tags t) "transfer")
                       && negb (includes (tags t) "account-transfer"))
             (fun t => opt_eqb (categoryId t) (Some cid)
                       && negb (includes (tags t) "transfer"
                                || includes (tags t) "account-transfer"))).
  - lia.
  - intros t. now rewrite negb_orb, andb_assoc.
Qed.

Lemma overwrite_all_categories_frame f differs l db :
  budgets (overwrite_all CATEGORIES f differs l db) = budgets db /\
  accounts (overwrite_all CATEGORIES f differs l db) = accounts db /\
  transactions (overwrite_all CATEGORIES f differs l db) = transactions db /\
  transfers (overwrite_all CATEGORIES f differs l db) = transfers db.
Proof.
  unfold overwrite_all. revert db.
  induction l as [|x r IH]; intros db; simpl; [auto|].
  destruct (IH (overwrite_if CATEGORIES f differs x db)) as [H1 [H2 [H3 H4]]].
  rewrite H1, H2, H3, H4. unfold overwrite_if.
  destruct (differs x); auto.
Qed.

Lemma well_formed_parts db :
  well_formed db = true ->
  ordered b_id (budgets db) = true /\ ordered a_id (accounts db) = true /\
  ordered c_id (categories db) = true /\ ordered t_id (transactions db) = true /\
  ordered tr_id (transfers db) = true.
Proof.
  unfold well_formed. intros H.
  repeat (apply andb_prop in H; destruct H as [H ?]). auto.
Qed.



Example recalculateCategoryBalances_drift :
  stored_currentAmount (fst (recalculateCategoryBalances sample_db_drift)) "c1" = Some 4500 /\
  stored_currentAmount (fst (recalculateCategoryBalances sample_db_drift)) "c2" = Some 0 /\
  writes (fst (recalculateCategoryBalances sample_db_drift)) = [W_put "categories" "c1"].
Proof. vm_compute. repeat split; reflexivity. Qed.

(** ** C8: reconciliation of the account balances *)

Lemma insert_by_sortOrder_perm a l : Permutation (insert_by_sortOrder a l) (a :: l).
Proof.
  induction l as [|b r IH]; simpl; [reflexivity|].
  destruct (sortOrder a <=? sortOrder b); [reflexivity|].
  rewrite IH. apply perm_swap.
Qed.

Lemma sort_by_sortOrder_perm l : Permutation (sort_by_sortOrder l) l.
Proof.
  unfold sort_by_sortOrder. induction l as [|a r IH]; simpl; [reflexivity|].
  rewrite insert_by_sortOrder_perm. now constructor.
Qed.

Lemma NoDup_map_filter {A B} (g : A -> B) (p : A -> bool) l :
  NoDup (map g l) -> NoDup (map g (filter p l)).
Proof.
  induction l as [|x r IH]; simpl; intros H; [constructor|].
  inversion H as [|? ? Hn Hr]; subst.
  destruct (p x); simpl; [|now apply IH].
  constructor; [|now apply IH].
  intros Hin. apply Hn. apply in_map_iff in Hin. destruct Hin as [y [Hy Hin]].
  apply filter_In in Hin. rewrite <- Hy. apply in_map. tauto.
Qed.

Lemma accounts_of_budget_In bid db a :
  In a (accounts_of_budget bid db) <-> In a (accounts db) /\ budgetId a = bid.
Proof.
  unfold accounts_of_budget. split.
  - intros H. apply (Permutation_in _ (sort_by_sortOrder_perm _)) in H.
    apply filter_In in H. destruct H as [H E]. apply String.eqb_eq in E. tauto.
  - intros [H E]. apply (Permutation_in _ (Permutation_sym (sort_by_sortOrder_perm _))).
    apply filter_In. split; [assumption | now apply String.eqb_eq].
Qed.

Lemma accounts_of_budget_NoDup bid db :
  ordered a_id (accounts db) = true -> NoDup (map a_id (accounts_of_budget bid db)).
Proof.
  intros Ho. unfold accounts_of_budget.
  eapply Permutation_NoDup.
  - apply Permutation_map. apply Permutation_sym, sort_by_sortOrder_perm.
  - apply NoDup_map_filter. now apply ordered_NoDup.
Qed.

Lemma on_keys_accounts_of_budget f bid db y :
  ordered a_id (accounts db) = true ->
  In y (accounts db) ->
  on_keys a_id f (accounts_of_budget bid db) y
    = if String.eqb (budgetId y) bid then f y else y.
Proof.
  intros Ho Hy. unfold on_keys.
  destruct (String.eqb_spec (budgetId y) bid) as [e|ne].
  - rewrite existsb_key_true; [reflexivity|].
    apply accounts_of_budget_In. tauto.
  - destruct (existsb (String.eqb (a_id y)) (map a_id (accounts_of_budget bid db))) eqn:E;
      [|reflexivity].
    exfalso. apply existsb_exists in E. destruct E as [k [Hk Hyk]].
    apply String.eqb_eq in Hyk. subst k.
    apply in_map_iff in Hk. destruct Hk as [z [Hz Hin]].
    apply accounts_of_budget_In in Hin. destruct Hin as [Hin Hb].
    assert (z = y) by exact (ordered_unique _ a_id _ z y Ho Hin Hy Hz).
    subst z. contradiction.
Qed.

Lemma computed_account_balance db aid :
  reduce_sum amount
    (filter (fun t => String.eqb (accountId t) aid
                      && negb (includes (tags t) "transfer")) (transactions db))
  = account_ledger_balance db aid.
Proof. unfold account_ledger_balance. apply reduce_sum_sum_of. Qed.

Lemma overwrite_all_accounts_frame f differs l db :
  budgets (overwrite_all ACCOUNTS f differs l db) = budgets db /\
  categories (overwrite_all ACCOUNTS f differs l db) = categories db /\
  transactions (overwrite_all ACCOUNTS f differs l db) = transactions db /\
  transfers (overwrite_all ACCOUNTS f differs l db) = transfers db.
Proof.
  unfold overwrite_all. revert db.
  induction l as [|x r IH]; intros db; simpl; [auto|].
  destruct (IH (overwrite_if ACCOUNTS f differs x db)) as [H1 [H2 [H3 H4]]].
  rewrite H1, H2, H3, H4. unfold overwrite_if.
  destruct (differs x); auto.
Qed.

Lemma filter_budget_map (g : Account -> Account) bid l :
  (forall y, budgetId (g y) = budgetId y) ->
  (forall y, In y l -> budgetId y = bid -> g y = y) ->
  filter (fun a => String.eqb (budgetId a) bid) (map g l)
    = filter (fun a => String.eqb (budgetId a) bid) l.
Proof.
  intros Hb Hg. induction l as [|x r IH]; simpl; [reflexivity|].
  rewrite Hb.
  destruct (String.eqb_spec (budgetId x) bid) as [e|ne].
  - rewrite (Hg x (or_introl eq_refl) e). f_equal.
    apply IH. intros y Hy. apply Hg. now right.
  - apply IH. intros y Hy. apply Hg. now right.
Qed.

Lemma flat_map_ext_in {A B} (g h : A -> list B) l :
  (forall x, In x l -> g x = h x) -> flat_map g l = flat_map h l.
Proof.
  induction l as [|x r IH]; simpl; intros H; [reflexivity|].
  rewrite (H x (or_introl eq_refl)). f_equal. apply IH. intros y Hy. apply H. now right.
Qed.

Section AccountReconciliation.
Variable f : Account -> Account.
Variable differs : Account -> bool.
Variable step : Account -> M unit.

Hypothesis key_f : forall x, a_id (f x) = a_id x.
Hypothesis budget_f : forall x, budgetId (f x) = budgetId x.
Hypothesis same_f : forall x, differs x = false -> f x = x.
Hypothesis step_run :
  forall x db,
    get a_id (a_id x) (accounts db) = Some x ->
    step x db = (overwrite_if ACCOUNTS f differs x db, Ok tt).

Lemma for_of_budget bid db :
  ordered a_id (accounts db) = true ->
  (accounts <- getAccounts bid ;; for_of accounts step) db
    = (overwrite_all ACCOUNTS f differs (accounts_of_budget bid db) db, Ok tt) /\
  accounts (overwrite_all ACCOUNTS f differs (accounts_of_budget bid db) db)
    = map (fun y => if String.eqb (budgetId y) bid then f y else y) (accounts db).
Proof.
  intros Ho.
  destruct (for_of_overwrite Account ACCOUNTS f differs step
              (fun _ _ => eq_refl) (fun _ _ => eq_refl) key_f same_f step_run
              (accounts_of_budget bid db) db Ho
              (accounts_of_budget_NoDup bid db Ho)
              (fun x H => proj1 (proj1 (accounts_of_budget_In bid db x) H)))
    as [Hrun Hread].
  cbn [s_read s_key ACCOUNTS] in Hrun, Hread.
  split.
  - unfold bind, getAccounts. fold (accounts_of_budget bid db). exact Hrun.
  - rewrite Hread. apply map_ext_in. intros y Hy.
    now apply on_keys_accounts_of_budget.
Qed.

Lemma for_of_budgets lb :
  forall db,
    ordered a_id (accounts db) = true ->
    NoDup (map b_id lb) ->
    for_of lb (fun budget => accounts <- getAccounts (b_id budget) ;;
                             for_of accounts step) db
      = (overwrite_budgets f differs lb db, Ok tt) /\
    accounts (overwrite_budgets f differs lb db)
      = map (fun y => if existsb (fun b => String.eqb (b_id b) (budgetId y)) lb
                      then f y else y) (accounts db) /\
    writes (overwrite_budgets f differs lb db)
      = (writes db ++
         flat_map (fun b => map (fun a => W_put "accounts" (a_id a))
                                (filter differs (accounts_of_budget (b_id b) db))) lb)%list /\
    transactions (overwrite_budgets f differs lb db) = transactions db.
Proof.
  induction lb as [|b r IH]; intros db Ho Hnd.
  - repeat split; simpl.
    + symmetry. rewrite <- (map_id (accounts db)) at 2. now apply map_ext.
    + now rewrite app_nil_r.
  - inversion Hnd as [|? ? Hnotin Hnd']; subst.
    destruct (for_of_budget (b_id b) db Ho) as [Hrun Hacc].
    set (db1 := overwrite_all ACCOUNTS f differs (accounts_of_budget (b_id b) db) db) in *.
    assert (Ho1 : ordered a_id (accounts db1) = true).
    { rewrite Hacc. apply ordered_map; [|assumption].
      intros x. destruct (String.eqb (budgetId x) (b_id b)); [apply key_f | reflexivity]. }
    destruct (IH db1 Ho1 Hnd') as [Hrun' [Hacc' [Hw' Ht']]].
    change (overwrite_budgets f differs (b :: r) db)
      with (overwrite_budgets f differs r db1).
    assert (Hother : forall y, budgetId y = b_id b ->
              existsb (fun b' => String.eqb (b_id b') (budgetId y)) r = false).
    { intros y e. destruct (existsb _ r) eqn:E; [|reflexivity].
      exfalso. apply existsb_exists in E. destruct E as [b' [Hb' Hk]].
      apply String.eqb_eq in Hk. apply Hnotin. rewrite <- e, <- Hk. now apply in_map. }
    split.
    { cbn [for_of]. unfold bind at 1. rewrite Hrun. exact Hrun'. }
    split.
    { rewrite Hacc', Hacc, map_map. apply map_ext. intros y. simpl.
      rewrite (String.eqb_sym (b_id b) (budgetId y)).
      destruct (String.eqb_spec (budgetId y) (b_id b)) as [e|ne]; simpl.
      - rewrite budget_f, (Hother y e). reflexivity.
      - reflexivity. }
    split.
    { rewrite Hw'. unfold db1 at 1.
      rewrite (writes_overwrite_all Account ACCOUNTS f differs (fun _ _ => eq_refl)).
      cbn [s_name s_key ACCOUNTS flat_map]. rewrite <- !app_assoc. do 2 f_equal.
      apply flat_map_ext_in. intros b' Hb'.
      unfold accounts_of_budget. rewrite Hacc.
      rewrite filter_budget_map; [reflexivity | |].
      - intros y. destruct (String.eqb (budgetId y) (b_id b)); [apply budget_f | reflexivity].
      - intros y _ e.
        destruct (String.eqb_spec (budgetId y) (b_id b)) as [e'|]; [|reflexivity].
        exfalso. apply Hnotin. rewrite <- e', e. now apply in_map. }
    rewrite Ht'. unfold db1.
    now destruct (overwrite_all_accounts_frame f differs
                    (accounts_of_budget (b_id b) db) db) as [_ [_ [H3 _]]].
Qed.
End AccountReconciliation.



(** The account-transfer leg of 50 counts, the leg tagged "transfer" does
    not: a1 is set to 300 + 50, and only a1 is written. *)
Example recalculateAccountBalances_drift :
  stored_balance (fst (recalculateAccountBalances sample_db_account_drift)) "a1" = Some 350 /\
  stored_balance (fst (recalculateAccountBalances sample_db_account_drift)) "a2" = Some 0 /\
  writes (fst (recalculateAccountBalances sample_db_account_drift)) = [W_put "accounts" "a1"].
Proof. vm_compute. repeat split; reflexivity. Qed.


(** ** Further properties of the transaction operations *)

(** X1. A mutation that names its own record by an id that is not stored
    throws the matching not-found error and returns the database as it was:
    [updateTransaction] and [deleteTransaction] for a transaction id,
    [deleteTransfer] for a transfer id, [updateCategory] for a category id,
    [updateAccount] and [updateAccountBalance] for an account id. *)
Theorem X1_unknown_id_rejected :
  forall db id txUpdates catUpdates accUpdates n,
    (get t_id id (transactions db) = None ->
     updateTransaction id txUpdates db = (db, Throw "Transaction not found") /\
     deleteTransaction id db = (db, Throw "Transaction not found")) /\
    (get tr_id id (transfers db) = None ->
     deleteTransfer id db = (db, Throw "Transfer not found")) /\
    (get c_id id (categories db) = None ->
     updateCategory id catUpdates db = (db, Throw "Category not found")) /\
    (get a_id id (accounts db) = None ->
     updateAccount id accUpdates db = (db, Throw "Account not found") /\
     updateAccountBalance id n db = (db, Throw "Account not found")).
Proof.
  intros db id txUpdates catUpdates accUpdates n.
  split.
  { intros H. split.
    - unfold updateTransaction, bind, getTransaction, getData. simpl. now rewrite H.
    - now apply deleteTransaction_absent. }
  split.
  { intros H. unfold deleteTransfer, bind, getTransfer, getData. simpl. now rewrite H. }
  split.
  { intros H. now apply updateCategory_absent. }
  intros H. split.
  - unfold updateAccount, bind, getAccount, getData. simpl. now rewrite H.
  - now apply updateAccountBalance_absent.
Qed.

Lemma X1_unknown_id_rejected_witness :
  (updateTransaction "zz" (amount_only 5) sample_db = (sample_db, Throw "Transaction not found") /\
   deleteTransaction "zz" sample_db = (sample_db, Throw "Transaction not found")) /\
  deleteTransfer "zz" sample_db = (sample_db, Throw "Transfer not found") /\
  updateCategory "zz" (set_currentAmount 1) sample_db = (sample_db, Throw "Category not found") /\
  (updateAccount "zz" (set_balance 1) sample_db = (sample_db, Throw "Account not found") /\
   updateAccountBalance "zz" 1 sample_db = (sample_db, Throw "Account not found")).
Proof.
  destruct (X1_unknown_id_rejected sample_db "zz" (amount_only 5) (set_currentAmount 1)
              (set_balance 1) 1) as [H1 [H2 [H3 H4]]].
  split; [apply H1; reflexivity|].
  split; [apply H2; reflexivity|].
  split; [apply H3; reflexivity | apply H4; reflexivity].
Defined.

Lemma opt_eqb_refl o : opt_eqb o o = true.
Proof. destruct o; simpl; [apply String.eqb_refl | reflexivity]. Qed.

(** X2. An update that leaves [categoryId], [accountId] and [amount] as
    they are (whatever it does to description, type or tags) makes exactly
    one store write, the [put] of the transaction: no category and no
    account record is written, also when the tags change. *)
Theorem X2_update_without_balance_change :
  forall db id existing updates,
    get t_id id (transactions db) = Some existing ->
    categoryId (merge_transaction existing updates) = categoryId existing ->
    accountId (merge_transaction existing updates) = accountId existing ->
    amount (merge_transaction existing updates) = amount existing ->
    updateTransaction id updates db =
      (log (W_put "transactions" id)
           (s_write TRANSACTIONS
              (put t_id (merge_transaction existing updates) (transactions db)) db),
       Ok (merge_transaction existing updates)).
Proof.
  intros db id existing updates Hget Hc Ha Hm.
  rewrite (updateTransaction_run db id existing updates Hget).
  unfold after_update. rewrite Hc, Ha, Hm.
  rewrite opt_eqb_refl, String.eqb_refl, Z.eqb_refl. simpl.
  now rewrite (get_Some_key _ _ _ _ _ Hget).
Qed.

Lemma X2_update_without_balance_change_witness :
  updateTransaction "t1"
    (mkTxUpdate None None None (Some "Market") None (Some (Some ["transfer"])))
    sample_db_spent =
    (log (W_put "transactions" "t1")
         (s_write TRANSACTIONS
            (put t_id
               (merge_transaction
                  (mkTransaction "t1" "a1" (Some "c1") (-25000) "Groceries" EXPENSE None)
                  (mkTxUpdate None None None (Some "Market") None (Some (Some ["transfer"]))))
               (transactions sample_db_spent)) sample_db_spent),
     Ok (merge_transaction
           (mkTransaction "t1" "a1" (Some "c1") (-25000) "Groceries" EXPENSE None)
           (mkTxUpdate None None None (Some "Market") None (Some (Some ["transfer"]))))).
Proof.
  apply (X2_update_without_balance_change sample_db_spent "t1"
           (mkTransaction "t1" "a1" (Some "c1") (-25000) "Groceries" EXPENSE None));
    reflexivity.
Defined.

Lemma sb_after_update existing updated db k :
  stored_balance (after_update existing updated db) k =
    if negb (String.eqb (accountId existing) (accountId updated))
       || negb (amount existing =? amount updated)
    then
      stored_balance
        (let d := if account_applies existing
                  then map_account_balance (accountId existing)
                         (fun bal => bal - amount existing) db
                  else db in
         if account_applies updated
         then map_account_balance (accountId updated) (fun bal => bal + amount updated) d
         else d) k
    else stored_balance db k.
Proof.
  unfold after_update. cbv zeta. rewrite sb_transactions_write.
  destruct (negb (opt_eqb (categoryId existing) (categoryId updated))
            || negb (amount existing =? amount updated));
    destruct (negb (String.eqb (accountId existing) (accountId updated))
              || negb (amount existing =? amount updated));
    destruct (account_applies updated); destruct (account_applies existing);
    rewrite ?sb_map_account, ?sb_category_step; reflexivity.
Qed.

(** X3. Changing only the amount of a stored transaction from [a] to a
    different [a'] moves both balances by the difference: when the
    transaction counts for a stored category and a stored account (no
    "transfer" or "account-transfer" tag), and the two values each of them
    is given in turn, the one without [a] and the one with [a'] added, are
    safe integers, the category ends at [currentAmount - a + a'] and the
    account at [balance - a + a']. *)
Theorem X3_update_amount_adjusts_both :
  forall db id existing a' cid C A,
    get t_id id (transactions db) = Some existing ->
    a' <> amount existing ->
    category_of existing = Some cid ->
    account_applies existing = true ->
    get c_id cid (categories db) = Some C ->
    get a_id (accountId existing) (accounts db) = Some A ->
    isSafeInteger (currentAmount C - amount existing) = true ->
    isSafeInteger (currentAmount C - amount existing + a') = true ->
    isSafeInteger (balance A - amount existing) = true ->
    isSafeInteger (balance A - amount existing + a') = true ->
    exists db',
      Double.updateTransaction id (amount_only a') db
        = (db', Ok (merge_transaction existing (amount_only a'))) /\
      stored_currentAmount db' cid = Some (currentAmount C - amount existing + a') /\
      stored_balance db' (accountId existing) = Some (balance A - amount existing + a').
Proof.
  intros db id existing a' cid C A Hget Hne Hcat Happ HC HA Sc1 Sc2 Sa1 Sa2.
  set (updated := merge_transaction existing (amount_only a')).
  assert (Hcat' : category_of updated = Some cid) by exact Hcat.
  assert (Happ' : account_applies updated = true) by exact Happ.
  assert (Hamt : (amount existing =? amount updated) = false).
  { apply Z.eqb_neq. simpl. congruence. }
  exists (after_update existing updated db).
  split.
  { apply double_updateTransaction_run; [assumption | | | |].
    - intros k c H1 H2. rewrite Hcat in H1. injection H1 as <-.
      rewrite HC in H2. now injection H2 as <-.
    - fold updated. intros k c H1 H2. rewrite Hcat' in H1. injection H1 as <-.
      assert (S : stored_currentAmount
                    (category_step existing (fun cur => cur - amount existing) db) cid
                  = Some (currentAmount c))
        by (unfold stored_currentAmount; now rewrite H2).
      rewrite sc_category_step, Hcat, String.eqb_refl in S.
      unfold stored_currentAmount in S. rewrite HC in S.
      simpl in S. injection S as S. rewrite <- S. exact Sc2.
    - intros a _ H. rewrite HA in H. now injection H as <-.
    - fold updated. rewrite Happ. change (accountId updated) with (accountId existing).
      intros a _ H.
      assert (S : stored_balance
                    (map_account_balance (accountId existing)
                       (fun bal => bal - amount existing) db) (accountId existing)
                  = Some (balance a))
        by (unfold stored_balance; now rewrite H).
      rewrite sb_map_account, String.eqb_refl in S.
      unfold stored_balance in S. rewrite HA in S.
      simpl in S. injection S as S. rewrite <- S. exact Sa2. }
  split.
  - rewrite sc_after_update, Hamt, orb_true_r.
    rewrite !sc_category_step, Hcat, Hcat', String.eqb_refl.
    unfold stored_currentAmount. rewrite HC. reflexivity.
  - rewrite sb_after_update, Hamt, orb_true_r, Happ, Happ'. cbv zeta.
    change (accountId updated) with (accountId existing).
    rewrite !sb_map_account, String.eqb_refl.
    unfold stored_balance. rewrite HA. reflexivity.
Qed.

Lemma X3_update_amount_adjusts_both_witness :
  exists db',
    Double.updateTransaction "t1" (amount_only (-10000)) sample_db_spent
      = (db', Ok (merge_transaction
                    (mkTransaction "t1" "a1" (Some "c1") (-25000) "Groceries" EXPENSE None)
                    (amount_only (-10000)))) /\
    stored_currentAmount db' "c1" = Some (-25000 - -25000 + -10000) /\
    stored_balance db' "a1" = Some (75000 - -25000 + -10000).
Proof.
  apply (X3_update_amount_adjusts_both sample_db_spent "t1"
           (mkTransaction "t1" "a1" (Some "c1") (-25000) "Groceries" EXPENSE None)
           (-10000) "c1"
           (mkCategory "c1" "Food" 500000 (-25000) false)
           (mkAccount "a1" "b1" "Checking" 75000 true false 0));
    try reflexivity.
  discriminate.
Defined.

(** The range matters: with Food at 1, an expense of [2 ^ 53] changed to
    [2 ^ 53 - 2] leaves Food at 2, not at [1 + 2 ^ 53 - (2 ^ 53 - 2) = 3]:
    taking the old amount out rounds [2 ^ 53 + 1] to [2 ^ 53]. *)
Example update_amount_rounds :
  stored_currentAmount sample_db_large_expense "c1" = Some 1 /\
  stored_currentAmount
    (fst (Double.updateTransaction "t1" (amount_only (-9007199254740990))
            sample_db_large_expense)) "c1" = Some 2.
Proof. vm_compute. split; reflexivity. Qed.





(** ** Sums over a store after a write *)

Section StoreSums.
Variable V : Type.
Variable key : V -> string.
Variable f : V -> Z.
Variable p : V -> bool.

Lemma sum_filter_put_fresh v l :
  get key (key v) l = None ->
  sum_of f (filter p (put key v l))
    = sum_of f (filter p l) + (if p v then f v else 0).
Proof.
  unfold get. induction l as [|a r IH]; simpl.
  - intros _. destruct (p v); simpl; lia.
  - destruct (String.eqb_spec (key a) (key v)) as [e|ne]; [discriminate|].
    intros Hg. destruct (String_as_OT.compare (key v) (key a)) eqn:E; simpl.
    + apply compare_Eq in E. congruence.
    + destruct (p v); destruct (p a); simpl; lia.
    + destruct (p a); simpl; rewrite IH by assumption; lia.
Qed.

Lemma remove_notin k l :
  (forall x, In x l -> key x <> k) -> remove key k l = l.
Proof.
  unfold remove. induction l as [|a r IH]; simpl; intros H; [reflexivity|].
  destruct (String.eqb_spec (key a) k) as [e|ne].
  - exfalso. exact (H a (or_introl eq_refl) e).
  - simpl. f_equal. apply IH. intros x Hx. apply H. now right.
Qed.


Lemma remove_put_fresh v l :
  get key (key v) l = None -> remove key (key v) (put key v l) = l.
Proof.
  unfold get, remove. induction l as [|a r IH]; simpl.
  - now rewrite String.eqb_refl.
  - destruct (String.eqb_spec (key a) (key v)) as [e|ne]; [discriminate|].
    intros Hg. destruct (String_as_OT.compare (key v) (key a)) eqn:E; simpl.
    + apply compare_Eq in E. congruence.
    + rewrite String.eqb_refl. simpl.
      destruct (String.eqb_spec (key a) (key v)); [congruence|]. simpl. f_equal.
      apply (remove_notin (key v) r). intros x Hx Hk.
      apply (find_none _ _ Hg) in Hx. apply String.eqb_eq in Hk. congruence.
    + destruct (String.eqb_spec (key a) (key v)); [congruence|]. simpl.
      f_equal. now apply IH.
Qed.

End StoreSums.

Section StoreExtensionality.
Variable V : Type.
Variable key : V -> string.

Lemma get_above x r :
  forallb (fun y => klt (key x) (key y)) r = true -> get key (key x) r = None.
Proof.
  intros H. rewrite forallb_forall in H. unfold get.
  destruct (find (fun y => String.eqb (key y) (key x)) r) as [y|] eqn:F; [|reflexivity].
  apply find_some in F. destruct F as [Hin Hk]. apply String.eqb_eq in Hk.
  apply H, klt_neq in Hin. congruence.
Qed.

(** Two stores in key order that answer every [get] alike are equal. *)
Lemma ordered_ext l1 :
  forall l2,
    ordered key l1 = true -> ordered key l2 = true ->
    (forall k, get key k l1 = get key k l2) -> l1 = l2.
Proof.
  induction l1 as [|x r1 IH]; intros [|y r2] Ho1 Ho2 Hg.
  - reflexivity.
  - specialize (Hg (key y)). unfold get in Hg. simpl in Hg.
    rewrite String.eqb_refl in Hg. discriminate.
  - specialize (Hg (key x)). unfold get in Hg. simpl in Hg.
    rewrite String.eqb_refl in Hg. discriminate.
  - simpl in Ho1, Ho2.
    apply andb_prop in Ho1. destruct Ho1 as [Ha1 Ho1].
    apply andb_prop in Ho2. destruct Ho2 as [Ha2 Ho2].
    assert (Hxy : x = y).
    { pose proof (Hg (key x)) as Hx. pose proof (Hg (key y)) as Hy.
      unfold get in Hx, Hy. simpl in Hx, Hy.
      rewrite String.eqb_refl in Hx, Hy.
      destruct (String.eqb_spec (key y) (key x)) as [e|ne]; [congruence|].
      destruct (String.eqb_spec (key x) (key y)) as [e'|_]; [congruence|].
      symmetry in Hx. apply find_some in Hx. apply find_some in Hy.
      rewrite forallb_forall in Ha1, Ha2.
      pose proof (Ha2 _ (proj1 Hx)) as L1. pose proof (Ha1 _ (proj1 Hy)) as L2.
      pose proof (klt_trans _ _ _ L1 L2) as L. rewrite klt_irrefl in L. discriminate. }
    subst y. f_equal. apply IH; try assumption.
    intros k. destruct (String.eqb_spec (key x) k) as [e|ne].
    + subst k. now rewrite !get_above.
    + specialize (Hg k). unfold get in Hg. simpl in Hg.
      destruct (String.eqb_spec (key x) k); [contradiction | exact Hg].
Qed.

Lemma filter_all (l : list V) : filter (fun _ => true) l = l.
Proof. induction l as [|a r IH]; simpl; [reflexivity | now rewrite IH]. Qed.
End StoreExtensionality.

(** ** A successful account transfer *)









(** ** Create and delete keep the balances reconciled *)














(** ** Transfers between two stored categories *)

Lemma getUnassignedBalance_run db :
  getUnassignedBalance db = (db, Ok (unassigned_value db)).
Proof.
  unfold getUnassignedBalance, bind, promise_all2, try_catch, getAllTransactions,
    getAllCategories, getAllBudgets, getAllData, getAccounts, ret,
    unassigned_value, on_budget_funds, accounts_of_budget.
  cbn [s_read TRANSACTIONS CATEGORIES BUDGETS].
  destruct (budgets db); reflexivity.
Qed.





Lemma merge_category_undo C a :
  merge_category
    (merge_category C (set_currentAmount (currentAmount C - a)))
    (set_currentAmount
       (currentAmount (merge_category C (set_currentAmount (currentAmount C - a))) + a))
  = C.
Proof. destruct C. unfold merge_category. simpl. f_equal. lia. Qed.

Lemma double_createTransfer_between_run db uuid txUuid input Cfrom Cto :
  ti_fromCategoryId input <> UNASSIGNED_CATEGORY_ID ->
  ti_toCategoryId input <> UNASSIGNED_CATEGORY_ID ->
  ti_fromCategoryId input <> ti_toCategoryId input ->
  get c_id (ti_fromCategoryId input) (categories db) = Some Cfrom ->
  get c_id (ti_toCategoryId input) (categories db) = Some Cto ->
  get tr_id uuid (transfers db) = None ->
  isSafeInteger (currentAmount Cfrom - ti_amount input) = true ->
  isSafeInteger (currentAmount Cto + ti_amount input) = true ->
  Double.createTransfer uuid txUuid input db =
    (after_transfer_between uuid input Cfrom Cto db, Ok (transfer_of uuid input)).
Proof.
  intros Hf Ht Hne HCf HCt Htr Sf St.
  pose proof (get_Some_key _ _ _ _ _ HCf) as Hkf.
  unfold Double.createTransfer. fold (transfer_of uuid input).
  unfold bind at 1.
  destruct (String.eqb_spec (ti_fromCategoryId input) UNASSIGNED_CATEGORY_ID);
    [contradiction|].
  destruct (String.eqb_spec (ti_toCategoryId input) UNASSIGNED_CATEGORY_ID);
    [contradiction|].
  unfold bind at 1. unfold promise_all2 at 1. unfold getCategory, getData.
  cbn [s_read s_key CATEGORIES]. cbv beta iota. rewrite HCf, HCt. cbv beta iota.
  rewrite (number_sub_safe _ _ Sf), (number_add_safe _ _ St).
  unfold bind at 1. unfold promise_all2.
  rewrite (updateCategory_run _ _ Cfrom) by exact HCf.
  rewrite (updateCategory_run _ _ Cto).
  - cbv beta iota. unfold ret at 1.
    unfold bind at 1. unfold addData. cbn [s_read s_key TRANSFERS].
    cbn [transfers log s_write CATEGORIES]. cbn [tr_id transfer_of]. rewrite Htr.
    reflexivity.
  - cbn [categories log s_write CATEGORIES].
    rewrite get_put_other; [assumption|]. simpl. congruence.
Qed.

Lemma double_deleteTransfer_between_run db id tr Cfrom Cto :
  get tr_id id (transfers db) = Some tr ->
  fromCategoryId tr <> UNASSIGNED_CATEGORY_ID ->
  toCategoryId tr <> UNASSIGNED_CATEGORY_ID ->
  fromCategoryId tr <> toCategoryId tr ->
  get c_id (fromCategoryId tr) (categories db) = Some Cfrom ->
  get c_id (toCategoryId tr) (categories db) = Some Cto ->
  isSafeInteger (currentAmount Cfrom + tr_amount tr) = true ->
  isSafeInteger (currentAmount Cto - tr_amount tr) = true ->
  Double.deleteTransfer id db = (after_delete_transfer_between id tr Cfrom Cto db, Ok tt).
Proof.
  intros Htr Hf Ht Hne HCf HCt Sf St.
  pose proof (get_Some_key _ _ _ _ _ HCf) as Hkf.
  unfold Double.deleteTransfer. unfold bind at 1. unfold getTransfer, getData.
  cbn [s_read s_key TRANSFERS]. cbv beta iota. rewrite Htr. cbv beta iota.
  unfold bind at 1.
  destruct (String.eqb_spec (fromCategoryId tr) UNASSIGNED_CATEGORY_ID); [contradiction|].
  destruct (String.eqb_spec (toCategoryId tr) UNASSIGNED_CATEGORY_ID); [contradiction|].
  unfold bind at 1. unfold promise_all2 at 1. unfold getCategory, getData.
  cbn [s_read s_key CATEGORIES]. cbv beta iota. rewrite HCf, HCt. cbv beta iota.
  rewrite (number_add_safe _ _ Sf), (number_sub_safe _ _ St).
  unfold bind at 1. unfold promise_all2.
  rewrite (updateCategory_run _ _ Cfrom) by exact HCf.
  rewrite (updateCategory_run _ _ Cto).
  - cbv beta iota. unfold ret at 1. reflexivity.
  - cbn [categories log s_write CATEGORIES].
    rewrite get_put_other; [assumption|]. simpl. congruence.
Qed.

(** X11. Creating a transfer between two different stored categories and
    then deleting it by its id undoes it, provided the [currentAmount] of
    the two categories is a safe integer before and after the transfer:
    every category is stored with the [currentAmount] it had before the
    create, and the transaction, transfer and account stores are what they
    were.  (The two category records have been rewritten, and with them
    their [updatedAt].) *)
Theorem X11_transfer_between_round_trip :
  forall db uuid txUuid input Cfrom Cto,
    well_formed db = true ->
    ti_fromCategoryId input <> UNASSIGNED_CATEGORY_ID ->
    ti_toCategoryId input <> UNASSIGNED_CATEGORY_ID ->
    ti_fromCategoryId input <> ti_toCategoryId input ->
    get c_id (ti_fromCategoryId input) (categories db) = Some Cfrom ->
    get c_id (ti_toCategoryId input) (categories db) = Some Cto ->
    get tr_id uuid (transfers db) = None ->
    isSafeInteger (currentAmount Cfrom) = true ->
    isSafeInteger (currentAmount Cfrom - ti_amount input) = true ->
    isSafeInteger (currentAmount Cto) = true ->
    isSafeInteger (currentAmount Cto + ti_amount input) = true ->
    exists db1 db2,
      Double.createTransfer uuid txUuid input db = (db1, Ok (transfer_of uuid input)) /\
      Double.deleteTransfer uuid db1 = (db2, Ok tt) /\
      (forall cid, stored_currentAmount db2 cid = stored_currentAmount db cid) /\
      transactions db2 = transactions db /\
      transfers db2 = transfers db /\
      accounts db2 = accounts db.
Proof.
  intros db uuid txUuid input Cfrom Cto Hwf Hf Ht Hne HCf HCt Htr Sf Sf' St St'.
  destruct (well_formed_parts db Hwf) as [_ [_ [Hoc _]]].
  pose proof (get_Some_key _ _ _ _ _ HCf) as Hkf.
  pose proof (get_Some_key _ _ _ _ _ HCt) as Hkt.
  set (a := ti_amount input) in *.
  set (Cf' := merge_category Cfrom (set_currentAmount (currentAmount Cfrom - a))).
  set (Ct' := merge_category Cto (set_currentAmount (currentAmount Cto + a))).
  set (tr := transfer_of uuid input).
  set (db1 := after_transfer_between uuid input Cfrom Cto db).
  assert (Hcats1 : categories db1 = put c_id Ct' (put c_id Cf' (categories db)))
    by reflexivity.
  assert (Hgf : get c_id (fromCategoryId tr) (categories db1) = Some Cf').
  { rewrite Hcats1. change (fromCategoryId tr) with (ti_fromCategoryId input).
    rewrite get_put_other by (simpl; congruence).
    rewrite <- Hkf. change (c_id Cfrom) with (c_id Cf'). apply get_put_same. }
  assert (Hgt : get c_id (toCategoryId tr) (categories db1) = Some Ct').
  { rewrite Hcats1. change (toCategoryId tr) with (ti_toCategoryId input).
    rewrite <- Hkt. change (c_id Cto) with (c_id Ct'). apply get_put_same. }
  assert (Hcats2 : categories (after_delete_transfer_between uuid tr Cf' Ct' db1)
                   = categories db).
  { change (categories (after_delete_transfer_between uuid tr Cf' Ct' db1))
      with (put c_id (merge_category Ct' (set_currentAmount (currentAmount Ct' - a)))
              (put c_id (merge_category Cf' (set_currentAmount (currentAmount Cf' + a)))
                 (categories db1))).
    unfold Cf' at 1 2. rewrite merge_category_undo.
    unfold Ct' at 1 2. rewrite merge_category_back.
    rewrite Hcats1.
    apply (ordered_ext _ c_id); [repeat apply ordered_put; assumption | assumption |].
    intros k.
    destruct (String.eqb_spec k (c_id Cto)) as [->|nt].
    - rewrite get_put_same. now rewrite Hkt.
    - rewrite get_put_other by assumption.
      destruct (String.eqb_spec k (c_id Cfrom)) as [->|nf].
      + rewrite get_put_same. now rewrite Hkf.
      + rewrite !get_put_other by assumption. reflexivity. }
  exists db1, (after_delete_transfer_between uuid tr Cf' Ct' db1).
  split; [now apply double_createTransfer_between_run|].
  split.
  { apply double_deleteTransfer_between_run; try assumption.
    - change (transfers db1) with (put tr_id tr (transfers db)).
      change uuid with (tr_id tr). apply get_put_same.
    - change (currentAmount Cf' + tr_amount tr) with (currentAmount Cfrom - a + a).
      replace (currentAmount Cfrom - a + a) with (currentAmount Cfrom) by lia.
      exact Sf.
    - change (currentAmount Ct' - tr_amount tr) with (currentAmount Cto + a - a).
      replace (currentAmount Cto + a - a) with (currentAmount Cto) by lia.
      exact St. }
  split.
  { intros cid. unfold stored_currentAmount. now rewrite Hcats2. }
  split; [reflexivity|].
  split; [|reflexivity].
  change (transfers (after_delete_transfer_between uuid tr Cf' Ct' db1))
    with (remove tr_id (tr_id tr) (put tr_id tr (transfers db))).
  now apply remove_put_fresh.
Qed.

Lemma X11_transfer_between_round_trip_witness :
  exists db1 db2,
    Double.createTransfer "f1" "t9" sample_transfer_between sample_db_spent
      = (db1, Ok (transfer_of "f1" sample_transfer_between)) /\
    Double.deleteTransfer "f1" db1 = (db2, Ok tt) /\
    (forall cid, stored_currentAmount db2 cid = stored_currentAmount sample_db_spent cid) /\
    transactions db2 = transactions sample_db_spent /\
    transfers db2 = transfers sample_db_spent /\
    accounts db2 = accounts sample_db_spent.
Proof.
  apply (X11_transfer_between_round_trip sample_db_spent "f1" "t9" sample_transfer_between
           (mkCategory "c1" "Food" 500000 (-25000) false)
           (mkCategory "c2" "Rent" 900000 0 false));
    try reflexivity; discriminate.
Defined.

(** ** Category transfers keep the categories reconciled *)





(** ** Reconciling twice *)

Lemma overwrite_all_none {V} (S : Store V) f differs l db :
  (forall x, In x l -> differs x = false) ->
  overwrite_all S f differs l db = db.
Proof.
  unfold overwrite_all. revert db.
  induction l as [|x r IH]; intros db H; simpl; [reflexivity|].
  unfold overwrite_if at 2. rewrite (H x (or_introl eq_refl)).
  apply IH. intros y Hy. apply H. now right.
Qed.

Lemma recalculateCategoryBalances_effect db :
  ordered c_id (categories db) = true ->
  recalculateCategoryBalances db =
    (overwrite_all CATEGORIES
       (fun c => merge_category c (set_currentAmount (category_ledger_balance db (c_id c))))
       (fun c => negb (currentAmount c =? category_ledger_balance db (c_id c)))
       (categories db) db, Ok tt) /\
  categories
    (overwrite_all CATEGORIES
       (fun c => merge_category c (set_currentAmount (category_ledger_balance db (c_id c))))
       (fun c => negb (currentAmount c =? category_ledger_balance db (c_id c)))
       (categories db) db)
  = map (fun c => merge_category c (set_currentAmount (category_ledger_balance db (c_id c))))
        (categories db).
Proof.
  intros Hoc.
  set (f := fun c => merge_category c
                       (set_currentAmount (category_ledger_balance db (c_id c)))).
  set (differs := fun c => negb (currentAmount c =? category_ledger_balance db (c_id c))).
  unfold recalculateCategoryBalances, bind, getAllCategories, getAllTransactions,
    getAllTransfers, getAllData.
  cbn [s_read CATEGORIES TRANSACTIONS TRANSFERS].
  match goal with
  | |- context [for_of (categories db) ?st db] => set (step := st)
  end.
  assert (Hstep : forall x d,
            get c_id (c_id x) (categories d) = Some x ->
            step x d = (overwrite_if CATEGORIES f differs x d, Ok tt)).
  { intros x d Hx. subst step. cbv beta zeta.
    rewrite (computed_category_balance db (c_id x)).
    unfold overwrite_if, when. fold (differs x).
    destruct (differs x); [|reflexivity].
    unfold bind. rewrite (updateCategory_run _ _ x) by assumption. reflexivity. }
  assert (Hsame : forall x, differs x = false -> f x = x).
  { intros x D. unfold f, differs in *. apply negb_false_iff, Z.eqb_eq in D.
    rewrite <- D. apply merge_category_same. }
  destruct (for_of_overwrite BudgetCategory CATEGORIES f differs step
              (fun _ _ => eq_refl) (fun _ _ => eq_refl) (fun _ => eq_refl) Hsame
              Hstep (categories db) db Hoc
              (ordered_NoDup _ _ _ Hoc) (fun _ H => H)) as [Hrun Hread].
  cbn [s_read CATEGORIES s_key] in Hrun, Hread.
  split; [exact Hrun|].
  rewrite Hread. apply map_ext_in. intros c Hc. unfold on_keys.
  now rewrite (existsb_key_true _ c_id c (categories db) Hc).
Qed.

(** X13. [recalculateCategoryBalances] is idempotent: on a database in key
    order, a second run right after the first finds every category at its
    recomputed value and returns the database untouched, without a single
    store write. *)
Theorem X13_category_reconciliation_idempotent :
  forall db,
    well_formed db = true ->
    exists db1,
      recalculateCategoryBalances db = (db1, Ok tt) /\
      recalculateCategoryBalances db1 = (db1, Ok tt).
Proof.
  intros db Hwf.
  destruct (well_formed_parts db Hwf) as [_ [_ [Hoc _]]].
  destruct (recalculateCategoryBalances_effect db Hoc) as [Hrun Hcats].
  set (f := fun c => merge_category c
                       (set_currentAmount (category_ledger_balance db (c_id c)))) in *.
  set (differs := fun c => negb (currentAmount c =? category_ledger_balance db (c_id c))) in *.
  set (db1 := overwrite_all CATEGORIES f differs (categories db) db) in *.
  exists db1. split; [exact Hrun|].
  destruct (overwrite_all_categories_frame f differs (categories db) db)
    as [_ [_ [Htx Htr]]].
  fold db1 in Htx, Htr.
  assert (Hledger : forall k, category_ledger_balance db1 k = category_ledger_balance db k).
  { intros k. unfold category_ledger_balance. now rewrite Htx, Htr. }
  assert (Hoc1 : ordered c_id (categories db1) = true).
  { rewrite Hcats. apply ordered_map; [reflexivity | assumption]. }
  destruct (recalculateCategoryBalances_effect db1 Hoc1) as [Hrun1 _].
  rewrite Hrun1. f_equal.
  apply overwrite_all_none. intros c Hc.
  rewrite Hcats in Hc. apply in_map_iff in Hc. destruct Hc as [c0 [<- _]].
  apply negb_false_iff, Z.eqb_eq. rewrite Hledger. reflexivity.
Qed.

Lemma X13_category_reconciliation_idempotent_witness :
  exists db1,
    recalculateCategoryBalances sample_db_drift = (db1, Ok tt) /\
    recalculateCategoryBalances db1 = (db1, Ok tt).
Proof.
  apply (X13_category_reconciliation_idempotent sample_db_drift). reflexivity.
Defined.

Lemma overwrite_budgets_frame f differs lb db :
  budgets (overwrite_budgets f differs lb db) = budgets db.
Proof.
  unfold overwrite_budgets. revert db.
  induction lb as [|b r IH]; intros db; simpl; [reflexivity|].
  rewrite IH.
  now destruct (overwrite_all_accounts_frame f differs
                  (accounts_of_budget (b_id b) db) db) as [H _].
Qed.

Lemma overwrite_budgets_none f differs lb db :
  (forall b x, In b lb -> In x (accounts_of_budget (b_id b) db) -> differs x = false) ->
  overwrite_budgets f differs lb db = db.
Proof.
  unfold overwrite_budgets.
  induction lb as [|b r IH]; intros H; simpl; [reflexivity|].
  rewrite overwrite_all_none.
  - apply IH. intros b' x Hb'. apply H. now right.
  - intros x Hx. apply (H b x); [now left | assumption].
Qed.

Lemma recalculateAccountBalances_effect db :
  ordered b_id (budgets db) = true ->
  ordered a_id (accounts db) = true ->
  recalculateAccountBalances db =
    (overwrite_budgets
       (fun a => merge_account a (set_balance (account_ledger_balance db (a_id a))))
       (fun a => negb (balance a =? account_ledger_balance db (a_id a)))
       (budgets db) db, Ok tt) /\
  accounts
    (overwrite_budgets
       (fun a => merge_account a (set_balance (account_ledger_balance db (a_id a))))
       (fun a => negb (balance a =? account_ledger_balance db (a_id a)))
       (budgets db) db)
  = map (fun a => if budget_exists db (budgetId a)
                  then merge_account a (set_balance (account_ledger_balance db (a_id a)))
                  else a) (accounts db) /\
  transactions
    (overwrite_budgets
       (fun a => merge_account a (set_balance (account_ledger_balance db (a_id a))))
       (fun a => negb (balance a =? account_ledger_balance db (a_id a)))
       (budgets db) db)
  = transactions db.
Proof.
  intros Hob Hoa.
  set (f := fun a => merge_account a (set_balance (account_ledger_balance db (a_id a)))).
  set (differs := fun a => negb (balance a =? account_ledger_balance db (a_id a))).
  unfold recalculateAccountBalances, try_catch.
  unfold bind at 1. unfold getAllBudgets, getAllData at 1.
  cbn [s_read BUDGETS]. cbv beta iota.
  unfold bind at 1. unfold getAllTransactions, getAllData at 1.
  cbn [s_read TRANSACTIONS]. cbv beta iota.
  match goal with
  | |- context [for_of (budgets db) (fun budget => _ <- _ ;; for_of _ ?st) db] =>
      set (step := st)
  end.
  assert (Hstep : forall x d,
            get a_id (a_id x) (accounts d) = Some x ->
            step x d = (overwrite_if ACCOUNTS f differs x d, Ok tt)).
  { intros x d Hx. subst step. cbv beta zeta.
    rewrite (computed_account_balance db (a_id x)).
    unfold overwrite_if, when. fold (differs x).
    destruct (differs x); [|reflexivity].
    rewrite (updateAccountBalance_run _ _ x) by assumption. reflexivity. }
  assert (Hsame : forall x, differs x = false -> f x = x).
  { intros x D. unfold f, differs, set_balance in *.
    apply negb_false_iff, Z.eqb_eq in D. rewrite <- D. apply merge_account_same. }
  destruct (for_of_budgets f differs step (fun _ => eq_refl) (fun _ => eq_refl)
              Hsame Hstep (budgets db) db Hoa (ordered_NoDup _ _ _ Hob))
    as [Hrun [Hacc [_ Ht]]].
  split; [now rewrite Hrun|].
  split; assumption.
Qed.

(** X14. [recalculateAccountBalances] is idempotent: on a database in key
    order, a second run right after the first returns the database
    untouched, without a single store write. *)
Theorem X14_account_reconciliation_idempotent :
  forall db,
    well_formed db = true ->
    exists db1,
      recalculateAccountBalances db = (db1, Ok tt) /\
      recalculateAccountBalances db1 = (db1, Ok tt).
Proof.
  intros db Hwf.
  destruct (well_formed_parts db Hwf) as [Hob [Hoa _]].
  destruct (recalculateAccountBalances_effect db Hob Hoa) as [Hrun [Hacc Htx]].
  set (f := fun a => merge_account a (set_balance (account_ledger_balance db (a_id a)))) in *.
  set (differs := fun a => negb (balance a =? account_ledger_balance db (a_id a))) in *.
  set (db1 := overwrite_budgets f differs (budgets db) db) in *.
  exists db1. split; [exact Hrun|].
  assert (Hb : budgets db1 = budgets db) by apply overwrite_budgets_frame.
  assert (Hledger : forall k, account_ledger_balance db1 k = account_ledger_balance db k).
  { intros k. unfold account_ledger_balance. now rewrite Htx. }
  assert (Hoa1 : ordered a_id (accounts db1) = true).
  { rewrite Hacc. apply ordered_map; [|assumption].
    intros a. destruct (budget_exists db (budgetId a)); reflexivity. }
  assert (Hob1 : ordered b_id (budgets db1) = true) by now rewrite Hb.
  destruct (recalculateAccountBalances_effect db1 Hob1 Hoa1) as [Hrun1 _].
  rewrite Hrun1. f_equal.
  apply overwrite_budgets_none. intros b x Hbin Hx.
  apply accounts_of_budget_In in Hx. destruct Hx as [Hx Hbx].
  rewrite Hacc in Hx. apply in_map_iff in Hx. destruct Hx as [a [Ha _]].
  assert (Hex : budget_exists db (budgetId a) = true).
  { unfold budget_exists. apply existsb_exists. exists b.
    rewrite Hb in Hbin. split; [assumption|]. apply String.eqb_eq.
    rewrite <- Hbx, <- Ha. destruct (budget_exists db (budgetId a)); reflexivity. }
  rewrite Hex in Ha. subst x.
  apply negb_false_iff, Z.eqb_eq. rewrite Hledger. reflexivity.
Qed.

Lemma X14_account_reconciliation_idempotent_witness :
  exists db1,
    recalculateAccountBalances sample_db_account_drift = (db1, Ok tt) /\
    recalculateAccountBalances db1 = (db1, Ok tt).
Proof.
  apply (X14_account_reconciliation_idempotent sample_db_account_drift). reflexivity.
Defined.

(** ** What [getAccounts] returns *)

Lemma insert_by_sortOrder_sorted a l :
  StronglySorted by_sortOrder l -> StronglySorted by_sortOrder (insert_by_sortOrder a l).
Proof.
  induction l as [|b r IH]; simpl; intros Hs.
  - constructor; constructor.
  - inversion Hs as [|? ? Hr Hall]; subst.
    destruct (Z.leb_spec (sortOrder a) (sortOrder b)) as [Hle|Hgt].
    + constructor; [assumption|].
      constructor; [exact Hle|].
      rewrite Forall_forall in *. intros x Hx. specialize (Hall x Hx).
      unfold by_sortOrder in *. lia.
    + constructor; [now apply IH|].
      rewrite Forall_forall in *. intros x Hx.
      apply (Permutation_in _ (insert_by_sortOrder_perm a r)) in Hx.
      destruct Hx as [<-|Hx]; [unfold by_sortOrder; lia | now apply Hall].
Qed.

Lemma sort_by_sortOrder_sorted l : StronglySorted by_sortOrder (sort_by_sortOrder l).
Proof.
  unfold sort_by_sortOrder. induction l as [|a r IH]; simpl; [constructor|].
  now apply insert_by_sortOrder_sorted.
Qed.

(** X15. [getAccounts budgetId] never fails and never writes; it returns
    the stored accounts of that budget, each exactly once and no other, in
    non-decreasing [sortOrder]. *)
Theorem X15_getAccounts_sorted_selection :
  forall db bid,
    exists l,
      getAccounts bid db = (db, Ok l) /\
      Permutation l (filter (fun a => String.eqb (budgetId a) bid) (accounts db)) /\
      (forall a, In a l <-> In a (accounts db) /\ budgetId a = bid) /\
      StronglySorted by_sortOrder l.
Proof.
  intros db bid. exists (accounts_of_budget bid db).
  split; [reflexivity|].
  split; [apply sort_by_sortOrder_perm|].
  split; [apply accounts_of_budget_In | apply sort_by_sortOrder_sorted].
Qed.

(** ** How the unassigned pool reacts *)











(** ** Creating and deleting categories; the budget summary *)

Lemma sum_put_fresh_all {V} (key : V -> string) (f : V -> Z) v l :
  get key (key v) l = None ->
  reduce_sum f (put key v l) = reduce_sum f l + f v.
Proof.
  intros H. rewrite !reduce_sum_sum_of.
  pose proof (sum_filter_put_fresh V key f (fun _ => true) v l H) as E.
  now rewrite !filter_all in E.
Qed.




(** X19. [createCategory] under a new id succeeds and stores the category
    with [currentAmount] 0 whatever the input, so the result of
    [getUnassignedBalance] does not move; under an id already stored it
    throws and returns the database as it was. *)
Theorem X19_createCategory_starts_at_zero :
  forall db uuid input,
    (get c_id uuid (categories db) = None ->
     exists db' C,
       createCategory uuid input db = (db', Ok C) /\
       get c_id uuid (categories db') = Some C /\
       currentAmount C = 0 /\
       c_name C = ci_name input /\ targetAmount C = ci_targetAmount input /\
       getUnassignedBalance db' = (db', Ok (unassigned_value db))) /\
    (get c_id uuid (categories db) <> None ->
     exists message, createCategory uuid input db = (db, Throw message)).
Proof.
  intros db uuid input. split.
  - intros Hfresh.
    set (C := mkCategory uuid (ci_name input) (ci_targetAmount input) 0 (ci_isArchived input)).
    set (db' := log (W_add "categories" uuid)
                  (s_write CATEGORIES (put c_id C (categories db)) db)).
    exists db', C.
    split.
    { unfold createCategory, bind, addData. cbn [s_read s_key CATEGORIES c_id].
      rewrite Hfresh. reflexivity. }
    split.
    { change (categories db') with (put c_id C (categories db)).
      change uuid with (c_id C) at 1. apply get_put_same. }
    repeat (split; [reflexivity|]).
    rewrite getUnassignedBalance_run. do 2 f_equal.
    unfold unassigned_value.
    change (on_budget_funds db') with (on_budget_funds db).
    change (transactions db') with (transactions db).
    change (categories db') with (put c_id C (categories db)).
    rewrite (sum_put_fresh_all c_id currentAmount) by exact Hfresh.
    simpl. lia.
  - intros Htaken.
    unfold createCategory, bind, addData. cbn [s_read s_key CATEGORIES c_id].
    destruct (get c_id uuid (categories db)); [|now elim Htaken].
    eexists. reflexivity.
Qed.

Lemma X19_createCategory_starts_at_zero_witness :
  (exists db' C,
     createCategory "c3" (mkCategoryInput "Fun" 200000 false) sample_db = (db', Ok C) /\
     get c_id "c3" (categories db') = Some C /\
     currentAmount C = 0 /\
     c_name C = "Fun" /\ targetAmount C = 200000 /\
     getUnassignedBalance db' = (db', Ok (unassigned_value sample_db))) /\
  (exists message,
     createCategory "c1" (mkCategoryInput "Fun" 200000 false) sample_db
       = (sample_db, Throw message)).
Proof.
  split.
  - apply (X19_createCategory_starts_at_zero sample_db "c3" (mkCategoryInput "Fun" 200000 false)).
    reflexivity.
  - apply (X19_createCategory_starts_at_zero sample_db "c1" (mkCategoryInput "Fun" 200000 false)).
    discriminate.
Defined.






(** ** Creating an account *)

Lemma fold_left_max_ge l :
  forall a, a <= fold_left Z.max l a /\ (forall y, In y l -> y <= fold_left Z.max l a).
Proof.
  induction l as [|x r IH]; intros a; simpl.
  - split; [lia | tauto].
  - destruct (IH (Z.max a x)) as [H1 H2]. split; [lia|].
    intros y [<-|Hy]; [lia | now apply H2].
Qed.

Lemma getNextSortOrder_run db bid :
  exists next,
    getNextSortOrder bid db = (db, Ok next) /\
    (forall a, In a (accounts_of_budget bid db) -> sortOrder a < next) /\
    (accounts_of_budget bid db = [] -> next = 0).
Proof.
  unfold getNextSortOrder, bind, getAccounts. fold (accounts_of_budget bid db).
  destruct (accounts_of_budget bid db) as [|x r]; simpl.
  - exists 0. split; [reflexivity|]. split; [intros a [] | reflexivity].
  - exists (math_max (sortOrder x) (map sortOrder r) + 1).
    split; [reflexivity|]. split; [|discriminate].
    destruct (fold_left_max_ge (map sortOrder r) (sortOrder x)) as [H1 H2].
    unfold math_max. intros a [<-|Ha]; [lia|].
    specialize (H2 (sortOrder a) (in_map sortOrder _ _ Ha)). lia.
Qed.

Lemma filter_put_split {V} (key : V -> string) (p : V -> bool) v l :
  get key (key v) l = None -> p v = true ->
  exists l1 l2, filter p l = (l1 ++ l2)%list /\ filter p (put key v l) = (l1 ++ v :: l2)%list.
Proof.
  intros Hg Hp. unfold get in Hg. induction l as [|a r IH]; simpl in *.
  - exists [], []. now rewrite Hp.
  - destruct (String.eqb_spec (key a) (key v)) as [e|ne]; [discriminate|].
    destruct (String_as_OT.compare (key v) (key a)) eqn:E.
    + apply compare_Eq in E. congruence.
    + exists [], (filter p (a :: r)). simpl. now rewrite Hp.
    + destruct (IH Hg) as [l1 [l2 [H1 H2]]]. simpl.
      destruct (p a).
      * exists (a :: l1), l2. simpl. now rewrite H1, H2.
      * exists l1, l2. tauto.
Qed.

Lemma insert_by_sortOrder_last v l :
  (forall x, In x l -> sortOrder x < sortOrder v) ->
  insert_by_sortOrder v l = (l ++ [v])%list.
Proof.
  induction l as [|b r IH]; simpl; intros H; [reflexivity|].
  destruct (Z.leb_spec (sortOrder v) (sortOrder b)) as [Hle|_].
  - specialize (H b (or_introl eq_refl)). lia.
  - f_equal. apply IH. intros x Hx. apply H. now right.
Qed.

Lemma insert_by_sortOrder_before_last a v l :
  sortOrder a < sortOrder v ->
  insert_by_sortOrder a (l ++ [v]) = (insert_by_sortOrder a l ++ [v])%list.
Proof.
  intros Hlt. induction l as [|b r IH]; simpl.
  - destruct (Z.leb_spec (sortOrder a) (sortOrder v)); [reflexivity | lia].
  - destruct (sortOrder a <=? sortOrder b); simpl; [reflexivity | now rewrite IH].
Qed.

Lemma sort_by_sortOrder_last v l1 l2 :
  (forall x, In x (l1 ++ l2) -> sortOrder x < sortOrder v) ->
  sort_by_sortOrder (l1 ++ v :: l2) = (sort_by_sortOrder (l1 ++ l2) ++ [v])%list.
Proof.
  unfold sort_by_sortOrder. induction l1 as [|a r IH]; simpl; intros H.
  - apply insert_by_sortOrder_last. intros x Hx.
    apply H. exact (Permutation_in _ (sort_by_sortOrder_perm l2) Hx).
  - rewrite IH by (intros x Hx; apply H; now right).
    apply insert_by_sortOrder_before_last. apply H. now left.
Qed.

(** X21. [createAccount] under a new id succeeds and stores an open account
    whose balance is the initial balance given, or 0 when none is given.
    Its [sortOrder] is above that of every account of the budget, so
    [getAccounts] for the budget returns the former list followed by the
    new account; the lists of the other budgets are as before. *)
Theorem X21_createAccount_appends :
  forall db uuid bid data,
    get a_id uuid (accounts db) = None ->
    exists db' A,
      createAccount uuid bid data db = (db', Ok A) /\
      get a_id uuid (accounts db') = Some A /\
      balance A = number_or_zero (cd_initialBalance data) /\
      isClosed A = false /\
      getAccounts bid db' = (db', Ok (accounts_of_budget bid db ++ [A])%list) /\
      (forall other, other <> bid ->
         getAccounts other db' = (db', Ok (accounts_of_budget other db))).
Proof.
  intros db uuid bid data Hfresh.
  destruct (getNextSortOrder_run db bid) as [next [Hrun [Hlt _]]].
  set (A := mkAccount uuid bid (cd_name data) (number_or_zero (cd_initialBalance data))
                      (cd_isOnBudget data) false next).
  set (db' := log (W_add "accounts" uuid)
                (s_write ACCOUNTS (put a_id A (accounts db)) db)).
  exists db', A.
  split.
  { unfold createAccount. unfold bind at 1. rewrite Hrun. fold A.
    unfold bind, try_catch, addData. cbn [s_read s_key ACCOUNTS a_id A].
    rewrite Hfresh. reflexivity. }
  split.
  { change (accounts db') with (put a_id A (accounts db)).
    change uuid with (a_id A) at 1. apply get_put_same. }
  split; [reflexivity|]. split; [reflexivity|].
  split.
  - unfold getAccounts. do 2 f_equal.
    change (accounts db') with (put a_id A (accounts db)).
    destruct (filter_put_split a_id (fun a => String.eqb (budgetId a) bid) A (accounts db)
                Hfresh (String.eqb_refl bid)) as [l1 [l2 [H1 H2]]].
    rewrite H2. unfold accounts_of_budget in *. rewrite H1 in *.
    apply sort_by_sortOrder_last. intros x Hx. apply Hlt.
    exact (Permutation_in _ (Permutation_sym (sort_by_sortOrder_perm _)) Hx).
  - intros other Hne. unfold getAccounts, accounts_of_budget. do 3 f_equal.
    change (accounts db') with (put a_id A (accounts db)).
    apply filter_put_fresh; [|exact Hfresh].
    simpl. apply String.eqb_neq. congruence.
Qed.

Lemma X21_createAccount_appends_witness :
  exists db' A,
    createAccount "a0" "b1" (mkAccountData "Cold storage" false None) sample_db = (db', Ok A) /\
    get a_id "a0" (accounts db') = Some A /\
    balance A = number_or_zero None /\
    isClosed A = false /\
    getAccounts "b1" db' = (db', Ok (accounts_of_budget "b1" sample_db ++ [A])%list) /\
    (forall other, other <> "b1" ->
       getAccounts other db' = (db', Ok (accounts_of_budget other sample_db))).
Proof.
  apply (X21_createAccount_appends sample_db "a0" "b1" (mkAccountData "Cold storage" false None)).
  reflexivity.
Defined.

(** ** Truncating an address *)

Lemma length_append s1 s2 :
  String.length (s1 ++ s2) = (String.length s1 + String.length s2)%nat.
Proof. induction s1 as [|c s IH]; simpl; [reflexivity | now rewrite IH]. Qed.

Lemma length_substring s :
  forall n m, (n + m <= String.length s)%nat -> String.length (String.substring n m s) = m.
Proof.
  induction s as [|c s IH]; intros n m H; simpl in *.
  - destruct n; destruct m; simpl; try reflexivity; lia.
  - destruct n; simpl.
    + destruct m; simpl; [reflexivity|]. f_equal. apply (IH 0%nat). lia.
    + apply IH. lia.
Qed.

(** X22. [truncateAddress address chars] returns the address itself when it
    has at most [2 * chars] characters. Otherwise, for [chars > 0], it
    returns the first [chars] characters, "..." and the last [chars]
    characters, a string of exactly [2 * chars + 3] characters: an address
    of [2 * chars + 1] or [2 * chars + 2] characters becomes longer. *)
Theorem X22_truncateAddress_length :
  forall address chars,
    ((String.length address <= 2 * chars)%nat ->
     truncateAddress address chars = address) /\
    ((2 * chars < String.length address)%nat -> (0 < chars)%nat ->
     truncateAddress address chars =
       String.substring 0 chars address ++ "..."
       ++ String.substring (String.length address - chars) chars address /\
     String.length (truncateAddress address chars) = (2 * chars + 3)%nat).
Proof.
  intros address chars. unfold truncateAddress. split.
  - intros H. destruct (Nat.leb_spec (String.length address) (chars * 2)); [reflexivity|lia].
  - intros H Hpos.
    destruct (Nat.leb_spec (String.length address) (chars * 2)); [lia|].
    unfold slice_to, slice_last. destruct chars as [|c]; [lia|].
    split; [reflexivity|].
    rewrite !length_append, !length_substring by lia. simpl. lia.
Qed.

Lemma X22_truncateAddress_length_witness :
  truncateAddress "bc1qexample" 6 = "bc1qexample" /\
  (truncateAddress "bc1qexampleaddr" 6 =
     String.substring 0 6 "bc1qexampleaddr" ++ "..."
     ++ String.substring (String.length "bc1qexampleaddr" - 6) 6 "bc1qexampleaddr" /\
   String.length (truncateAddress "bc1qexampleaddr" 6) = (2 * 6 + 3)%nat).
Proof.
  split.
  - apply (X22_truncateAddress_length "bc1qexample" 6%nat). simpl. lia.
  - apply (X22_truncateAddress_length "bc1qexampleaddr" 6%nat); simpl; lia.
Defined.

(** ** Deleting a transfer whose synthesized transaction is found *)

Lemma find_put_only {V} (key : V -> string) (p : V -> bool) v l :
  (forall x, In x l -> p x = false) -> p v = true -> find p (put key v l) = Some v.
Proof.
  intros Hn Hp. induction l as [|a r IH]; simpl.
  - now rewrite Hp.
  - destruct (String_as_OT.compare (key v) (key a)); simpl.
    + now rewrite Hp.
    + now rewrite Hp.
    + rewrite (Hn a (or_introl eq_refl)). apply IH. intros x Hx. apply Hn. now right.
Qed.

Lemma double_deleteTransfer_in_run db id tr C :
  ordered t_id (transactions db) = true ->
  get tr_id id (transfers db) = Some tr ->
  fromCategoryId tr = UNASSIGNED_CATEGORY_ID ->
  get c_id (toCategoryId tr) (categories db) = Some C ->
  (forall t, find (matches_transfer_in tr C) (transactions db) = Some t ->
             includes (tags t) "account-transfer" = false) ->
  isSafeInteger (currentAmount C - tr_amount tr) = true ->
  Double.deleteTransfer id db = (after_delete_transfer_in id tr C db, Ok tt).
Proof.
  intros Hord Htr Hfrom HC Hplain Hsafe.
  unfold Double.deleteTransfer. unfold bind at 1. unfold getTransfer, getData.
  cbn [s_read s_key TRANSFERS]. cbv beta iota. rewrite Htr. cbv beta iota.
  unfold bind at 1. rewrite Hfrom, String.eqb_refl.
  unfold bind at 1. unfold getCategory at 1, getData.
  cbn [s_read s_key CATEGORIES]. cbv beta iota. rewrite HC. cbv beta iota.
  rewrite (number_sub_safe _ _ Hsafe).
  unfold bind at 1. unfold getAllTransactions, getAllData.
  cbn [s_read TRANSACTIONS]. cbv beta iota.
  unfold after_delete_transfer_in.
  fold (matches_transfer_in tr C).
  change (fun t : Transaction =>
            (amount t =? - tr_amount tr)
            && String.eqb (description t) ("Transfer to " ++ c_name C)
            && includes (tags t) "transfer")
    with (matches_transfer_in tr C).
  unfold bind at 1.
  destruct (find (matches_transfer_in tr C) (transactions db)) as [t|] eqn:F.
  - pose proof (Hplain t eq_refl) as Hnot.
    apply find_some in F. destruct F as [Fin Fp].
    assert (Htag : includes (tags t) "transfer" = true).
    { unfold matches_transfer_in in Fp. now apply andb_prop in Fp. }
    assert (Hrev : account_reverses t = false).
    { unfold account_reverses. rewrite Hnot, Htag. now rewrite andb_false_r. }
    rewrite (double_deleteTransaction_run db (t_id t) t).
    + unfold bind at 1.
      rewrite (updateCategory_run _ _ C)
        by (rewrite categories_after_delete_tagged; assumption).
      cbv beta iota. unfold ret at 1. reflexivity.
    + now apply ordered_get_In.
    + intros cid c H. rewrite (category_of_tagged t Htag) in H. discriminate.
    + intros a H. rewrite Hrev in H. discriminate.
  - unfold ret at 1. unfold bind at 1.
    rewrite (updateCategory_run _ _ C) by assumption.
    cbv beta iota. unfold ret at 1. reflexivity.
Qed.

(** X23. When a transfer from the unassigned pool to a stored category C
    is created with the description "Transfer to " followed by C's name,
    no stored transaction has that description together with the amount
    and the "transfer" tag, and C's [currentAmount] is a safe integer both
    before and with the amount added, deleting the transfer finds the
    synthesized transaction and removes it: every category is stored with
    the [currentAmount] it had before the create, and the transaction,
    transfer and account stores are what they were.  (C's record has been
    rewritten, and with it its [updatedAt].) *)
Theorem X23_transfer_in_round_trip :
  forall db uuid txUuid input C,
    well_formed db = true ->
    ti_fromCategoryId input = UNASSIGNED_CATEGORY_ID ->
    get c_id (ti_toCategoryId input) (categories db) = Some C ->
    get t_id txUuid (transactions db) = None ->
    get tr_id uuid (transfers db) = None ->
    ti_description input = Some ("Transfer to " ++ c_name C) ->
    (forall t, In t (transactions db) ->
               matches_transfer_in (transfer_of uuid input) C t = false) ->
    isSafeInteger (currentAmount C) = true ->
    isSafeInteger (currentAmount C + ti_amount input) = true ->
    exists db1 db2,
      Double.createTransfer uuid txUuid input db = (db1, Ok (transfer_of uuid input)) /\
      Double.deleteTransfer uuid db1 = (db2, Ok tt) /\
      (forall cid, stored_currentAmount db2 cid = stored_currentAmount db cid) /\
      transactions db2 = transactions db /\
      transfers db2 = transfers db /\
      accounts db2 = accounts db.
Proof.
  intros db uuid txUuid input C Hwf Hfrom HC Htx Htr Hdesc Hnone Hsafe Hsafe'.
  destruct (well_formed_parts db Hwf) as [_ [_ [Hoc [Hot _]]]].
  pose proof (get_Some_key _ _ _ _ _ HC) as Hkey.
  set (a := ti_amount input) in *.
  set (t := synthesized_transaction txUuid (- a) (ti_description input) EXPENSE).
  set (tr := transfer_of uuid input).
  set (C1 := merge_category C (set_currentAmount (currentAmount C + a))).
  set (db1 := after_transfer_in uuid txUuid input C db).
  assert (Hcats1 : categories db1 = put c_id C1 (categories db)) by reflexivity.
  assert (Htxs1 : transactions db1 = put t_id t (transactions db)) by reflexivity.
  assert (HC1 : get c_id (toCategoryId tr) (categories db1) = Some C1).
  { rewrite Hcats1. change (toCategoryId tr) with (ti_toCategoryId input).
    rewrite <- Hkey. change (c_id C) with (c_id C1). apply get_put_same. }
  assert (Hmatch : matches_transfer_in tr C1 t = true).
  { unfold matches_transfer_in. change (c_name C1) with (c_name C).
    subst t. simpl. rewrite Hdesc. simpl.
    now rewrite Z.eqb_refl, String.eqb_refl. }
  assert (Hfind : find (matches_transfer_in tr C1) (transactions db1) = Some t).
  { rewrite Htxs1. apply find_put_only; [exact Hnone | exact Hmatch]. }
  exists db1, (after_delete_transfer_in uuid tr C1 db1).
  split; [now apply double_createTransfer_in_run|].
  split.
  { apply double_deleteTransfer_in_run; try assumption.
    - rewrite Htxs1. now apply ordered_put.
    - change (transfers db1) with (put tr_id tr (transfers db)).
      change uuid with (tr_id tr). apply get_put_same.
    - intros t' Ht'. rewrite Hfind in Ht'. now injection Ht' as <-.
    - change (currentAmount C1 - tr_amount tr) with (currentAmount C + a - a).
      replace (currentAmount C + a - a) with (currentAmount C) by lia.
      exact Hsafe. }
  unfold after_delete_transfer_in. rewrite Hfind.
  assert (Hdel : after_delete t db1 =
                 log (W_delete "transactions" txUuid)
                     (s_write TRANSACTIONS (remove t_id txUuid (transactions db1)) db1))
    by reflexivity.
  rewrite Hdel.
  unfold remove_transfer, put_category, stored_currentAmount.
  cbn [categories transactions transfers accounts log s_write TRANSFERS CATEGORIES TRANSACTIONS].
  split.
  { intros cid. f_equal. f_equal.
    rewrite Hcats1. unfold C1 at 1 2. rewrite merge_category_back.
    rewrite put_put by reflexivity.
    apply put_same; [assumption | now rewrite Hkey]. }
  split.
  { rewrite Htxs1. change txUuid with (t_id t) at 1. now apply remove_put_fresh. }
  split; [|reflexivity].
  change (transfers db1) with (put tr_id tr (transfers db)).
  change uuid with (tr_id tr) at 1. now apply remove_put_fresh.
Qed.

Lemma X23_transfer_in_round_trip_witness :
  exists db1 db2,
    Double.createTransfer "f1" "t9"
      (mkTransferInput "unassigned" "c1" 7000 (Some "Transfer to Food")) sample_db_spent
      = (db1, Ok (transfer_of "f1"
                    (mkTransferInput "unassigned" "c1" 7000 (Some "Transfer to Food")))) /\
    Double.deleteTransfer "f1" db1 = (db2, Ok tt) /\
    (forall cid, stored_currentAmount db2 cid = stored_currentAmount sample_db_spent cid) /\
    transactions db2 = transactions sample_db_spent /\
    transfers db2 = transfers sample_db_spent /\
    accounts db2 = accounts sample_db_spent.
Proof.
  apply (X23_transfer_in_round_trip sample_db_spent "f1" "t9"
           (mkTransferInput "unassigned" "c1" 7000 (Some "Transfer to Food"))
           (mkCategory "c1" "Food" 500000 (-25000) false)); try reflexivity.
  intros t [<-|[]]. reflexivity.
Defined.

(** ** Changing an amount keeps the balances reconciled *)



